(** * movie-repository-api: the checkpointed ingestion orchestrator

    A shallow embedding of [movie_repository/infra/fetch.py]: the score
    coercion, the orchestrator [abstract_run_with_checkpoint] and the three
    source adapters that drive it (Bilibili, Tencent, iQiYi), followed by the
    properties of the design document that concern them, and by the read
    of one page of the collection in [api/router/fetch_router.py]. *)

From Stdlib Require Import ZArith List Ascii Lia SpecFloat.
From stdpp Require Import gmap strings pretty.
Import ListNotations.

Local Open Scope Z_scope.
Local Set Warnings "-register-all".

(** ** Python objects *)

(** Exception classes the module can raise or let through.  [JSONDecodeError]
    is a subclass of [ValueError]; [ContentTypeError] and [ClientError] come
    from aiohttp, [WriteError] stands for whatever the database driver
    raises. *)
Inductive Exn : Type :=
| ValueError
| JSONDecodeError
| TypeError
| KeyError
| IndexError
| AttributeError
| OverflowError
| ContentTypeError
| ClientError
| WriteError (reason : string).

(** [isinstance(e, ValueError)], the test of [except ValueError]. *)
Definition is_ValueError (e : Exn) : bool :=
  match e with
  | ValueError | JSONDecodeError => true
  | _ => false
  end.

(** [isinstance(e, IndexError)], the test of [except IndexError]. *)
Definition is_IndexError (e : Exn) : bool :=
  match e with
  | IndexError => true
  | _ => false
  end.

(** The outcome of evaluating an expression: a value, or a raised exception. *)
Inductive Outcome (A : Type) : Type :=
| Return (a : A)
| Raise (e : Exn).
Arguments Return {A} a.
Arguments Raise {A} e.

Global Instance Outcome_ret : MRet Outcome := fun A a => Return a.
Global Instance Outcome_bind : MBind Outcome := fun A B f m =>
  match m with
  | Return a => f a
  | Raise e => Raise e
  end.

(** binary64, the format of Python's [float]. *)
Definition float64 : Type := spec_float.
Definition prec64 : Z := 53.
Definition emax64 : Z := 1024.

(** The values JSON decoding produces, which are the values the adapters
    handle.  A [dict] keeps its insertion order; its keys are strings.  A
    [str] is kept as its UTF-8 text. *)
Inductive PyValue : Type :=
| PyNone
| PyBool (b : bool)
| PyInt (n : Z)
| PyFloat (x : float64)
| PyStr (s : string)
| PyList (items : list PyValue)
| PyDict (entries : list (string * PyValue)).

(** ** Operations on [str] *)

Module Str.

(** A byte that continues a UTF-8 sequence. *)
Definition continuation (c : ascii) : bool :=
  let n := nat_of_ascii c in (128 <=? n)%nat && (n <? 192)%nat.

Fixpoint chars_from (s : string) : string * list string :=
  match s with
  | EmptyString => (EmptyString, [])
  | String c rest =>
      let (tail, cs) := chars_from rest in
      if continuation c then (String c tail, cs) else (EmptyString, String c tail :: cs)
  end.

(** The characters of a text, each as its UTF-8 sequence. *)
Definition chars (s : string) : list string := snd (chars_from s).

(** [sub in s] *)
Definition contains (sub s : string) : bool :=
  match String.index 0 sub s with
  | Some _ => true
  | None => false
  end.

(** [s.removeprefix(p)] *)
Definition removeprefix (p s : string) : string :=
  if String.prefix p s
  then String.substring (String.length p) (String.length s - String.length p) s
  else s.

(** [s.removesuffix(p)] *)
Definition removesuffix (p s : string) : string :=
  let keep := (String.length s - String.length p)%nat in
  if (String.length p <=? String.length s)%nat
     && String.eqb (String.substring keep (String.length p) s) p
  then String.substring 0 keep s
  else s.

(** The line feed, ['\n']. *)
Definition newline : ascii := "010".

(** [s.split(sep)] for a separator of one character. *)
Fixpoint split (sep : ascii) (s : string) : list string :=
  match s with
  | EmptyString => [EmptyString]
  | String c rest =>
      if Ascii.eqb c sep then EmptyString :: split sep rest
      else
        match split sep rest with
        | piece :: pieces => String c piece :: pieces
        | [] => [String c EmptyString]
        end
  end.

Fixpoint replace_from (old new : string) (skip : nat) (s : string) : string :=
  match s with
  | EmptyString => EmptyString
  | String c rest =>
      match skip with
      | S k => replace_from old new k rest
      | O =>
          if String.prefix old s
          then new +:+ replace_from old new (String.length old - 1) rest
          else String c (replace_from old new 0 rest)
      end
  end.

(** [s.replace(old, new)] for a non-empty [old]: every occurrence, left to
    right, without overlap. *)
Definition replace (old new s : string) : string := replace_from old new 0 s.

End Str.

(** ** Operations on JSON values *)

(** [d[key]] on the entries of a [dict]. *)
Fixpoint dict_lookup (key : string) (entries : list (string * PyValue)) : option PyValue :=
  match entries with
  | [] => None
  | (k, v) :: rest => if String.eqb k key then Some v else dict_lookup key rest
  end.

(** [d[key] = value] on the entries of a [dict]: an existing key keeps its
    place, a new one goes last. *)
Fixpoint dict_set (key : string) (value : PyValue) (entries : list (string * PyValue))
    : list (string * PyValue) :=
  match entries with
  | [] => [(key, value)]
  | (k, v) :: rest =>
      if String.eqb k key then (k, value) :: rest else (k, v) :: dict_set key value rest
  end.

(** [obj[key]] for a [str] key. *)
Definition getitem (obj : PyValue) (key : string) : Outcome PyValue :=
  match obj with
  | PyDict entries =>
      match dict_lookup key entries with
      | Some v => Return v
      | None => Raise KeyError
      end
  | _ => Raise TypeError
  end.

(** [obj[i]] for an [int] index; a negative index counts from the end. *)
Definition getindex (obj : PyValue) (i : Z) : Outcome PyValue :=
  let at_ {A} (l : list A) : option A :=
    let n := Z.of_nat (length l) in
    let j := if i <? 0 then i + n else i in
    if (0 <=? j) && (j <? n) then nth_error l (Z.to_nat j) else None in
  match obj with
  | PyList items =>
      match at_ items with
      | Some v => Return v
      | None => Raise IndexError
      end
  | PyStr s =>
      match at_ (Str.chars s) with
      | Some c => Return (PyStr c)
      | None => Raise IndexError
      end
  | PyDict _ => Raise KeyError
  | _ => Raise TypeError
  end.

(** [key in obj] for a [str] key. *)
Definition contains (obj : PyValue) (key : string) : Outcome bool :=
  match obj with
  | PyDict entries => Return (bool_decide (is_Some (dict_lookup key entries)))
  | PyList items =>
      Return (existsb (fun v => match v with PyStr s => String.eqb s key | _ => false end) items)
  | PyStr s => Return (Str.contains key s)
  | _ => Raise TypeError
  end.

(** [obj.get(key, default)] *)
Definition dict_get (obj : PyValue) (key : string) (default : PyValue) : Outcome PyValue :=
  match obj with
  | PyDict entries =>
      match dict_lookup key entries with
      | Some v => Return v
      | None => Return default
      end
  | _ => Raise AttributeError
  end.

(** The items [for x in obj] goes through. *)
Definition iterate (obj : PyValue) : Outcome (list PyValue) :=
  match obj with
  | PyList items => Return items
  | PyDict entries => Return (map (fun kv => PyStr (fst kv)) entries)
  | PyStr s => Return (map PyStr (Str.chars s))
  | _ => Raise TypeError
  end.

(** [obj[k1]...[kn][key] = value]: the assignment reaches into the object
    and changes it in place. *)
Fixpoint assign_at (path : list string) (key : string) (value : PyValue) (obj : PyValue)
    : Outcome PyValue :=
  match path with
  | [] =>
      match obj with
      | PyDict entries => Return (PyDict (dict_set key value entries))
      | _ => Raise TypeError
      end
  | k :: path' =>
      inner ← getitem obj k;
      inner' ← assign_at path' key value inner;
      match obj with
      | PyDict entries => Return (PyDict (dict_set k inner' entries))
      | _ => Raise TypeError
      end
  end.

(** [obj != 0] *)
Definition differs_from_zero (obj : PyValue) : bool :=
  match obj with
  | PyInt n => negb (n =? 0)
  | PyBool b => b
  | PyFloat (S754_zero _) => false
  | _ => true
  end.

(** ** Score coercion *)

Section Coercion.

(** What [float] makes of a [str]: the number it denotes, or [None] where
    [float] raises [ValueError]. *)
Variable float_of_str : string -> option float64.

(** [float(value)].  An [int] is rounded to the nearest binary64 and is an
    [OverflowError] beyond its range; [bool] is a subclass of [int]; objects
    without [__float__] are a [TypeError]. *)
Definition py_float (value : PyValue) : Outcome float64 :=
  match value with
  | PyFloat x => Return x
  | PyInt n =>
      match binary_normalize prec64 emax64 n 0 false with
      | S754_infinity _ => Raise OverflowError
      | x => Return x
      end
  | PyBool b => Return (binary_normalize prec64 emax64 (if b then 1 else 0) 0 false)
  | PyStr s =>
      match float_of_str s with
      | Some x => Return x
      | None => Raise ValueError
      end
  | PyNone | PyList _ | PyDict _ => Raise TypeError
  end.

(** [safe_float_conversion(value, default)]: only [ValueError] is caught. *)
Definition safe_float_conversion (value : PyValue) (default : float64) : Outcome float64 :=
  match py_float value with
  | Return x => Return x
  | Raise e => if is_ValueError e then Return default else Raise e
  end.

End Coercion.

(** The sentinel score [-1.0], the default of [safe_float_conversion]. *)
Definition minus_one : float64 := S754_finite true 4503599627370496 (-52).

(** ** Effects

    A computation over a mutable state [S] either returns or raises; the state
    it reached is kept in both cases, so what was written before an exception
    stays written. *)
Definition Eff (S A : Type) : Type := S -> Outcome A * S.

Global Instance Eff_ret {S} : MRet (Eff S) := fun A a s => (Return a, s).
Global Instance Eff_bind {S} : MBind (Eff S) := fun A B f m s =>
  match m s with
  | (Return a, s') => f a s'
  | (Raise e, s') => (Raise e, s')
  end.

(** [raise e] *)
Definition raise {S A} (e : Exn) : Eff S A := fun s => (Raise e, s).

(** An expression without effect on the state, which may raise. *)
Definition eval {S A} (o : Outcome A) : Eff S A := fun s => (o, s).

(** Reading the state. *)
Definition gets {S A} (f : S -> A) : Eff S A := fun s => (Return (f s), s).

(** A statement that only changes the state. *)
Definition modify {S} (f : S -> S) : Eff S unit := fun s => (Return tt, f s).

(** [try: body except <class>: handler] *)
Definition try_except {S A} (body : Eff S A) (caught : Exn -> bool) (handler : Eff S A) : Eff S A :=
  fun s =>
    match body s with
    | (Raise e, s') => if caught e then handler s' else (Raise e, s')
    | r => r
    end.

(** [await asyncio.gather] over tasks that only read the network: the
    results in the order of the tasks when all return, and an exception as
    soon as one raises.  Which exception surfaces when several tasks fail
    depends on their timing; the model takes the first in task order. *)
Fixpoint gather {A} (tasks : list (Outcome A)) : Outcome (list A) :=
  match tasks with
  | [] => Return []
  | t :: rest =>
      match t with
      | Raise e => Raise e
      | Return a =>
          match gather rest with
          | Return others => Return (a :: others)
          | Raise e => Raise e
          end
      end
  end.

(** ** Data model *)

(** Modelled from the spec: the dataclass [MovieEntity] of
    [movie_repository/entity], the canonical entity.  Its fields are those the
    adapters pass to the constructor, in the order of the data model;
    [movie_type] and [directors] are empty when omitted.  Attributes taken
    from a response are kept as the JSON values they are. *)
Record MovieEntity : Type := mkMovieEntity {
  title : PyValue;
  cover_url : PyValue;
  intro : PyValue;
  score : float64;
  actors : list PyValue;
  directors : list PyValue;
  movie_type : list PyValue;
  release_date : PyValue;
  metadata : list (string * PyValue)
}.

(** A record as the storage sink receives it: a [dict] from field names. *)
Definition Document : Type := list (string * PyValue).

(** [dataclasses.asdict(movie)] *)
Definition asdict (movie : MovieEntity) : Document :=
  [ ("title", title movie);
    ("cover_url", cover_url movie);
    ("intro", intro movie);
    ("score", PyFloat (score movie));
    ("actors", PyList (actors movie));
    ("directors", PyList (directors movie));
    ("movie_type", PyList (movie_type movie));
    ("release_date", release_date movie);
    ("metadata", PyDict (metadata movie)) ].

(** Modelled from the spec: [Status] of [warmup.py], the two states of a
    trace, as the orchestrator names them. *)
Inductive Status : Type := PENDING | FINISHED.

Global Instance Status_eq_dec : EqDecision Status.
Proof. solve_decision. Defined.

(** Modelled from the spec: a task identifier, unique within its category.
    It is kept as the category and a serial number within that category. *)
Definition TaskId : Type := (string * nat)%type.

(** A timestamp as the orchestrator formats it,
    [datetime.now().strftime('%Y-%m-%d %H%M%S.%f')[:-3]]: the wall clock cut to
    milliseconds.  The text is fixed-width and ordered as the instants are, so
    it is kept as the number of milliseconds. *)
Definition Timestamp : Type := Z.

(** Modelled from the spec: one event of the trace recorder of [warmup.py],
    of the same shape in the batch and in the persistence namespace, with the
    attributes the orchestrator passes; the end is absent until FINISHED. *)
Record TraceEvent : Type := mkTraceEvent {
  ev_task_id : TaskId;
  ev_source : string;
  ev_batch : Z;
  ev_pagesize : Z;
  ev_status : Status;
  ev_begin : Timestamp;
  ev_end : option Timestamp
}.

(** Module-level state the adapters reach: the request templates held as
    class attributes and the raw snapshot cache. *)
Record Shared : Type := mkShared {
  bilibili_params : PyValue;
  tencent_payload : PyValue;
  iqiyi_params : PyValue;
  snapshots : gmap (string * Z) PyValue
}.

(** Everything an orchestrator run can read or change. *)
Record World : Type := mkWorld {
  shared : Shared;
  clock_reads : nat;
  issued : gmap string nat;
  batch_trace : list TraceEvent;
  db_trace : list TraceEvent;
  stored : list Document;
  insert_calls : list (list Document);
  sleeps : list Z
}.

Definition set_shared (s : Shared) (w : World) : World :=
  mkWorld s (clock_reads w) (issued w) (batch_trace w) (db_trace w)
          (stored w) (insert_calls w) (sleeps w).
Definition set_clock_reads (n : nat) (w : World) : World :=
  mkWorld (shared w) n (issued w) (batch_trace w) (db_trace w)
          (stored w) (insert_calls w) (sleeps w).
Definition set_issued (m : gmap string nat) (w : World) : World :=
  mkWorld (shared w) (clock_reads w) m (batch_trace w) (db_trace w)
          (stored w) (insert_calls w) (sleeps w).
Definition set_batch_trace (l : list TraceEvent) (w : World) : World :=
  mkWorld (shared w) (clock_reads w) (issued w) l (db_trace w)
          (stored w) (insert_calls w) (sleeps w).
Definition set_db_trace (l : list TraceEvent) (w : World) : World :=
  mkWorld (shared w) (clock_reads w) (issued w) (batch_trace w) l
          (stored w) (insert_calls w) (sleeps w).
Definition set_stored (l : list Document) (w : World) : World :=
  mkWorld (shared w) (clock_reads w) (issued w) (batch_trace w) (db_trace w)
          l (insert_calls w) (sleeps w).
Definition set_insert_calls (l : list (list Document)) (w : World) : World :=
  mkWorld (shared w) (clock_reads w) (issued w) (batch_trace w) (db_trace w)
          (stored w) l (sleeps w).
Definition set_sleeps (l : list Z) (w : World) : World :=
  mkWorld (shared w) (clock_reads w) (issued w) (batch_trace w) (db_trace w)
          (stored w) (insert_calls w) l.

(** ** Collaborators of the orchestrator *)

(** Modelled from the spec: [generate_key] of [warmup.py], the key generator.
    It returns a value distinct from every other value it has returned in the
    category: the next serial number of that category. *)
Definition generate_key (category : string) : Eff World TaskId := fun w =>
  let serial := default 0%nat (issued w !! category) in
  (Return (category, serial), set_issued (<[category := S serial]> (issued w)) w).

(** Modelled from the spec: [WarmupHandler.put_batch_trace] of [warmup.py].
    Each call appends one immutable event and does not look at earlier ones;
    the recorder is taken as never failing. *)
Definition put_batch_trace (task_id : TaskId) (source : string) (batch pagesize : Z)
    (status : Status) (begin : Timestamp) (end_ : option Timestamp) : Eff World unit :=
  modify (fun w =>
    set_batch_trace
      (batch_trace w ++ [mkTraceEvent task_id source batch pagesize status begin end_]) w).

(** Modelled from the spec: [WarmupHandler.put_db_trace] of [warmup.py], the
    same recorder for the persistence namespace. *)
Definition put_db_trace (task_id : TaskId) (platform : string) (batch pagesize : Z)
    (status : Status) (begin : Timestamp) (end_ : option Timestamp) : Eff World unit :=
  modify (fun w =>
    set_db_trace
      (db_trace w ++ [mkTraceEvent task_id platform batch pagesize status begin end_]) w).

(** The wall clock: its successive readings, in microseconds. *)
Definition Clock : Type := nat -> Z.

(** [datetime.now().strftime(time_formatter)[:-3]]: the next reading of the
    wall clock, cut to milliseconds. *)
Definition now_text (wall_clock : Clock) : Eff World Timestamp := fun w =>
  (Return (wall_clock (clock_reads w) / 1000), set_clock_reads (S (clock_reads w)) w).

(** The storage sink, a collection of the database.  Whether a write of the
    records handed over is refused is decided outside the program: by the
    state of the database and by the driver.  So is the [ObjectId] the driver
    makes for the record at a position of the list handed to its n-th call. *)
Record Collection : Type := mkCollection {
  refuses : list Document -> option Exn;
  object_id : nat -> nat -> PyValue
}.

(** What the driver does to one record before it sends it:
    [if "_id" not in document: document["_id"] = ObjectId()]. *)
Definition with_id (oid : PyValue) (document : Document) : Document :=
  match dict_lookup "_id" document with
  | Some _ => document
  | None => dict_set "_id" oid document
  end.

(** The records of a call as the driver leaves them. *)
Definition with_ids (collection : Collection) (call : nat) (documents : list Document)
    : list Document :=
  imap (fun position => with_id (object_id collection call position)) documents.

(** [await collection.insert_many(documents)]: the driver gives every record
    that has none its [_id], changing the records of the caller's list in
    place; the sink receives the call, and appends the records unless it
    refuses the write.  The list is handed back as the call left it, for the
    caller that goes on using it. *)
Definition insert_many (collection : Collection) (documents : list Document)
    : Eff World (list Document) :=
  fun w =>
    let sent := with_ids collection (length (insert_calls w)) documents in
    let w' := set_insert_calls (insert_calls w ++ [sent]) w in
    match refuses collection documents with
    | Some e => (Raise e, w')
    | None => (Return sent, set_stored (stored w' ++ sent) w')
    end.

(** [await asyncio.sleep(seconds)] *)
Definition sleep (seconds : Z) : Eff World unit :=
  modify (fun w => set_sleeps (sleeps w ++ [seconds]) w).

(** [await async_func()]: the adapter runs on the module-level state. *)
Definition await_fetch {A} (async_func : Eff Shared A) : Eff World A := fun w =>
  let (r, s) := async_func (shared w) in (r, set_shared s w).

(** ** The orchestrator

    [abstract_run_with_checkpoint], statement by statement; the two log lines
    are left out.  The trace recorder [warmup] is the pair of traces of the
    world.  [documents] names one list throughout: the run returns it as
    [insert_many] left it. *)

Definition abstract_run_with_checkpoint (wall_clock : Clock)
    (platform : string) (collection : Collection) (page pagesize : Z)
    (async_func : Eff Shared (list MovieEntity)) : Eff World (list Document) :=
  batch_task_id ← generate_key "BATCH.TASK";
  batch_begin_time ← now_text wall_clock;
  put_batch_trace batch_task_id platform page pagesize PENDING batch_begin_time None;;
  batch_results ← await_fetch async_func;
  batch_end_time ← now_text wall_clock;
  put_batch_trace batch_task_id platform page pagesize FINISHED
                  batch_begin_time (Some batch_end_time);;
  let documents := map asdict batch_results in
  db_task_id ← generate_key "DB.TASK";
  db_begin_time ← now_text wall_clock;
  put_db_trace db_task_id platform page pagesize PENDING db_begin_time None;;
  documents ← insert_many collection documents;
  db_end_time ← now_text wall_clock;
  put_db_trace db_task_id platform page pagesize FINISHED
               db_begin_time (Some db_end_time);;
  sleep 1;;
  mret documents.

(** ** The environment of the adapters *)

(** An HTTP response, through the accessors the adapters use. *)
Record Response : Type := mkResponse {
  status : Z;
  text : string;
  json : Outcome PyValue
}.

(** What lies outside the module: the wall clock, the network, and the
    library functions whose results the adapters only pass on. *)
Record Host : Type := mkHost {
  wall_clock : Clock;
  (** [float(s)] on a [str], [None] for [ValueError] *)
  float_of_str : string -> option float64;
  (** [str(obj)] of a [float], a [list] or a [dict] *)
  repr : PyValue -> string;
  (** [json.loads(s)] *)
  json_loads : string -> Outcome PyValue;
  (** [session.get(url, params=params)] up to the response *)
  http_get : string -> option PyValue -> Outcome Response;
  (** [session.post(url, json=payload)] up to the response *)
  http_post : string -> PyValue -> Outcome Response;
  (** the text nodes of the cast block of an episode page, each stripped,
      joined: [etree.HTML], the XPath query, [strip] and [join] *)
  cast_text : string -> Outcome string;
  (** [re.findall] of the embedded store of a cover page *)
  findall_pinia : string -> list string
}.

(** [str(obj)] *)
Definition py_str (host : Host) (obj : PyValue) : string :=
  match obj with
  | PyStr s => s
  | PyInt n => pretty n
  | PyNone => "None"
  | PyBool true => "True"
  | PyBool false => "False"
  | _ => repr host obj
  end.

(** [json.loads(obj)]: only text can be decoded. *)
Definition py_json_loads (host : Host) (obj : PyValue) : Outcome PyValue :=
  match obj with
  | PyStr s => json_loads host s
  | _ => Raise TypeError
  end.

Definition set_bilibili_params (v : PyValue) (s : Shared) : Shared :=
  mkShared v (tencent_payload s) (iqiyi_params s) (snapshots s).
Definition set_tencent_payload (v : PyValue) (s : Shared) : Shared :=
  mkShared (bilibili_params s) v (iqiyi_params s) (snapshots s).
Definition set_iqiyi_params (v : PyValue) (s : Shared) : Shared :=
  mkShared (bilibili_params s) (tencent_payload s) v (snapshots s).
Definition set_snapshots (m : gmap (string * Z) PyValue) (s : Shared) : Shared :=
  mkShared (bilibili_params s) (tencent_payload s) (iqiyi_params s) m.

(** Modelled from the spec: [write_in] of [init_config.py], the raw snapshot
    cache.  A capture for a (source, page) already present overwrites it. *)
Definition write_in (platform : string) (page pagesize : Z) (raw : PyValue) : Eff Shared unit :=
  modify (fun s => set_snapshots (<[(platform, page) := raw]> (snapshots s)) s).

(** [filter_strings(strings)] *)
Definition filter_strings (strings : list string) : list string :=
  filter (fun s => negb (String.eqb s "")
                   && negb (Str.contains "《" s) && negb (Str.contains "》" s) = true) strings.

(** ** Bilibili *)

Module Bilibili.

Definition pagesize : Z := 60.
Definition platform : string := "bilibili".
Definition base_url : string := "https://api.bilibili.com/pgc/season/index/result".
Definition actors_url : string := "https://www.bilibili.com/bangumi/play/ep".

(** The class attribute [params] as the module defines it. *)
Definition params : PyValue :=
  PyDict [ ("area", PyInt (-1)); ("style_id", PyInt (-1)); ("release_date", PyInt (-1));
           ("season_status", PyInt (-1)); ("order", PyInt 2); ("st", PyInt 2);
           ("season_type", PyInt 2); ("sort", PyInt 0); ("page", PyInt 0);
           ("pagesize", PyInt 0); ("type", PyInt 1) ].

(** [Bilibili.params[key] = value] *)
Definition set_param (key : string) (value : PyValue) : Eff Shared unit := fun s =>
  match assign_at [] key value (bilibili_params s) with
  | Return v => (Return tt, set_bilibili_params v s)
  | Raise e => (Raise e, s)
  end.

Definition fetch_actors (host : Host) (ep_id : string) : Outcome (list string) :=
  response ← http_get host (actors_url +:+ ep_id) None;
  joined ← cast_text host (text response);
  mret (filter_strings (Str.split Str.newline (Str.removeprefix "出演演员：" joined))).

Definition create_movie_entity (host : Host) (item : PyValue) (eq_id : string)
    : Outcome MovieEntity :=
  actors ← fetch_actors host eq_id;
  title ← getitem item "title";
  cover ← getitem item "cover";
  sub_title ← dict_get item "subTitle" (PyStr "");
  raw_score ← dict_get item "score" (PyStr "");
  score ← safe_float_conversion (float_of_str host) raw_score minus_one;
  index_show ← getitem item "index_show";
  order ← getitem item "order";
  link ← getitem item "link";
  mret {| title := title;
          cover_url := cover;
          intro := sub_title;
          score := score;
          actors := map PyStr actors;
          directors := [];
          movie_type := [];
          release_date := PyStr (Str.removesuffix "上映" (py_str host index_show));
          metadata := [ ("source", PyStr "Bilibili");
                        ("id", PyStr eq_id);
                        ("order", PyStr (Str.removesuffix "次播放" (py_str host order)));
                        ("url", link) ] |}.

Definition handle_data (host : Host) (raw_film_data : PyValue) : Outcome (list MovieEntity) :=
  has_data ← contains raw_film_data "data";
  if (has_data : bool) then
    data_film_data ← getitem raw_film_data "data";
    has_list ← contains data_film_data "list";
    if (has_list : bool) then
      film_data ← getitem data_film_data "list";
      items ← iterate film_data;
      tasks ← mapM (fun item =>
                      first_ep ← getitem item "first_ep";
                      ep_id ← getitem first_ep "ep_id";
                      mret (create_movie_entity host item (py_str host ep_id))) items;
      gather tasks
    else mret []
  else mret [].

Definition raw_fetch_async (host : Host) (page : Z) : Eff Shared (list MovieEntity) :=
  set_param "page" (PyInt page);;
  set_param "pagesize" (PyInt pagesize);;
  request_params ← gets bilibili_params;
  response ← eval (http_get host base_url (Some request_params));
  if status response =? 200 then
    json_object ← eval (json response);
    write_in platform page pagesize json_object;;
    eval (handle_data host json_object)
  else mret [].

Definition run_async (host : Host) (collection : Collection) (page : Z)
    : Eff World (list Document) :=
  abstract_run_with_checkpoint (wall_clock host) platform collection page pagesize
                               (raw_fetch_async host page).

End Bilibili.


(** ** Tencent *)

Module Tencent.

Definition pagesize : Z := 30.
Definition platform : string := "tencent".
Definition base_url : string :=
  "https://pbaccess.video.qq.com/trpc.vector_layout.page_view.PageService/getPage?video_appid=3000010".

(** [Tencent.cover_url.format(cid=cid)] *)
Definition cover_url_of (host : Host) (cid : PyValue) : string :=
  "https://v.qq.com/x/cover/" +:+ py_str host cid +:+ ".html".

(** The class attribute [payload] as the module defines it. *)
Definition payload : PyValue :=
  PyDict
    [ ("page_context", PyDict [ ("page_index", PyStr "1") ]);
      ("page_params",
       PyDict [ ("page_id", PyStr "channel_list_second_page");
                ("page_type", PyStr "operation");
                ("channel_id", PyStr "100173");
                ("filter_params", PyStr "");
                ("page", PyStr "1");
                ("new_mark_label_enabled", PyStr "1") ]);
      ("page_bypass_params",
       PyDict [ ("params",
                 PyDict [ ("page_id", PyStr "channel_list_second_page");
                          ("page_type", PyStr "operation");
                          ("channel_id", PyStr "100173");
                          ("filter_params", PyStr "");
                          ("page", PyStr "1");
                          ("caller_id", PyStr "3000010");
                          ("platform_id", PyStr "2");
                          ("data_mode", PyStr "default");
                          ("user_mode", PyStr "default") ]);
                ("scene", PyStr "operation");
                ("abtest_bypass_id", PyStr "747ad9f34a4c8887") ]) ].

(** [Tencent.payload[k1]...[kn][key] = value] *)
Definition set_payload (path : list string) (key : string) (value : PyValue) : Eff Shared unit :=
  fun s =>
    match assign_at path key value (tencent_payload s) with
    | Return v => (Return tt, set_tencent_payload v s)
    | Raise e => (Raise e, s)
    end.

Definition get_movie_detail (host : Host) (cid : PyValue) (item : PyValue) : Outcome MovieEntity :=
  response ← http_get host (cover_url_of host cid) None;
  found ← match findall_pinia host (text response) with
           | m :: _ => Return m
           | [] => Raise IndexError
           end;
  let matches :=
    Str.replace "})" "}"
      (Str.replace "Array.prototype.slice.call(" ""
         (Str.replace "undefined" "null" found)) in
  json_object ← json_loads host matches;
  introduction ← getitem json_object "introduction";
  star_data ← getitem introduction "starData";
  actor_list ← getitem star_data "list";
  introduction' ← getitem json_object "introduction";
  intro_data ← getitem introduction' "introData";
  intro_list ← getitem intro_data "list";
  intro_first ← getindex intro_list 0;
  item_params ← getitem intro_first "item_params";
  imgtag_ver ← getitem item_params "imgtag_ver";
  tags ← py_json_loads host imgtag_ver;
  tag_4 ← getitem tags "tag_4";
  tag_text ← getitem tag_4 "text";
  score ← safe_float_conversion (float_of_str host)
             (PyStr (Str.removesuffix "分" (py_str host tag_text))) minus_one;
  global_data ← getitem json_object "global";
  cover_info ← getitem global_data "coverInfo";
  params ← getitem item "params";
  title ← getitem params "title";
  new_pic_vt ← getitem cover_info "new_pic_vt";
  description ← getitem cover_info "description";
  params' ← getitem item "params";
  main_genre ← getitem params' "main_genre";
  params'' ← getitem item "params";
  epsode_pubtime ← getitem params'' "epsode_pubtime";
  stars ← iterate actor_list;
  star_names ← mapM (fun star => getitem star "star_name") stars;
  video_ids ← getitem cover_info "video_ids";
  vid ← getindex video_ids 0;
  params''' ← getitem item "params";
  area_name ← getitem params''' "area_name";
  mret {| title := title;
          cover_url := new_pic_vt;
          intro := description;
          score := score;
          actors := star_names;
          directors := [];
          movie_type := [main_genre];
          release_date := epsode_pubtime;
          metadata := [ ("source", PyStr "Tencent");
                        ("cid", cid);
                        ("vid", vid);
                        ("area", area_name) ] |}.

(** [json_object["data"]["CardList"][i]["children_list"]["list"]["cards"]] *)
Definition cards_at (json_object : PyValue) (i : Z) : Outcome PyValue :=
  data ← getitem json_object "data";
  card_list ← getitem data "CardList";
  card ← getindex card_list i;
  children_list ← getitem card "children_list";
  children ← getitem children_list "list";
  getitem children "cards".

Definition get_movies (host : Host) (page : Z) : Eff Shared (list MovieEntity) :=
  set_payload ["page_context"] "page_index" (PyStr (pretty page));;
  set_payload ["page_params"] "page" (PyStr (pretty page));;
  set_payload ["page_bypass_params"; "params"] "page" (PyStr (pretty page));;
  request_payload ← gets tencent_payload;
  response ← eval (http_post host base_url request_payload);
  json_object ← eval (json_loads host (text response));
  write_in platform page 30 json_object;;
  ret ← eval (getitem json_object "ret");
  if differs_from_zero ret then
    _ ← eval (getitem json_object "msg");
    raise ValueError
  else
    cards ← try_except (eval (cards_at json_object 1)) is_IndexError
                       (eval (cards_at json_object 0));
    items ← eval (iterate cards);
    tasks ← eval (mapM (fun item =>
                          params ← getitem item "params";
                          cid ← getitem params "cid";
                          mret (get_movie_detail host cid item)) items);
    movie_entities ← eval (gather tasks);
    mret ([] ++ movie_entities).

Definition raw_fetch_async (host : Host) (page : Z) : Eff Shared (list MovieEntity) :=
  get_movies host page.

Definition run_async (host : Host) (collection : Collection) (page : Z)
    : Eff World (list Document) :=
  abstract_run_with_checkpoint (wall_clock host) platform collection page pagesize
                               (raw_fetch_async host page).

End Tencent.

(** ** iQiYi *)

Module IQiYi.

Definition pagesize : Z := 24.
Definition platform : string := "iqiyi".
Definition base_url : string := "https://mesh.if.iqiyi.com/portal/lw/videolib/data".

(** The class attribute [params] as the module defines it. *)
Definition params : PyValue :=
  PyDict [ ("ret_num", PyStr "60"); ("channel_id", PyStr "1"); ("page_id", PyStr "0") ].

(** [IQiYi.params[key] = value] *)
Definition set_param (key : string) (value : PyValue) : Eff Shared unit := fun s =>
  match assign_at [] key value (iqiyi_params s) with
  | Return v => (Return tt, set_iqiyi_params v s)
  | Raise e => (Raise e, s)
  end.

(** [[x['name'] for x in people]] *)
Definition names_of (people : PyValue) : Outcome (list PyValue) :=
  xs ← iterate people;
  mapM (fun x => getitem x "name") xs.

(** The entity built from one element of the response's [data]. *)
Definition entity_of (host : Host) (data : PyValue) : Outcome MovieEntity :=
  title ← getitem data "title";
  hover ← getitem data "album_image_url_hover";
  creator ← getitem data "creator";
  directors ← names_of creator;
  contributor ← getitem data "contributor";
  actors ← names_of contributor;
  date ← getitem data "date";
  year ← getitem date "year";
  date' ← getitem data "date";
  month ← getitem date' "month";
  date'' ← getitem data "date";
  day ← getitem date'' "day";
  description ← getitem data "description";
  sns_score ← dict_get data "sns_score" (PyStr "");
  score ← safe_float_conversion (float_of_str host) sns_score minus_one;
  tag ← dict_get data "tag" (PyStr "");
  uploader_id ← getitem data "uploader_id";
  order ← getitem data "order";
  entity_id ← getitem data "entity_id";
  album_id ← getitem data "album_id";
  tv_id ← getitem data "tv_id";
  mret {| title := title;
          cover_url := hover;
          intro := description;
          score := score;
          actors := actors;
          directors := directors;
          movie_type := map PyStr (Str.split ";" (py_str host tag));
          release_date :=
            PyStr (py_str host year +:+ "-" +:+ py_str host month +:+ "-" +:+ py_str host day);
          metadata := [ ("source", PyStr "iQiYi");
                        ("uploader_id", uploader_id);
                        ("batch_order", order);
                        ("entity_id", entity_id);
                        ("album_id", album_id);
                        ("tv_id", tv_id) ] |}.

Definition raw_fetch_async (host : Host) (page : Z) : Eff Shared (list MovieEntity) :=
  set_param "page_id" (PyStr (pretty page));;
  request_params ← gets iqiyi_params;
  response ← eval (http_get host base_url (Some request_params));
  json_object ← eval (json response);
  write_in platform page 30 json_object;;
  results ← eval (getitem json_object "data");
  items ← eval (iterate results);
  eval (mapM (entity_of host) items).

Definition run_async (host : Host) (collection : Collection) (page : Z)
    : Eff World (list Document) :=
  abstract_run_with_checkpoint (wall_clock host) platform collection page pagesize
                               (raw_fetch_async host page).

End IQiYi.


(** ** Notions used to state the properties *)

(** The serial number the key generator gives next in a category. *)
Definition next_serial (category : string) (w : World) : nat :=
  default 0%nat (issued w !! category).

(** The task identifier the key generator gives next in a category. *)
Definition next_key (category : string) (w : World) : TaskId :=
  (category, next_serial category w).

(** A task identifier was allocated between two states of the world. *)
Definition allocated (w w' : World) (tid : TaskId) : Prop :=
  (next_serial (fst tid) w <= snd tid < next_serial (fst tid) w')%nat.

(** The events a trace holds for a task identifier, in the order recorded. *)
Definition events_for (tid : TaskId) (log : list TraceEvent) : list TraceEvent :=
  filter (fun ev => ev_task_id ev = tid) log.

(** The recorder only holds events of task identifiers already given out. *)
Definition issued_before (w : World) (ev : TraceEvent) : Prop :=
  (snd (ev_task_id ev) < next_serial (fst (ev_task_id ev)) w)%nat.

Definition recorded_keys_issued (w : World) : Prop :=
  Forall (issued_before w) (batch_trace w) /\ Forall (issued_before w) (db_trace w).



(** The life of one task in the trace: PENDING with a begin and no end, then
    possibly FINISHED with the same begin and an end. *)
Inductive lifecycle (tid : TaskId) : list TraceEvent -> Prop :=
| lifecycle_pending (p : TraceEvent) :
    ev_task_id p = tid -> ev_status p = PENDING -> ev_end p = None ->
    lifecycle tid [p]
| lifecycle_finished (p f : TraceEvent) (e : Timestamp) :
    ev_task_id p = tid -> ev_status p = PENDING -> ev_end p = None ->
    ev_task_id f = tid -> ev_status f = FINISHED ->
    ev_begin f = ev_begin p -> ev_end f = Some e ->
    lifecycle tid [p; f].

(** The object a caller of [run_async] receives: a [list] of [dict]. *)
Definition returned_object (documents : list Document) : PyValue :=
  PyList (map PyDict documents).

(** The query parameters a Bilibili fetch of [page] sends, from the template
    it finds in the class attribute. *)
Definition bilibili_request (page : Z) (template : PyValue) : Outcome PyValue :=
  p ← assign_at [] "page" (PyInt page) template;
  assign_at [] "pagesize" (PyInt Bilibili.pagesize) p.

(** The payload a Tencent fetch of [page] sends, from the template it finds. *)
Definition tencent_request (page : Z) (template : PyValue) : Outcome PyValue :=
  p ← assign_at ["page_context"] "page_index" (PyStr (pretty page)) template;
  q ← assign_at ["page_params"] "page" (PyStr (pretty page)) p;
  assign_at ["page_bypass_params"; "params"] "page" (PyStr (pretty page)) q.

(** The query parameters an iQiYi fetch of [page] sends, from the template
    it finds. *)
Definition iqiyi_request (page : Z) (template : PyValue) : Outcome PyValue :=
  assign_at [] "page_id" (PyStr (pretty page)) template.

(** The reading of the design document for a request template: a fetch
    leaves it as it found it. *)
Definition leaves_unchanged {A} (template : Shared -> PyValue) (fetch : Eff Shared A)
    (s : Shared) : Prop :=
  template (snd (fetch s)) = template s.

(** The reading of the design document for the Bilibili adapter: a response
    whose status is not 200 makes the fetch raise. *)
Definition bilibili_raises_on_bad_status (host : Host) (page : Z) (s : Shared) : Prop :=
  forall p response,
    bilibili_request page (bilibili_params s) = Return p ->
    http_get host Bilibili.base_url (Some p) = Return response ->
    status response <> 200 ->
    exists e, fst (Bilibili.raw_fetch_async host page s) = Raise e.

(** The same host, answering every request with the given status. *)
Definition with_status (code : Z) (host : Host) : Host :=
  mkHost (wall_clock host) (float_of_str host) (repr host) (json_loads host)
         (fun url params =>
            r ← http_get host url params; mret (mkResponse code (text r) (json r)))
         (fun url body =>
            r ← http_post host url body; mret (mkResponse code (text r) (json r)))
         (cast_text host) (findall_pinia host).

(** The reading of the design document: a successful run hands back the
    count of the records it persisted. *)
Definition returns_count (run : Eff World (list Document)) (w : World) : Prop :=
  forall docs w',
    run w = (Return docs, w') ->
    returned_object docs = PyInt (Z.of_nat (length (stored w') - length (stored w))).

(** ** Sample inputs *)

Definition initial_shared : Shared :=
  mkShared Bilibili.params Tencent.payload IQiYi.params ∅.

Definition initial_world : World :=
  mkWorld initial_shared 0 ∅ [] [] [] [] [].

(** Identifiers for the sample sinks, told apart by call and position. *)
Definition sample_object_id (call position : nat) : PyValue :=
  PyStr ("oid-" +:+ pretty call +:+ "-" +:+ pretty position).

(** A sink that takes every write, and one that refuses every write. *)
Definition accepting : Collection := mkCollection (fun _ => None) sample_object_id.
Definition refusing (e : Exn) : Collection := mkCollection (fun _ => Some e) sample_object_id.

(** A sink that refuses a write of no record, as the MongoDB driver does
    ([TypeError: documents must be a non-empty list]), and takes the others. *)
Definition non_empty_only : Collection :=
  mkCollection (fun documents => match documents with [] => Some TypeError | _ => None end)
               sample_object_id.

(** A clock read every 1.5 ms. *)
Definition steady_clock : Clock := fun n => 1700000000000000 + 1500 * Z.of_nat n.

(** A stubbed adapter: it returns the given entities, or raises. *)
Definition stub_returning (ents : list MovieEntity) : Eff Shared (list MovieEntity) :=
  mret ents.
Definition stub_raising (e : Exn) : Eff Shared (list MovieEntity) := raise e.

Definition sample_movie (name : string) : MovieEntity :=
  {| title := PyStr name; cover_url := PyStr "cover.png"; intro := PyStr "";
     score := minus_one; actors := []; directors := []; movie_type := [];
     release_date := PyStr "2020"; metadata := [("source", PyStr "stub")] |}.

(** A reading of [float] on ASCII decimal literals, for the sample hosts:
    blanks around, a sign, digits with an optional fraction, an optional
    exponent; the value is rounded to the nearest binary64. *)
Module Literal.

Definition is_digit (c : ascii) : bool :=
  let n := nat_of_ascii c in (48 <=? n)%nat && (n <=? 57)%nat.

Definition is_blank (c : ascii) : bool :=
  let n := nat_of_ascii c in (n =? 32)%nat || ((9 <=? n)%nat && (n <=? 13)%nat).

Fixpoint digits_of (cs : list ascii) : list ascii * list ascii :=
  match cs with
  | c :: rest =>
      if is_digit c then let (ds, tl) := digits_of rest in (c :: ds, tl) else ([], cs)
  | [] => ([], [])
  end.

Definition number_of (ds : list ascii) : Z :=
  fold_left (fun acc c => 10 * acc + (Z.of_nat (nat_of_ascii c) - 48)) ds 0.

Fixpoint drop_blanks (cs : list ascii) : list ascii :=
  match cs with
  | c :: rest => if is_blank c then drop_blanks rest else cs
  | [] => []
  end.

Definition sign_of (cs : list ascii) : bool * list ascii :=
  match cs with
  | "-"%char :: rest => (true, rest)
  | "+"%char :: rest => (false, rest)
  | _ => (false, cs)
  end.

(** The exponent part, [None] when malformed. *)
Definition exponent_of (cs : list ascii) : option Z :=
  match cs with
  | [] => Some 0
  | c :: rest =>
      if Ascii.eqb c "e" || Ascii.eqb c "E" then
        let (neg, rest') := sign_of rest in
        match digits_of rest' with
        | (d :: ds, []) =>
            Some (if neg then - number_of (d :: ds) else number_of (d :: ds))
        | _ => None
        end
      else None
  end.

(** [m * 10 ^ e], rounded to nearest. *)
Definition scaled (neg : bool) (m e : Z) : float64 :=
  match m with
  | Z0 => S754_zero neg
  | _ =>
      if 0 <=? e
      then binary_normalize prec64 emax64 (cond_Zopp neg (m * 10 ^ e)) 0 false
      else SFdiv prec64 emax64 (S754_finite neg (Z.to_pos m) 0)
                               (S754_finite false (Z.to_pos (10 ^ (- e))) 0)
  end.

Definition parse (s : string) : option float64 :=
  let cs := String.list_ascii_of_string s in
  let cs := rev (drop_blanks (rev (drop_blanks cs))) in
  let (neg, cs) := sign_of cs in
  let (whole, cs) := digits_of cs in
  let (frac, cs) :=
    match cs with
    | "."%char :: rest => digits_of rest
    | _ => ([], cs)
    end in
  match whole ++ frac with
  | [] => None
  | ds =>
      match exponent_of cs with
      | Some e => Some (scaled neg (number_of ds) (e - Z.of_nat (length frac)))
      | None => None
      end
  end.

End Literal.

(** A host without network: every request fails in transport. *)
Definition offline_host : Host :=
  mkHost steady_clock (fun _ => None) (fun _ => "") (fun _ => Raise JSONDecodeError)
         (fun _ _ => Raise ClientError) (fun _ _ => Raise ClientError)
         (fun _ => Raise AttributeError) (fun _ => []).

(** A host whose listing endpoints answer with the given status and decoded
    body, and whose episode pages are served except for the episodes in
    [missing]. *)
Definition serving (code : Z) (body : PyValue) (missing : list string) : Host :=
  mkHost steady_clock Literal.parse (fun _ => "") (fun _ => Return body)
         (fun url _ =>
            if bool_decide (url ∈ map (String.append Bilibili.actors_url) missing)
            then Raise ClientError
            else Return (mkResponse code "page" (Return body)))
         (fun _ _ => Return (mkResponse code "body" (Return body)))
         (fun _ => Return "出演演员：甲
乙")
         (fun _ => []).

(** A Bilibili listing of two films. *)
Definition bilibili_film (name : string) (ep_id : Z) : PyValue :=
  PyDict [ ("title", PyStr name); ("cover", PyStr "c.png"); ("score", PyStr "9.1");
           ("index_show", PyStr "2020上映"); ("order", PyStr "5次播放");
           ("link", PyStr "https://b/");
           ("first_ep", PyDict [ ("ep_id", PyInt ep_id) ]) ].

Definition bilibili_listing : PyValue :=
  PyDict [ ("code", PyInt 0);
           ("data", PyDict [ ("list", PyList [ bilibili_film "one" 101;
                                                bilibili_film "two" 102 ]) ]) ].

(** A Tencent answer that reports an error, and one that lists two cards. *)
Definition tencent_error : PyValue :=
  PyDict [ ("ret", PyInt 1001); ("msg", PyStr "denied") ].

Definition tencent_card (name : string) (cid : string) : PyValue :=
  PyDict [ ("params", PyDict [ ("cid", PyStr cid); ("title", PyStr name) ]) ].

Definition tencent_listing : PyValue :=
  PyDict [ ("ret", PyInt 0);
           ("data",
            PyDict [ ("CardList",
                      PyList [ PyDict [];
                               PyDict [ ("children_list",
                                         PyDict [ ("list",
                                                   PyDict [ ("cards",
                                                             PyList [ tencent_card "one" "a1";
                                                                      tencent_card "two" "b2" ]) ]) ]) ] ]) ]) ].

(** A Tencent cover page with its embedded store: the store as decoded, the
    tags of its first introduction item, a card with every field the
    enrichment reads, and a host that serves them. *)
Definition tencent_store : PyValue :=
  PyDict [ ("introduction",
            PyDict [ ("starData",
                      PyDict [ ("list", PyList [ PyDict [ ("star_name", PyStr "star") ] ]) ]);
                     ("introData",
                      PyDict [ ("list",
                                PyList [ PyDict [ ("item_params",
                                                   PyDict [ ("imgtag_ver", PyStr "tags") ]) ] ]) ]) ]);
           ("global",
            PyDict [ ("coverInfo",
                      PyDict [ ("new_pic_vt", PyStr "v.png"); ("description", PyStr "d");
                               ("video_ids", PyList [ PyStr "v1" ]) ]) ]) ].

Definition tencent_tags : PyValue :=
  PyDict [ ("tag_4", PyDict [ ("text", PyStr "8.5分") ]) ].

Definition tencent_full_card : PyValue :=
  PyDict [ ("params", PyDict [ ("cid", PyStr "c1"); ("title", PyStr "t");
                               ("main_genre", PyStr "g");
                               ("epsode_pubtime", PyStr "2021-01-01");
                               ("area_name", PyStr "a") ]) ].

Definition cover_host : Host :=
  mkHost steady_clock Literal.parse (fun _ => "")
         (fun s => if String.eqb s "tags" then Return tencent_tags else Return tencent_store)
         (fun _ _ => Return (mkResponse 200 "page" (Raise JSONDecodeError)))
         (fun _ _ => Return (mkResponse 200 "body" (Raise JSONDecodeError)))
         (fun _ => Raise AttributeError)
         (fun _ => ["{}"]).

(** A host whose Bilibili listing answers with status 200 and the listing of
    two films, and whose episode pages are all answered with the given
    status and a page without a cast block, in which the query finds no
    text. *)
Definition episodes_answering (code : Z) : Host :=
  mkHost steady_clock Literal.parse (fun _ => "") (fun _ => Return bilibili_listing)
         (fun url _ =>
            if String.eqb url Bilibili.base_url
            then Return (mkResponse 200 "listing" (Return bilibili_listing))
            else Return (mkResponse code "<html>gone</html>" (Raise JSONDecodeError)))
         (fun _ _ => Raise ClientError)
         (fun _ => Return "")
         (fun _ => []).

(** ** The read endpoint *)

(** The largest integer the driver can put in a command: an integer of BSON
    has at most 8 bytes. *)
Definition int64_max : Z := 2 ^ 63 - 1.

(** [get_paginated_movies(page, pagesize)] of [api/router/fetch_router.py],
    on the documents of the collection in their natural order:
    [find().skip(skip).limit(pagesize)] read with [to_list(length=pagesize)].
    The cursor refuses a negative [skip] and [to_list] a negative length,
    both with [ValueError]; the query is then encoded, which raises
    [OverflowError] for a [skip] or a limit beyond 8 bytes (Python's integers
    have no bound, and the route sets none from above); a length of zero
    reads nothing. *)
Definition get_paginated_movies (page pagesize : Z) (documents : list Document)
    : Outcome (list Document) :=
  let skip := (page - 1) * pagesize in
  if skip <? 0 then Raise ValueError
  else if pagesize <? 0 then Raise ValueError
  else if (int64_max <? skip) || (int64_max <? pagesize) then Raise OverflowError
  else Return (take (Z.to_nat pagesize) (drop (Z.to_nat skip) documents)).

(** ** Further notions *)

(** The sink the orchestrator is typed against, [AsyncIOMotorCollection]:
    the driver behind it refuses a list of no record before anything is sent
    ([TypeError: documents must be a non-empty list]). *)
Definition driver_sink (collection : Collection) : Prop :=
  refuses collection [] = Some TypeError.

(** The reading of the design document for the enrichment of Bilibili: a
    sub-request has failed also when it is answered with a status that is
    not a success, and one failed sub-request makes the fetch raise. *)
Definition bilibili_fails_on_bad_episode_status (host : Host) (page : Z) (s : Shared) : Prop :=
  forall p response raw data film_data items item first_ep ep_id episode,
    bilibili_request page (bilibili_params s) = Return p ->
    http_get host Bilibili.base_url (Some p) = Return response ->
    status response = 200 ->
    json response = Return raw ->
    getitem raw "data" = Return data ->
    getitem data "list" = Return film_data ->
    iterate film_data = Return items ->
    In item items ->
    getitem item "first_ep" = Return first_ep ->
    getitem first_ep "ep_id" = Return ep_id ->
    http_get host (Bilibili.actors_url +:+ py_str host ep_id) None = Return episode ->
    status episode <> 200 ->
    exists e, fst (Bilibili.raw_fetch_async host page s) = Raise e.

(** A computation leaves a part of the module-level state as it found it,
    whatever its outcome. *)
Definition keeps {X A} (part : Shared -> X) (m : Eff Shared A) : Prop :=
  forall s, part (snd (m s)) = part s.

(** A text free of a character. *)
Definition lacks (c : ascii) (s : string) : Prop :=
  ~ In c (String.list_ascii_of_string s).

(** A name [filter_strings] lets through. *)
Definition clean (s : string) : Prop :=
  s <> "" /\ Str.contains "《" s = false /\ Str.contains "》" s = false.

(** The entity names its origin in its metadata. *)
Definition from_source (name : string) (movie : MovieEntity) : Prop :=
  dict_lookup "source" (metadata movie) = Some (PyStr name).


(** * Properties *)

(** ** The effect layer *)

Lemma bind_return {S A B} (m : Eff S A) (k : A -> Eff S B) s a s' :
  m s = (Return a, s') -> (m ≫= k) s = k a s'.
Proof. intros H. unfold mbind, Eff_bind. now rewrite H. Qed.

Lemma bind_raise {S A B} (m : Eff S A) (k : A -> Eff S B) s e s' :
  m s = (Raise e, s') -> (m ≫= k) s = (Raise e, s').
Proof. intros H. unfold mbind, Eff_bind. now rewrite H. Qed.

Lemma eval_return {S A} (o : Outcome A) (a : A) (s : S) :
  o = Return a -> eval o s = (Return a, s).
Proof. now intros ->. Qed.

Lemma eval_raise {S A} (o : Outcome A) (e : Exn) (s : S) :
  o = Raise e -> eval o s = (Raise e, s).
Proof. now intros ->. Qed.

Lemma gets_return {S A} (f : S -> A) (s : S) : gets f s = (Return (f s), s).
Proof. reflexivity. Qed.

Lemma modify_return {S} (f : S -> S) (s : S) : modify f s = (Return tt, f s).
Proof. reflexivity. Qed.

(** The join is all or nothing. *)
Lemma gather_returns {A} (tasks : list (Outcome A)) (results : list A) :
  gather tasks = Return results <-> tasks = map Return results.
Proof.
  revert results. induction tasks as [|t tasks IH]; intros results; cbn.
  - split.
    + intros [= <-]. reflexivity.
    + destruct results; [reflexivity | discriminate].
  - destruct t as [a|e].
    + destruct (gather tasks) as [others|e] eqn:G.
      * split.
        -- intros [= <-]. cbn. f_equal. now apply IH.
        -- destruct results as [|r results]; [discriminate|].
           intros [= -> ->]. f_equal. f_equal.
           assert (Return others = Return results) as [= ->]; [|reflexivity].
           now apply IH.
      * split; [discriminate|].
        destruct results as [|r results]; [discriminate|].
        intros [= -> ->].
        assert (Raise e = Return results) by now apply IH. discriminate.
    + split; [discriminate|]. destruct results; discriminate.
Qed.

Lemma gather_raises {A} (tasks : list (Outcome A)) (e : Exn) :
  In (Raise e) tasks -> exists e', gather tasks = Raise e'.
Proof.
  induction tasks as [|t tasks IH]; cbn; [tauto|].
  intros [->|Hin]; [eauto|].
  destruct t as [a|e0]; [|eauto].
  destruct (IH Hin) as [e' ->]. eauto.
Qed.

(** ** The text operations on samples *)

Example filter_strings_sample :
  filter_strings ["甲"; ""; "《电影》"; "乙》"; "丙"] = ["甲"; "丙"].
Proof. reflexivity. Qed.

Example removesuffix_sample :
  Str.removesuffix "上映" "2020上映" = "2020" /\ Str.removesuffix "上映" "2020" = "2020".
Proof. split; reflexivity. Qed.

Example split_sample : Str.split ";" "a;b;;" = ["a"; "b"; ""; ""] /\ Str.split ";" "" = [""].
Proof. split; reflexivity. Qed.

Example replace_sample : Str.replace "})" "}" "f({a})})" = "f({a}}".
Proof. reflexivity. Qed.

Example chars_sample : Str.chars "a《b" = ["a"; "《"; "b"].
Proof. reflexivity. Qed.

Example getindex_sample :
  getindex (PyList [PyInt 1; PyInt 2]) (-1) = Return (PyInt 2) /\
  getindex (PyList [PyInt 1; PyInt 2]) 2 = Raise IndexError /\
  getindex (PyStr "a《") 1 = Return (PyStr "《").
Proof. repeat split; reflexivity. Qed.

(** A Bilibili run on a listing of two films, every page served: two
    records stored and handed back, both traces closed, one delay. *)
Example bilibili_run_sample :
  let (r, w') := Bilibili.run_async (serving 200 bilibili_listing []) accepting 1 initial_world in
  (exists docs, r = Return docs /\ stored w' = docs /\ length docs = 2%nat) /\
  map ev_status (batch_trace w') = [PENDING; FINISHED] /\
  map ev_status (db_trace w') = [PENDING; FINISHED] /\
  sleeps w' = [1] /\
  snapshots (shared w') !! ("bilibili", 1) = Some bilibili_listing.
Proof. vm_compute. repeat split; eauto. Qed.

(** ** The orchestrator, path by path *)

Ltac run_orchestrator :=
  unfold abstract_run_with_checkpoint, mbind, Eff_bind, mret, Eff_ret, await_fetch,
    insert_many, generate_key, now_text, put_batch_trace, put_db_trace, sleep, modify;
  cbn.

Section Run.

Variables (wall : Clock) (platform : string) (collection : Collection) (page pagesize : Z).
Variable async_func : Eff Shared (list MovieEntity).

Let run := abstract_run_with_checkpoint wall platform collection page pagesize async_func.

Let batch_id (w : World) := next_key "BATCH.TASK" w.
Let db_id (w : World) := next_key "DB.TASK" w.
Let t0 (w : World) := wall (clock_reads w) / 1000.
Let t1 (w : World) := wall (S (clock_reads w)) / 1000.
Let t2 (w : World) := wall (S (S (clock_reads w))) / 1000.
Let t3 (w : World) := wall (S (S (S (clock_reads w)))) / 1000.

Let batch_pending w := mkTraceEvent (batch_id w) platform page pagesize PENDING (t0 w) None.
Let batch_finished w :=
  mkTraceEvent (batch_id w) platform page pagesize FINISHED (t0 w) (Some (t1 w)).
Let db_pending w := mkTraceEvent (db_id w) platform page pagesize PENDING (t2 w) None.
Let db_finished w :=
  mkTraceEvent (db_id w) platform page pagesize FINISHED (t2 w) (Some (t3 w)).

(** The records of the run's write, with the identifiers the driver gives
    them. *)
Let sent (w : World) (ents : list MovieEntity) :=
  with_ids collection (length (insert_calls w)) (map asdict ents).

(** The adapter raises: the run stops after the PENDING batch event. *)
Lemma run_fetch_raises w e s' :
  async_func (shared w) = (Raise e, s') ->
  exists w',
    run w = (Raise e, w') /\
    shared w' = s' /\
    issued w' = <["BATCH.TASK" := S (next_serial "BATCH.TASK" w)]> (issued w) /\
    batch_trace w' = batch_trace w ++ [batch_pending w] /\
    db_trace w' = db_trace w /\
    stored w' = stored w /\
    insert_calls w' = insert_calls w /\
    sleeps w' = sleeps w.
Proof.
  intros H. subst run. run_orchestrator. rewrite H. cbn.
  eexists. split; [reflexivity|]. cbn. repeat split.
Qed.

(** The adapter returns and the sink refuses the write: the run stops after
    the PENDING persistence event. *)
Lemma run_insert_raises w ents s' e :
  async_func (shared w) = (Return ents, s') ->
  refuses collection (map asdict ents) = Some e ->
  exists w',
    run w = (Raise e, w') /\
    shared w' = s' /\
    issued w' = <["DB.TASK" := S (next_serial "DB.TASK" w)]>
                  (<["BATCH.TASK" := S (next_serial "BATCH.TASK" w)]> (issued w)) /\
    batch_trace w' = batch_trace w ++ [batch_pending w; batch_finished w] /\
    db_trace w' = db_trace w ++ [db_pending w] /\
    stored w' = stored w /\
    insert_calls w' = insert_calls w ++ [sent w ents] /\
    sleeps w' = sleeps w.
Proof.
  intros H R. subst run sent. run_orchestrator. rewrite H. cbn. rewrite R. cbn.
  eexists. split; [reflexivity|]. cbn.
  rewrite <- app_assoc. cbn.
  repeat split.
  all: unfold next_serial; now rewrite lookup_insert_ne.
Qed.

(** The adapter returns and the sink takes the write: the run completes. *)
Lemma run_returns w ents s' :
  async_func (shared w) = (Return ents, s') ->
  refuses collection (map asdict ents) = None ->
  exists w',
    run w = (Return (sent w ents), w') /\
    shared w' = s' /\
    issued w' = <["DB.TASK" := S (next_serial "DB.TASK" w)]>
                  (<["BATCH.TASK" := S (next_serial "BATCH.TASK" w)]> (issued w)) /\
    batch_trace w' = batch_trace w ++ [batch_pending w; batch_finished w] /\
    db_trace w' = db_trace w ++ [db_pending w; db_finished w] /\
    stored w' = stored w ++ sent w ents /\
    insert_calls w' = insert_calls w ++ [sent w ents] /\
    sleeps w' = sleeps w ++ [1].
Proof.
  intros H R. subst run sent. run_orchestrator. rewrite H. cbn. rewrite R. cbn.
  eexists. split; [reflexivity|]. cbn.
  rewrite <- !app_assoc. cbn.
  repeat split.
  all: unfold next_serial; now rewrite lookup_insert_ne.
Qed.

End Run.

(** ** Traces and task identifiers *)

Lemma events_for_app tid log1 log2 :
  events_for tid (log1 ++ log2) = events_for tid log1 ++ events_for tid log2.
Proof. apply filter_app. Qed.

Lemma events_for_unissued w tid log :
  Forall (issued_before w) log ->
  (next_serial (fst tid) w <= snd tid)%nat ->
  events_for tid log = [].
Proof.
  intros Hlog Hle. induction Hlog as [|ev log Hev _ IH]; [reflexivity|].
  unfold events_for. rewrite filter_cons_False; [exact IH|].
  intros <-. unfold issued_before in Hev. lia.
Qed.

Lemma events_for_same tid ev :
  ev_task_id ev = tid -> events_for tid [ev] = [ev].
Proof. intros He. unfold events_for. now rewrite filter_cons_True. Qed.

Lemma next_serial_after_insert category key n (m : gmap string nat) w' :
  issued w' = <[key := n]> m ->
  next_serial category w' = if decide (key = category) then n else default 0%nat (m !! category).
Proof.
  intros E. unfold next_serial. rewrite E. destruct (decide (key = category)) as [->|Hne].
  - now rewrite lookup_insert_eq.
  - now rewrite lookup_insert_ne.
Qed.

Lemma recorded_keys_issued_initial : recorded_keys_issued initial_world.
Proof. split; constructor. Qed.


(** ** The identifiers the driver adds *)

Lemma length_with_ids collection call documents :
  length (with_ids collection call documents) = length documents.
Proof. unfold with_ids. apply length_imap. Qed.

Lemma dict_set_new key value entries :
  dict_lookup key entries = None -> dict_set key value entries = entries ++ [(key, value)].
Proof.
  induction entries as [|[k v] entries IH]; cbn; [reflexivity|].
  destruct (String.eqb k key); [discriminate|].
  intros H. now rewrite IH.
Qed.

(** A flattened entity has no [_id] of its own: the driver appends one. *)
Lemma with_id_asdict oid movie :
  with_id oid (asdict movie) = asdict movie ++ [("_id", oid)].
Proof. reflexivity. Qed.

Lemma with_ids_asdict collection call ents :
  Forall2 (fun movie document =>
             exists oid, document = asdict movie ++ [("_id", oid)])
          ents (with_ids collection call (map asdict ents)).
Proof.
  unfold with_ids.
  generalize (object_id collection call) as make. induction ents as [|movie ents IH]; intros make.
  - constructor.
  - cbn [map imap]. constructor; [rewrite with_id_asdict; eauto|].
    apply (IH (make ∘ S)).
Qed.

(** ** The successful run *)



(** ** The adapter raises *)

(** C2.  When the adapter's fetch raises, the run raises the same error; the
    batch trace holds, for the task identifier of the run, one PENDING event
    and no FINISHED event; no persistence event is recorded and the sink
    receives no [insert_many] call. *)
Theorem fetch_error_leaves_pending_only
    (wall : Clock) (platform : string) (collection : Collection) (page pagesize : Z)
    (async_func : Eff Shared (list MovieEntity)) (w : World) (e : Exn) (s' : Shared) :
  recorded_keys_issued w ->
  async_func (shared w) = (Raise e, s') ->
  exists w' p,
    abstract_run_with_checkpoint wall platform collection page pagesize async_func w
      = (Raise e, w') /\
    batch_trace w' = batch_trace w ++ [p] /\
    events_for (next_key "BATCH.TASK" w) (batch_trace w') = [p] /\
    ev_status p = PENDING /\
    db_trace w' = db_trace w /\
    insert_calls w' = insert_calls w /\
    stored w' = stored w.
Proof.
  intros [Hbatch _] Hfetch.
  destruct (run_fetch_raises wall platform collection page pagesize async_func w e s' Hfetch)
    as (w' & Hrun & _ & _ & Hb & Hd & Hs & Hi & _).
  exists w'. eexists.
  split; [exact Hrun|].
  split; [exact Hb|].
  split.
  { rewrite Hb, events_for_app.
    rewrite (events_for_unissued w) by (trivial; cbn; lia).
    now apply events_for_same. }
  cbn. auto.
Qed.

Lemma fetch_error_leaves_pending_only_witness :
  recorded_keys_issued initial_world /\
  exists w' p,
    abstract_run_with_checkpoint steady_clock "stub" accepting 3 20
      (stub_raising ClientError) initial_world = (Raise ClientError, w') /\
    batch_trace w' = batch_trace initial_world ++ [p] /\
    events_for (next_key "BATCH.TASK" initial_world) (batch_trace w') = [p] /\
    ev_status p = PENDING /\
    db_trace w' = db_trace initial_world /\
    insert_calls w' = insert_calls initial_world /\
    stored w' = stored initial_world.
Proof.
  assert (I : recorded_keys_issued initial_world) by (split; constructor).
  split; [exact I|].
  apply (fetch_error_leaves_pending_only steady_clock "stub" accepting 3 20
           (stub_raising ClientError) initial_world ClientError initial_shared);
    [exact I | reflexivity].
Defined.

(** ** The empty batch *)

(** The orchestrator has no branch on the size of the batch: when the
    adapter's fetch returns no entity, the sink still receives an
    [insert_many] call with an empty list of records, after a persistence
    PENDING event; a sink that takes that call lets the run go on to the
    FINISHED event, the delay and the return of the empty list. *)
Lemma empty_batch_is_still_handed_over
    (wall : Clock) (platform : string) (collection : Collection) (page pagesize : Z)
    (async_func : Eff Shared (list MovieEntity)) (w : World) (s' : Shared) :
  async_func (shared w) = (Return [], s') ->
  exists r w' dp later,
    abstract_run_with_checkpoint wall platform collection page pagesize async_func w = (r, w') /\
    insert_calls w' = insert_calls w ++ [[]] /\
    db_trace w' = db_trace w ++ dp :: later /\
    ev_status dp = PENDING /\ ev_task_id dp = next_key "DB.TASK" w /\
    (refuses collection [] = None ->
     r = Return [] /\
     (exists df, later = [df] /\ ev_status df = FINISHED /\
                 ev_task_id df = next_key "DB.TASK" w) /\
     sleeps w' = sleeps w ++ [1]).
Proof.
  intros Hfetch.
  destruct (refuses collection (map asdict [])) as [e|] eqn:Hsink.
  - destruct (run_insert_raises wall platform collection page pagesize async_func w [] s' e
                Hfetch Hsink)
      as (w' & Hrun & _ & _ & _ & Hdb & _ & Hcalls & _).
    exists (Raise e), w'. do 2 eexists.
    split; [exact Hrun|]. split; [exact Hcalls|]. split; [exact Hdb|].
    cbn in *. split; [reflexivity|]. split; [reflexivity|]. congruence.
  - destruct (run_returns wall platform collection page pagesize async_func w [] s'
                Hfetch Hsink)
      as (w' & Hrun & _ & _ & _ & Hdb & _ & Hcalls & Hsleep).
    exists (Return []), w'. do 2 eexists.
    split; [exact Hrun|]. split; [exact Hcalls|]. split; [exact Hdb|].
    cbn. repeat split; eauto.
Qed.

(** C3.  The code does not do what the design document asks of a batch of no
    entity.  The sink the orchestrator is typed against is a collection of
    the MongoDB driver, which refuses a list of no record.  So when the
    adapter's fetch returns no entity, the call with the empty list is made,
    after the batch was closed and the persistence PENDING event recorded,
    and the run raises [TypeError] there: the persistence trace stays at
    PENDING with no FINISHED event, the delay is not applied and the run
    does not return. *)
Theorem empty_batch_fails_on_the_driver
    (wall : Clock) (platform : string) (collection : Collection) (page pagesize : Z)
    (async_func : Eff Shared (list MovieEntity)) (w : World) (s' : Shared) :
  async_func (shared w) = (Return [], s') ->
  driver_sink collection ->
  exists w' bp bf dp,
    abstract_run_with_checkpoint wall platform collection page pagesize async_func w
      = (Raise TypeError, w') /\
    batch_trace w' = batch_trace w ++ [bp; bf] /\
    ev_status bp = PENDING /\ ev_status bf = FINISHED /\
    insert_calls w' = insert_calls w ++ [[]] /\
    db_trace w' = db_trace w ++ [dp] /\
    ev_status dp = PENDING /\ ev_end dp = None /\ ev_task_id dp = next_key "DB.TASK" w /\
    stored w' = stored w /\
    sleeps w' = sleeps w.
Proof.
  intros Hfetch Hdriver.
  destruct (run_insert_raises wall platform collection page pagesize async_func w [] s'
              TypeError Hfetch Hdriver)
    as (w' & Hrun & _ & _ & Hbatch & Hdb & Hstored & Hcalls & Hsleeps).
  exists w'. do 3 eexists.
  split; [exact Hrun|]. split; [exact Hbatch|].
  split; [reflexivity|]. split; [reflexivity|].
  split; [exact Hcalls|]. split; [exact Hdb|].
  repeat split; assumption.
Qed.

Lemma empty_batch_fails_on_the_driver_witness :
  let fetch := Bilibili.raw_fetch_async (serving 503 PyNone []) 5 in
  fst (fetch (shared initial_world)) = Return [] /\
  driver_sink non_empty_only /\
  exists w' bp bf dp,
    abstract_run_with_checkpoint steady_clock Bilibili.platform non_empty_only 5
      Bilibili.pagesize fetch initial_world = (Raise TypeError, w') /\
    batch_trace w' = batch_trace initial_world ++ [bp; bf] /\
    ev_status bp = PENDING /\ ev_status bf = FINISHED /\
    insert_calls w' = insert_calls initial_world ++ [[]] /\
    db_trace w' = db_trace initial_world ++ [dp] /\
    ev_status dp = PENDING /\ ev_end dp = None /\
    ev_task_id dp = next_key "DB.TASK" initial_world /\
    stored w' = stored initial_world /\
    sleeps w' = sleeps initial_world.
Proof.
  intros fetch. split; [reflexivity|]. split; [reflexivity|].
  apply (empty_batch_fails_on_the_driver steady_clock Bilibili.platform non_empty_only 5
           Bilibili.pagesize fetch initial_world (snd (fetch (shared initial_world)))).
  - vm_compute. reflexivity.
  - reflexivity.
Defined.

(** With a sink that refuses a write of no record, the empty batch takes the
    path of a failed write: the call is made, the persistence trace stays at
    PENDING and the run raises without the delay. *)
Example empty_batch_with_strict_sink :
  let (r, w') := abstract_run_with_checkpoint steady_clock "stub" non_empty_only 5 20
                   (stub_returning []) initial_world in
  r = Raise TypeError /\
  insert_calls w' = [[]] /\
  map ev_status (batch_trace w') = [PENDING; FINISHED] /\
  map ev_status (db_trace w') = [PENDING] /\
  sleeps w' = [].
Proof. vm_compute. repeat split. Qed.

(** ** Every run follows one of the three paths *)

Lemma run_cases
    (wall : Clock) (platform : string) (collection : Collection) (page pagesize : Z)
    (async_func : Eff Shared (list MovieEntity)) (w : World) :
  (exists e s', async_func (shared w) = (Raise e, s')) \/
  (exists ents s' e, async_func (shared w) = (Return ents, s') /\
                     refuses collection (map asdict ents) = Some e) \/
  (exists ents s', async_func (shared w) = (Return ents, s') /\
                   refuses collection (map asdict ents) = None).
Proof.
  destruct (async_func (shared w)) as [[ents|e] s'] eqn:F; [|eauto].
  destruct (refuses collection (map asdict ents)) as [e|] eqn:R; right; eauto 6.
Qed.

Lemma lifecycle_of_run_events tid w (old : list TraceEvent) (p f : TraceEvent) :
  Forall (issued_before w) old ->
  (next_serial (fst tid) w <= snd tid)%nat ->
  ev_task_id p = tid -> ev_status p = PENDING -> ev_end p = None ->
  ev_task_id f = tid -> ev_status f = FINISHED -> ev_begin f = ev_begin p ->
  (exists e, ev_end f = Some e) ->
  lifecycle tid (events_for tid (old ++ [p])) /\
  lifecycle tid (events_for tid (old ++ [p; f])).
Proof.
  intros Hold Hle Hp Sp Ep Hf Sf Bf [e Ef].
  rewrite !events_for_app, (events_for_unissued w tid old Hold Hle), !app_nil_l.
  split.
  - rewrite events_for_same by exact Hp. now constructor.
  - change [p; f] with ([p] ++ [f]).
    rewrite events_for_app, !events_for_same by assumption.
    now apply lifecycle_finished with e.
Qed.

Lemma no_events_of_other_category tid w (old new : list TraceEvent) :
  Forall (issued_before w) old ->
  (next_serial (fst tid) w <= snd tid)%nat ->
  Forall (fun ev => fst (ev_task_id ev) <> fst tid) new ->
  events_for tid (old ++ new) = [].
Proof.
  intros Hold Hle Hnew.
  rewrite events_for_app, (events_for_unissued w tid old Hold Hle), app_nil_l.
  induction Hnew as [|ev new Hev _ IH]; [reflexivity|].
  unfold events_for. rewrite filter_cons_False; [exact IH|].
  intros E. apply Hev. now rewrite E.
Qed.

(** ** The lifecycle of a task identifier *)

(** The identifiers a run allocates: the next batch key, and the next
    persistence key when the fetch returned. *)
Lemma allocated_batch_only w w' tid :
  issued w' = <["BATCH.TASK" := S (next_serial "BATCH.TASK" w)]> (issued w) ->
  allocated w w' tid ->
  tid = next_key "BATCH.TASK" w.
Proof.
  intros Hi [Hlo Hhi]. destruct tid as [category serial]. cbn [fst snd] in *.
  rewrite (next_serial_after_insert _ _ _ _ _ Hi) in Hhi.
  destruct (decide ("BATCH.TASK" = category)) as [<-|Hne].
  - unfold next_key. f_equal. lia.
  - fold (next_serial category w) in Hhi. lia.
Qed.

Lemma allocated_batch_or_db w w' tid :
  issued w' = <["DB.TASK" := S (next_serial "DB.TASK" w)]>
                (<["BATCH.TASK" := S (next_serial "BATCH.TASK" w)]> (issued w)) ->
  allocated w w' tid ->
  tid = next_key "BATCH.TASK" w \/ tid = next_key "DB.TASK" w.
Proof.
  intros Hi [Hlo Hhi]. destruct tid as [category serial]. cbn [fst snd] in *.
  rewrite (next_serial_after_insert _ _ _ _ _ Hi) in Hhi.
  destruct (decide ("DB.TASK" = category)) as [<-|Hdb].
  - right. unfold next_key. f_equal. lia.
  - rewrite lookup_insert in Hhi.
    destruct (decide ("BATCH.TASK" = category)) as [<-|Hne].
    + left. unfold next_key. f_equal. cbn in Hhi. lia.
    + fold (next_serial category w) in Hhi. lia.
Qed.

(** C9.  For every task identifier a run allocates, the events recorded for
    it start with PENDING, which has a begin and no end, and are followed at
    most by one FINISHED with the same begin and an end: never FINISHED
    alone, never FINISHED before PENDING.  A batch identifier has its events
    in the batch trace only, a persistence identifier in the persistence
    trace only. *)
Theorem trace_moves_pending_to_finished
    (wall : Clock) (platform : string) (collection : Collection) (page pagesize : Z)
    (async_func : Eff Shared (list MovieEntity)) (w w' : World)
    (r : Outcome (list Document)) (tid : TaskId) :
  recorded_keys_issued w ->
  abstract_run_with_checkpoint wall platform collection page pagesize async_func w = (r, w') ->
  allocated w w' tid ->
  (fst tid = "BATCH.TASK" /\
   lifecycle tid (events_for tid (batch_trace w')) /\ events_for tid (db_trace w') = []) \/
  (fst tid = "DB.TASK" /\
   lifecycle tid (events_for tid (db_trace w')) /\ events_for tid (batch_trace w') = []).
Proof.
  intros [Hbatch Hdb] Hrun Halloc.
  assert (Hfresh : forall category,
            (next_serial (fst (next_key category w)) w <= snd (next_key category w))%nat)
    by (intros category; cbn; lia).
  assert (Hother : forall category (new : list TraceEvent),
            Forall (fun ev => fst (ev_task_id ev) <> category) new ->
            forall old, Forall (issued_before w) old ->
            events_for (next_key category w) (old ++ new) = []).
  { intros category new Hnew old Hold.
    now apply (no_events_of_other_category _ w). }
  destruct (run_cases wall platform collection page pagesize async_func w)
    as [(e & s' & F) | [(ents & s' & e & F & R) | (ents & s' & F & R)]].
  - destruct (run_fetch_raises wall platform collection page pagesize async_func w e s' F)
      as (w1 & Hrun1 & _ & Hi & Hb & Hd & _).
    rewrite Hrun in Hrun1. injection Hrun1 as -> <-.
    rewrite (allocated_batch_only w w' tid Hi Halloc).
    left. split; [reflexivity|]. rewrite Hb, Hd. split.
    + eapply (lifecycle_of_run_events _ w (batch_trace w) _
                (mkTraceEvent (next_key "BATCH.TASK" w) platform page pagesize
                   FINISHED _ (Some 0))); cbn; eauto.
    + now apply (events_for_unissued w).
  - destruct (run_insert_raises wall platform collection page pagesize async_func w
                ents s' e F R)
      as (w1 & Hrun1 & _ & Hi & Hb & Hd & _).
    rewrite Hrun in Hrun1. injection Hrun1 as -> <-.
    destruct (allocated_batch_or_db w w' tid Hi Halloc) as [-> | ->];
      [left | right]; (split; [reflexivity|]); rewrite Hb, Hd; split.
    + eapply (lifecycle_of_run_events _ w (batch_trace w)); cbn; eauto.
    + apply Hother; [repeat constructor; discriminate | assumption].
    + eapply (lifecycle_of_run_events _ w (db_trace w) _
                (mkTraceEvent (next_key "DB.TASK" w) platform page pagesize
                   FINISHED _ (Some 0))); cbn; eauto.
    + apply Hother; [repeat constructor; discriminate | assumption].
  - destruct (run_returns wall platform collection page pagesize async_func w ents s' F R)
      as (w1 & Hrun1 & _ & Hi & Hb & Hd & _).
    rewrite Hrun in Hrun1. injection Hrun1 as -> <-.
    destruct (allocated_batch_or_db w w' tid Hi Halloc) as [-> | ->];
      [left | right]; (split; [reflexivity|]); rewrite Hb, Hd; split.
    + eapply (lifecycle_of_run_events _ w (batch_trace w)); cbn; eauto.
    + apply Hother; [repeat constructor; discriminate | assumption].
    + eapply (lifecycle_of_run_events _ w (db_trace w)); cbn; eauto.
    + apply Hother; [repeat constructor; discriminate | assumption].
Qed.

Lemma trace_moves_pending_to_finished_witness :
  exists r w',
    abstract_run_with_checkpoint steady_clock "stub" (refusing (WriteError "down"))
      7 20 (stub_returning [sample_movie "a"]) initial_world = (r, w') /\
    recorded_keys_issued initial_world /\
    allocated initial_world w' ("DB.TASK", 0%nat) /\
    lifecycle ("DB.TASK", 0%nat) (events_for ("DB.TASK", 0%nat) (db_trace w')) /\
    events_for ("DB.TASK", 0%nat) (batch_trace w') = [].
Proof.
  do 2 eexists. split; [apply surjective_pairing|].
  assert (I : recorded_keys_issued initial_world) by (split; constructor).
  split; [exact I|].
  match goal with |- ?A /\ _ => assert (Al : A) by (vm_compute; lia) end.
  split; [exact Al|].
  destruct (trace_moves_pending_to_finished steady_clock "stub"
              (refusing (WriteError "down")) 7 20 (stub_returning [sample_movie "a"])
              initial_world _ _ ("DB.TASK", 0%nat) I (surjective_pairing _) Al)
    as [(C & _) | (_ & L & N)]; [discriminate C | exact (conj L N)].
Defined.

(** ** Errors and the delay *)

(** C10.  When the adapter's fetch raises, or the sink's [insert_many]
    raises, the run raises that same error to its caller and the delay has
    not been applied. *)
Theorem error_propagates_without_delay
    (wall : Clock) (platform : string) (collection : Collection) (page pagesize : Z)
    (async_func : Eff Shared (list MovieEntity)) (w : World) (e : Exn) (s' : Shared) :
  async_func (shared w) = (Raise e, s') \/
  (exists ents, async_func (shared w) = (Return ents, s') /\
                refuses collection (map asdict ents) = Some e) ->
  exists w',
    abstract_run_with_checkpoint wall platform collection page pagesize async_func w
      = (Raise e, w') /\
    sleeps w' = sleeps w.
Proof.
  intros [F | (ents & F & R)].
  - destruct (run_fetch_raises wall platform collection page pagesize async_func w e s' F)
      as (w' & Hrun & _ & _ & _ & _ & _ & _ & Hsleep).
    eauto.
  - destruct (run_insert_raises wall platform collection page pagesize async_func w
                ents s' e F R)
      as (w' & Hrun & _ & _ & _ & _ & _ & _ & Hsleep).
    eauto.
Qed.

Lemma error_propagates_without_delay_witness :
  exists w',
    abstract_run_with_checkpoint steady_clock "stub" (refusing (WriteError "down")) 7 20
      (stub_returning [sample_movie "a"]) initial_world = (Raise (WriteError "down"), w') /\
    sleeps w' = sleeps initial_world.
Proof.
  apply (error_propagates_without_delay steady_clock "stub" (refusing (WriteError "down"))
           7 20 (stub_returning [sample_movie "a"]) initial_world (WriteError "down")
           initial_shared).
  right. exists [sample_movie "a"]. split; reflexivity.
Defined.

(** X5.  The delay is applied on the complete path and on no other: a run
    that returns has slept once, for one second, and a run that raises has
    not slept. *)
Lemma delay_only_on_success
    (wall : Clock) (platform : string) (collection : Collection) (page pagesize : Z)
    (async_func : Eff Shared (list MovieEntity)) (w w' : World)
    (r : Outcome (list Document)) :
  abstract_run_with_checkpoint wall platform collection page pagesize async_func w = (r, w') ->
  (exists docs, r = Return docs /\ sleeps w' = sleeps w ++ [1]) \/
  (exists e, r = Raise e /\ sleeps w' = sleeps w).
Proof.
  intros Hrun.
  destruct (run_cases wall platform collection page pagesize async_func w)
    as [(e & s' & F) | [(ents & s' & e & F & R) | (ents & s' & F & R)]].
  - destruct (run_fetch_raises wall platform collection page pagesize async_func w e s' F)
      as (w1 & Hrun1 & _ & _ & _ & _ & _ & _ & Hsleep).
    rewrite Hrun in Hrun1. injection Hrun1 as -> <-. eauto.
  - destruct (run_insert_raises wall platform collection page pagesize async_func w
                ents s' e F R)
      as (w1 & Hrun1 & _ & _ & _ & _ & _ & _ & Hsleep).
    rewrite Hrun in Hrun1. injection Hrun1 as -> <-. eauto.
  - destruct (run_returns wall platform collection page pagesize async_func w ents s' F R)
      as (w1 & Hrun1 & _ & _ & _ & _ & _ & _ & Hsleep).
    rewrite Hrun in Hrun1. injection Hrun1 as -> <-. eauto.
Qed.


(** ** What a run hands back *)

(** C5, as stated, fails: a successful run hands back a list, not a number. *)
Lemma run_does_not_return_a_count :
  ~ returns_count
      (abstract_run_with_checkpoint steady_clock "stub" accepting 5 20
         (stub_returning [sample_movie "a"; sample_movie "b"]))
      initial_world.
Proof.
  intros H.
  destruct (run_returns steady_clock "stub" accepting 5 20
              (stub_returning [sample_movie "a"; sample_movie "b"]) initial_world
              [sample_movie "a"; sample_movie "b"] initial_shared eq_refl eq_refl)
    as (w' & Hrun & _).
  specialize (H _ _ Hrun). discriminate H.
Qed.

(** C5, amended.  A successful run hands back the list of the records it
    persisted: one record per entity fetched, in the order fetched, each the
    flattened entity followed by the [_id] the driver gave it in place; it is
    the list the sink received and appended, and the count of the persisted
    records is its length. *)
Theorem run_returns_the_persisted_records
    (wall : Clock) (platform : string) (collection : Collection) (page pagesize : Z)
    (async_func : Eff Shared (list MovieEntity)) (w w' : World) (docs : list Document) :
  abstract_run_with_checkpoint wall platform collection page pagesize async_func w
    = (Return docs, w') ->
  exists ents s',
    async_func (shared w) = (Return ents, s') /\
    docs = with_ids collection (length (insert_calls w)) (map asdict ents) /\
    Forall2 (fun movie document =>
               exists oid, document = asdict movie ++ [("_id", oid)]) ents docs /\
    length docs = length ents /\
    insert_calls w' = insert_calls w ++ [docs] /\
    stored w' = stored w ++ docs.
Proof.
  intros Hrun.
  destruct (run_cases wall platform collection page pagesize async_func w)
    as [(e & s' & F) | [(ents & s' & e & F & R) | (ents & s' & F & R)]].
  - destruct (run_fetch_raises wall platform collection page pagesize async_func w e s' F)
      as (w1 & Hrun1 & _).
    rewrite Hrun in Hrun1. discriminate Hrun1.
  - destruct (run_insert_raises wall platform collection page pagesize async_func w
                ents s' e F R)
      as (w1 & Hrun1 & _).
    rewrite Hrun in Hrun1. discriminate Hrun1.
  - destruct (run_returns wall platform collection page pagesize async_func w ents s' F R)
      as (w1 & Hrun1 & _ & _ & _ & _ & Hstored & Hcalls & _).
    rewrite Hrun in Hrun1. injection Hrun1 as -> <-.
    exists ents, s'. rewrite length_with_ids, length_map.
    split; [exact F|]. split; [reflexivity|]. split; [apply with_ids_asdict|]. auto.
Qed.

Lemma run_returns_the_persisted_records_witness :
  exists docs w',
    abstract_run_with_checkpoint steady_clock "stub" accepting 5 20
      (stub_returning [sample_movie "a"; sample_movie "b"]) initial_world
      = (Return docs, w') /\
    docs = [ asdict (sample_movie "a") ++ [("_id", sample_object_id 0 0)];
             asdict (sample_movie "b") ++ [("_id", sample_object_id 0 1)] ] /\
    exists ents s',
      stub_returning [sample_movie "a"; sample_movie "b"] (shared initial_world)
        = (Return ents, s') /\
      docs = with_ids accepting (length (insert_calls initial_world)) (map asdict ents) /\
      Forall2 (fun movie document =>
                 exists oid, document = asdict movie ++ [("_id", oid)]) ents docs /\
      length docs = length ents /\
      insert_calls w' = insert_calls initial_world ++ [docs] /\
      stored w' = stored initial_world ++ docs.
Proof.
  do 2 eexists.
  assert (R : abstract_run_with_checkpoint steady_clock "stub" accepting 5 20
                (stub_returning [sample_movie "a"; sample_movie "b"]) initial_world
              = (Return [ asdict (sample_movie "a") ++ [("_id", sample_object_id 0 0)];
                          asdict (sample_movie "b") ++ [("_id", sample_object_id 0 1)] ],
                 snd (abstract_run_with_checkpoint steady_clock "stub" accepting 5 20
                        (stub_returning [sample_movie "a"; sample_movie "b"])
                        initial_world)))
    by reflexivity.
  split; [exact R|]. split; [reflexivity|].
  exact (run_returns_the_persisted_records steady_clock "stub" accepting 5 20
           (stub_returning [sample_movie "a"; sample_movie "b"]) initial_world _ _ R).
Defined.

(** ** Score coercion *)

(** On a text the coercion never raises: the number the text denotes, or
    the default. *)
Lemma safe_float_conversion_on_text (f : string -> option float64) (s : string) (d : float64) :
  safe_float_conversion f (PyStr s) d = Return (default d (f s)).
Proof. unfold safe_float_conversion, py_float. now destruct (f s). Qed.

Lemma safe_float_conversion_on_float (f : string -> option float64) (x d : float64) :
  safe_float_conversion f (PyFloat x) d = Return x.
Proof. reflexivity. Qed.

Example score_of_8_5 :
  safe_float_conversion Literal.parse (PyStr "8.5") minus_one
  = Return (S754_finite false 4785074604081152 (-49)).
Proof. reflexivity. Qed.

Example score_of_not_available :
  safe_float_conversion Literal.parse (PyStr "N/A") minus_one = Return minus_one.
Proof. reflexivity. Qed.

Example score_of_missing :
  safe_float_conversion Literal.parse (PyStr "") minus_one = Return minus_one.
Proof. reflexivity. Qed.

(** C7.  The coercion is not total: on [None], which is what a JSON [null]
    decodes to, [float] raises [TypeError], which [except ValueError] does
    not catch; the sentinel is not returned. *)
Theorem safe_float_conversion_raises_on_none (f : string -> option float64) (d : float64) :
  safe_float_conversion f PyNone d = Raise TypeError.
Proof. reflexivity. Qed.

Lemma safe_float_conversion_raises_on_containers
    (f : string -> option float64) (d : float64) (v : PyValue) :
  (exists items, v = PyList items) \/ (exists entries, v = PyDict entries) ->
  safe_float_conversion f v d = Raise TypeError.
Proof. intros [[items ->] | [entries ->]]; reflexivity. Qed.

Example safe_float_conversion_raises_on_huge_int :
  safe_float_conversion Literal.parse (PyInt (2 ^ 1024)) minus_one = Raise OverflowError.
Proof. reflexivity. Qed.

(** A listing whose film has [score] set to [null] makes the Bilibili fetch
    raise instead of giving the film the sentinel score. *)
Example bilibili_null_score_raises :
  let film := PyDict [ ("title", PyStr "one"); ("cover", PyStr "c.png"); ("score", PyNone);
                       ("index_show", PyStr "2020"); ("order", PyStr "5");
                       ("link", PyStr "https://b/");
                       ("first_ep", PyDict [ ("ep_id", PyInt 101) ]) ] in
  let listing := PyDict [ ("data", PyDict [ ("list", PyList [film]) ]) ] in
  fst (Bilibili.raw_fetch_async (serving 200 listing []) 1 initial_shared) = Raise TypeError.
Proof. reflexivity. Qed.

(** ** Request templates *)

Lemma leaves_unchanged_bind {A B} (f : Shared -> PyValue) (m : Eff Shared A)
    (k : A -> Eff Shared B) :
  (forall s, leaves_unchanged f m s) ->
  (forall a s, leaves_unchanged f (k a) s) ->
  forall s, leaves_unchanged f (m ≫= k) s.
Proof.
  unfold leaves_unchanged, mbind, Eff_bind. intros Hm Hk s.
  specialize (Hm s). destruct (m s) as [[a|e] s1]; cbn in *.
  - now rewrite Hk.
  - exact Hm.
Qed.

Lemma leaves_unchanged_eval {A} (f : Shared -> PyValue) (o : Outcome A) s :
  leaves_unchanged f (eval o) s.
Proof. reflexivity. Qed.

Lemma leaves_unchanged_gets {A} (f : Shared -> PyValue) (g : Shared -> A) s :
  leaves_unchanged f (gets g) s.
Proof. reflexivity. Qed.

Lemma leaves_unchanged_ret {A} (f : Shared -> PyValue) (a : A) s :
  leaves_unchanged f (mret a : Eff Shared A) s.
Proof. reflexivity. Qed.

Lemma leaves_unchanged_raise {A} (f : Shared -> PyValue) (e : Exn) s :
  leaves_unchanged f (raise e : Eff Shared A) s.
Proof. reflexivity. Qed.

Lemma leaves_unchanged_try {A} (f : Shared -> PyValue) (body handler : Eff Shared A) caught :
  (forall s, leaves_unchanged f body s) ->
  (forall s, leaves_unchanged f handler s) ->
  forall s, leaves_unchanged f (try_except body caught handler) s.
Proof.
  unfold leaves_unchanged, try_except. intros Hb Hh s.
  specialize (Hb s). destruct (body s) as [[a|e] s1]; cbn in *; [exact Hb|].
  destruct (caught e); cbn; [now rewrite Hh | exact Hb].
Qed.

(** The snapshot cache is the only thing [write_in] changes. *)
Lemma write_in_keeps_templates platform page pagesize raw s :
  leaves_unchanged bilibili_params (write_in platform page pagesize raw) s /\
  leaves_unchanged tencent_payload (write_in platform page pagesize raw) s /\
  leaves_unchanged iqiyi_params (write_in platform page pagesize raw) s.
Proof. repeat split. Qed.

Ltac keeps_template :=
  repeat first
    [ apply leaves_unchanged_eval | apply leaves_unchanged_gets
    | apply leaves_unchanged_ret | apply leaves_unchanged_raise
    | apply write_in_keeps_templates
    | apply leaves_unchanged_try; intros
    | apply leaves_unchanged_bind; intros
    | match goal with |- leaves_unchanged _ (if ?c then _ else _) _ => destruct c end ].

Lemma bilibili_set_param key value s p :
  assign_at [] key value (bilibili_params s) = Return p ->
  Bilibili.set_param key value s = (Return tt, set_bilibili_params p s).
Proof. intros H. unfold Bilibili.set_param. now rewrite H. Qed.

Lemma tencent_set_payload path key value s p :
  assign_at path key value (tencent_payload s) = Return p ->
  Tencent.set_payload path key value s = (Return tt, set_tencent_payload p s).
Proof. intros H. unfold Tencent.set_payload. now rewrite H. Qed.

Lemma iqiyi_set_param key value s p :
  assign_at [] key value (iqiyi_params s) = Return p ->
  IQiYi.set_param key value s = (Return tt, set_iqiyi_params p s).
Proof. intros H. unfold IQiYi.set_param. now rewrite H. Qed.

Lemma bind_outcome_return {A B} (o : Outcome A) (k : A -> Outcome B) (b : B) :
  (o ≫= k) = Return b -> exists a, o = Return a /\ k a = Return b.
Proof. destruct o as [a|e]; cbn; [eauto | discriminate]. Qed.

(** What the Bilibili fetch leaves in the class attribute. *)
Lemma bilibili_template_after host page s p :
  bilibili_request page (bilibili_params s) = Return p ->
  bilibili_params (snd (Bilibili.raw_fetch_async host page s)) = p.
Proof.
  intros H. apply bind_outcome_return in H as (p1 & A1 & A2).
  unfold Bilibili.raw_fetch_async.
  rewrite (bind_return _ _ _ _ _ (bilibili_set_param _ _ _ _ A1)).
  rewrite (bind_return _ _ _ _ _ (bilibili_set_param _ _ (set_bilibili_params p1 s) _ A2)).
  match goal with |- bilibili_params (snd (?m ?s2)) = _ =>
    change (leaves_unchanged bilibili_params m s2) end.
  keeps_template.
Qed.

(** What the Tencent fetch leaves in the class attribute. *)
Lemma tencent_template_after host page s p :
  tencent_request page (tencent_payload s) = Return p ->
  tencent_payload (snd (Tencent.raw_fetch_async host page s)) = p.
Proof.
  intros H. apply bind_outcome_return in H as (p1 & A1 & H).
  apply bind_outcome_return in H as (p2 & A2 & A3).
  unfold Tencent.raw_fetch_async, Tencent.get_movies.
  rewrite (bind_return _ _ _ _ _ (tencent_set_payload _ _ _ _ _ A1)).
  rewrite (bind_return _ _ _ _ _ (tencent_set_payload _ _ _ (set_tencent_payload p1 s) _ A2)).
  rewrite (bind_return _ _ _ _ _
             (tencent_set_payload _ _ _ (set_tencent_payload p2 (set_tencent_payload p1 s))
                _ A3)).
  match goal with |- tencent_payload (snd (?m ?s2)) = _ =>
    change (leaves_unchanged tencent_payload m s2) end.
  keeps_template.
Qed.

(** What the iQiYi fetch leaves in the class attribute. *)
Lemma iqiyi_template_after host page s p :
  iqiyi_request page (iqiyi_params s) = Return p ->
  iqiyi_params (snd (IQiYi.raw_fetch_async host page s)) = p.
Proof.
  intros A1. unfold iqiyi_request in A1.
  unfold IQiYi.raw_fetch_async.
  rewrite (bind_return _ _ _ _ _ (iqiyi_set_param _ _ _ _ A1)).
  match goal with |- iqiyi_params (snd (?m ?s2)) = _ =>
    change (leaves_unchanged iqiyi_params m s2) end.
  keeps_template.
Qed.

(** An assignment to one key leaves the other keys of a [dict] alone. *)
Lemma dict_lookup_set_other key other value entries :
  other <> key -> dict_lookup other (dict_set key value entries) = dict_lookup other entries.
Proof.
  intros Hne. induction entries as [|[k v] entries IH]; cbn.
  - destruct (String.eqb_spec key other); [congruence | reflexivity].
  - destruct (String.eqb_spec k key) as [->|Hk]; cbn.
    + destruct (String.eqb_spec key other); [congruence | reflexivity].
    + destruct (String.eqb_spec k other); [reflexivity | exact IH].
Qed.

Lemma dict_lookup_set_same key value entries :
  dict_lookup key (dict_set key value entries) = Some value.
Proof.
  induction entries as [|[k v] entries IH]; cbn.
  - now rewrite String.eqb_refl.
  - destruct (String.eqb_spec k key) as [->|Hk]; cbn.
    + now rewrite String.eqb_refl.
    + destruct (String.eqb_spec k key); [congruence | exact IH].
Qed.

(** The requests sent from the templates the module starts with. *)
Lemma bilibili_request_initial page :
  bilibili_request page Bilibili.params
  = Return (PyDict [ ("area", PyInt (-1)); ("style_id", PyInt (-1));
                     ("release_date", PyInt (-1)); ("season_status", PyInt (-1));
                     ("order", PyInt 2); ("st", PyInt 2); ("season_type", PyInt 2);
                     ("sort", PyInt 0); ("page", PyInt page); ("pagesize", PyInt 60);
                     ("type", PyInt 1) ]).
Proof. reflexivity. Qed.

Lemma iqiyi_request_initial page :
  iqiyi_request page IQiYi.params
  = Return (PyDict [ ("ret_num", PyStr "60"); ("channel_id", PyStr "1");
                     ("page_id", PyStr (pretty page)) ]).
Proof. reflexivity. Qed.

(** C8, as stated, fails: after a fetch of page 3 the shared parameters of
    the Bilibili adapter are not what they were. *)
Lemma bilibili_fetch_changes_shared_params :
  ~ leaves_unchanged bilibili_params (Bilibili.raw_fetch_async offline_host 3) initial_shared.
Proof. unfold leaves_unchanged. vm_compute. discriminate. Qed.

(** C8, amended.  Each fetch writes its page into the shared request
    template of its adapter, in place and before the request is sent:
    [page] and [pagesize] for Bilibili, the three page fields for Tencent,
    [page_id] for iQiYi.  Whatever the outcome of the call, the shared
    template afterwards is the one found with these fields overwritten. *)
Theorem fetch_overwrites_shared_template
    (host : Host) (page : Z) (s : Shared) (pb pt pi : PyValue) :
  bilibili_request page (bilibili_params s) = Return pb ->
  tencent_request page (tencent_payload s) = Return pt ->
  iqiyi_request page (iqiyi_params s) = Return pi ->
  bilibili_params (snd (Bilibili.raw_fetch_async host page s)) = pb /\
  tencent_payload (snd (Tencent.raw_fetch_async host page s)) = pt /\
  iqiyi_params (snd (IQiYi.raw_fetch_async host page s)) = pi.
Proof.
  intros Hb Ht Hi. split; [|split].
  - now apply bilibili_template_after.
  - now apply tencent_template_after.
  - now apply iqiyi_template_after.
Qed.

Lemma fetch_overwrites_shared_template_witness :
  exists pb pt pi,
    bilibili_request 3 (bilibili_params initial_shared) = Return pb /\
    tencent_request 3 (tencent_payload initial_shared) = Return pt /\
    iqiyi_request 3 (iqiyi_params initial_shared) = Return pi /\
    getitem pb "page" = Return (PyInt 3) /\
    bilibili_params (snd (Bilibili.raw_fetch_async offline_host 3 initial_shared)) = pb /\
    tencent_payload (snd (Tencent.raw_fetch_async offline_host 3 initial_shared)) = pt /\
    iqiyi_params (snd (IQiYi.raw_fetch_async offline_host 3 initial_shared)) = pi.
Proof.
  do 3 eexists.
  split; [reflexivity|]. split; [reflexivity|]. split; [reflexivity|].
  split; [reflexivity|].
  apply (fetch_overwrites_shared_template offline_host 3 initial_shared); reflexivity.
Defined.

(** ** The top-level response *)

Lemma set_bilibili_params_twice p q s :
  set_bilibili_params p (set_bilibili_params q s) = set_bilibili_params p s.
Proof. reflexivity. Qed.

(** Bilibili: a status other than 200 ends the fetch with an empty list; the
    state it leaves differs from the one it found by the request template
    only, so no snapshot is captured. *)
Lemma bilibili_bad_status_returns_empty host page s p response :
  bilibili_request page (bilibili_params s) = Return p ->
  http_get host Bilibili.base_url (Some p) = Return response ->
  status response <> 200 ->
  Bilibili.raw_fetch_async host page s = (Return [], set_bilibili_params p s).
Proof.
  intros H Hget Hstatus. apply bind_outcome_return in H as (p1 & A1 & A2).
  unfold Bilibili.raw_fetch_async.
  rewrite (bind_return _ _ _ _ _ (bilibili_set_param _ _ _ _ A1)).
  rewrite (bind_return _ _ _ _ _ (bilibili_set_param _ _ (set_bilibili_params p1 s) _ A2)).
  rewrite set_bilibili_params_twice.
  unfold mbind at 1, Eff_bind, gets. cbn [bilibili_params set_bilibili_params].
  unfold mbind at 1, Eff_bind, eval. rewrite Hget.
  destruct (Z.eqb_spec (status response) 200) as [E|_]; [contradiction|].
  reflexivity.
Qed.

(** Tencent: a return code other than zero ends the fetch with an error,
    after the snapshot of the answer was captured. *)
Lemma tencent_bad_ret_raises host page s p response json_object ret :
  tencent_request page (tencent_payload s) = Return p ->
  http_post host Tencent.base_url p = Return response ->
  json_loads host (text response) = Return json_object ->
  getitem json_object "ret" = Return ret ->
  differs_from_zero ret = true ->
  exists e,
    Tencent.raw_fetch_async host page s
    = (Raise e, set_snapshots (<[(Tencent.platform, page) := json_object]> (snapshots s))
                  (set_tencent_payload p s)) /\
    (e = ValueError \/ e = KeyError) /\
    e = match getitem json_object "msg" with
        | Return _ => ValueError
        | Raise missing => missing
        end.
Proof.
  intros H Hpost Hjson Hret Hnz.
  apply bind_outcome_return in H as (p1 & A1 & H).
  apply bind_outcome_return in H as (p2 & A2 & A3).
  unfold Tencent.raw_fetch_async, Tencent.get_movies.
  rewrite (bind_return _ _ _ _ _ (tencent_set_payload _ _ _ _ _ A1)).
  rewrite (bind_return _ _ _ _ _ (tencent_set_payload _ _ _ (set_tencent_payload p1 s) _ A2)).
  rewrite (bind_return _ _ _ _ _
             (tencent_set_payload _ _ _ (set_tencent_payload p2 (set_tencent_payload p1 s))
                _ A3)).
  unfold mbind at 1, Eff_bind, gets. cbn [tencent_payload set_tencent_payload].
  unfold mbind at 1, Eff_bind, eval. rewrite Hpost.
  unfold mbind at 1, Eff_bind. rewrite Hjson.
  unfold mbind at 1, Eff_bind, write_in, modify.
  unfold mbind at 1, Eff_bind. rewrite Hret, Hnz.
  unfold mbind, Eff_bind, raise.
  destruct json_object as [| | | | |?|entries]; try discriminate Hret.
  cbn [getitem].
  destruct (dict_lookup "msg" entries); eexists; (split; [reflexivity|]); auto.
Qed.

(** iQiYi: the status of the response plays no part in the fetch. *)
Lemma iqiyi_ignores_status host page s code :
  IQiYi.raw_fetch_async (with_status code host) page s = IQiYi.raw_fetch_async host page s.
Proof.
  unfold IQiYi.raw_fetch_async, mbind, Eff_bind, gets, eval.
  destruct (IQiYi.set_param "page_id" (PyStr (pretty page)) s) as [[[]|e] s1]; [|reflexivity].
  cbn [http_get with_status].
  destruct (http_get host IQiYi.base_url (Some (iqiyi_params s1))) as [r|e]; reflexivity.
Qed.

(** C4, as stated, fails: a Bilibili fetch answered with status 500 completes
    normally, with no film. *)
Lemma bilibili_bad_status_is_not_terminal :
  ~ bilibili_raises_on_bad_status (serving 500 bilibili_listing []) 1 initial_shared.
Proof.
  intros H.
  destruct (H _ _ eq_refl eq_refl) as [e He]; [discriminate|].
  vm_compute in He. discriminate He.
Qed.

(** C4, amended.  What a top-level response that is not a success does
    depends on the adapter.  Tencent: a return code other than zero makes the
    fetch raise, so it never completes normally; it raises after the snapshot
    of the answer was captured under (tencent, page), [ValueError] or, for an
    answer without ["msg"], [KeyError].  Bilibili: a status other than 200
    makes the fetch complete normally with an empty list; the snapshot cache
    is left as it was, and the outcome depends on no endpoint but the
    listing: it is the same on every host that gives the listing request
    this answer, whatever the episode pages would say.  iQiYi: the status is
    not looked at. *)
Theorem bad_top_level_response_by_adapter (host : Host) (page : Z) (s : Shared) :
  (forall p response json_object ret,
     tencent_request page (tencent_payload s) = Return p ->
     http_post host Tencent.base_url p = Return response ->
     json_loads host (text response) = Return json_object ->
     getitem json_object "ret" = Return ret ->
     differs_from_zero ret = true ->
     exists e,
       Tencent.raw_fetch_async host page s
       = (Raise e, set_snapshots (<[(Tencent.platform, page) := json_object]> (snapshots s))
                     (set_tencent_payload p s)) /\
       (e = ValueError \/ e = KeyError) /\
       e = match getitem json_object "msg" with
           | Return _ => ValueError
           | Raise missing => missing
           end) /\
  (forall p response,
     bilibili_request page (bilibili_params s) = Return p ->
     http_get host Bilibili.base_url (Some p) = Return response ->
     status response <> 200 ->
     Bilibili.raw_fetch_async host page s = (Return [], set_bilibili_params p s) /\
     snapshots (snd (Bilibili.raw_fetch_async host page s)) = snapshots s /\
     forall other : Host,
       http_get other Bilibili.base_url (Some p) = Return response ->
       Bilibili.raw_fetch_async other page s = Bilibili.raw_fetch_async host page s) /\
  (forall code,
     IQiYi.raw_fetch_async (with_status code host) page s
     = IQiYi.raw_fetch_async host page s).
Proof.
  split; [|split].
  - intros p response json_object ret. apply tencent_bad_ret_raises.
  - intros p response Hp Hget Hstatus.
    pose proof (bilibili_bad_status_returns_empty host page s p response Hp Hget Hstatus)
      as Hfetch.
    split; [exact Hfetch|]. split; [now rewrite Hfetch|].
    intros other Hother. rewrite Hfetch.
    now apply bilibili_bad_status_returns_empty with response.
  - intros code. apply iqiyi_ignores_status.
Qed.

Lemma bad_top_level_response_by_adapter_witness :
  Tencent.raw_fetch_async (serving 200 tencent_error []) 2 initial_shared
  = (Raise ValueError,
     set_snapshots (<[(Tencent.platform, 2) := tencent_error]> (snapshots initial_shared))
       (snd (Tencent.raw_fetch_async offline_host 2 initial_shared))) /\
  (exists p,
     bilibili_request 2 (bilibili_params initial_shared) = Return p /\
     Bilibili.raw_fetch_async (serving 500 bilibili_listing []) 2 initial_shared
     = (Return [], set_bilibili_params p initial_shared) /\
     snapshots (snd (Bilibili.raw_fetch_async (serving 500 bilibili_listing []) 2
                       initial_shared)) = snapshots initial_shared /\
     Bilibili.raw_fetch_async (serving 500 bilibili_listing ["101"; "102"]) 2 initial_shared
     = Bilibili.raw_fetch_async (serving 500 bilibili_listing []) 2 initial_shared).
Proof.
  split.
  - destruct (proj1 (bad_top_level_response_by_adapter
                       (serving 200 tencent_error []) 2 initial_shared)
                _ _ tencent_error (PyInt 1001) eq_refl eq_refl eq_refl eq_refl eq_refl)
      as (e & Hfetch & _ & He).
    cbn in He. subst e. exact Hfetch.
  - eexists. split; [reflexivity|].
    destruct (proj1 (proj2 (bad_top_level_response_by_adapter
                              (serving 500 bilibili_listing []) 2 initial_shared))
                _ _ eq_refl eq_refl ltac:(discriminate))
      as (Hfetch & Hsnap & Hother).
    split; [exact Hfetch|]. split; [exact Hsnap|].
    apply Hother. reflexivity.
Defined.

(** ** The join of the enrichment requests *)

Lemma mapM_unfold {A B} (f : A -> Outcome B) (x : A) (l : list A) :
  mapM f (x :: l) = (y ← f x; k ← mapM f l; mret (y :: k)).
Proof. reflexivity. Qed.

Lemma mapM_returns_in {A B} (f : A -> Outcome B) (l : list A) (ys : list B) (x : A) :
  mapM f l = Return ys -> In x l -> exists y, f x = Return y /\ In y ys.
Proof.
  revert ys. induction l as [|a l IH]; intros ys H Hin; [destruct Hin|].
  rewrite mapM_unfold in H.
  apply bind_outcome_return in H as (y & Hy & H).
  apply bind_outcome_return in H as (k & Hk & [= <-]).
  destruct Hin as [->|Hin].
  - exists y. split; [exact Hy | now left].
  - destruct (IH k Hk Hin) as (y' & Hy' & Hin'). exists y'. split; [exact Hy' | now right].
Qed.

(** A list of tasks of which one fails cannot be joined, whether the tasks
    could all be created or not. *)
Lemma fan_out_raises {A} (make : PyValue -> Outcome (Outcome A)) (items : list PyValue)
    (item : PyValue) (e : Exn) :
  In item items ->
  make item = Return (Raise e) ->
  exists e', (tasks ← mapM make items; gather tasks) = Raise e'.
Proof.
  intros Hin Hmake.
  destruct (mapM make items) as [tasks|e0] eqn:M; cbn; [|eauto].
  destruct (mapM_returns_in make items tasks item M Hin) as (t & Ht & Hint).
  rewrite Hmake in Ht. injection Ht as <-.
  now apply gather_raises with e.
Qed.

Lemma getitem_contains obj key v : getitem obj key = Return v -> contains obj key = Return true.
Proof.
  destruct obj; cbn; try discriminate.
  destruct (dict_lookup key entries) eqn:L; [|discriminate].
  intros _. f_equal; try apply bool_decide_eq_true; eauto.
Qed.

(** Bilibili: the films are listed and one film's task fails. *)
Lemma bilibili_handle_data_raises host raw data film_data items item first_ep ep_id e :
  getitem raw "data" = Return data ->
  getitem data "list" = Return film_data ->
  iterate film_data = Return items ->
  In item items ->
  getitem item "first_ep" = Return first_ep ->
  getitem first_ep "ep_id" = Return ep_id ->
  Bilibili.create_movie_entity host item (py_str host ep_id) = Raise e ->
  exists e', Bilibili.handle_data host raw = Raise e'.
Proof.
  intros Hdata Hlist Hiter Hin Hfirst Hep Htask.
  unfold Bilibili.handle_data.
  rewrite (getitem_contains _ _ _ Hdata). cbn [mbind Outcome_bind].
  rewrite Hdata. cbn [mbind Outcome_bind].
  rewrite (getitem_contains _ _ _ Hlist). cbn [mbind Outcome_bind].
  rewrite Hlist. cbn [mbind Outcome_bind].
  rewrite Hiter. cbn [mbind Outcome_bind].
  apply fan_out_raises with item e; [exact Hin|].
  rewrite Hfirst. cbn [mbind Outcome_bind]. rewrite Hep. cbn [mbind Outcome_bind].
  now rewrite Htask.
Qed.

Lemma bilibili_fetch_raises host page s p response raw data film_data items item
    first_ep ep_id e :
  bilibili_request page (bilibili_params s) = Return p ->
  http_get host Bilibili.base_url (Some p) = Return response ->
  status response = 200 ->
  json response = Return raw ->
  getitem raw "data" = Return data ->
  getitem data "list" = Return film_data ->
  iterate film_data = Return items ->
  In item items ->
  getitem item "first_ep" = Return first_ep ->
  getitem first_ep "ep_id" = Return ep_id ->
  Bilibili.create_movie_entity host item (py_str host ep_id) = Raise e ->
  exists e' s', Bilibili.raw_fetch_async host page s = (Raise e', s').
Proof.
  intros H Hget Hstatus Hjson Hdata Hlist Hiter Hin Hfirst Hep Htask.
  destruct (bilibili_handle_data_raises host raw data film_data items item first_ep ep_id e
              Hdata Hlist Hiter Hin Hfirst Hep Htask) as [e' Hraise].
  apply bind_outcome_return in H as (p1 & A1 & A2).
  unfold Bilibili.raw_fetch_async.
  rewrite (bind_return _ _ _ _ _ (bilibili_set_param _ _ _ _ A1)).
  rewrite (bind_return _ _ _ _ _ (bilibili_set_param _ _ (set_bilibili_params p1 s) _ A2)).
  rewrite set_bilibili_params_twice.
  unfold mbind at 1, Eff_bind, gets. cbn [bilibili_params set_bilibili_params].
  unfold mbind at 1, Eff_bind, eval. rewrite Hget, Hstatus. cbn [Z.eqb Pos.eqb].
  unfold mbind at 1, Eff_bind. rewrite Hjson.
  unfold mbind at 1, Eff_bind, write_in, modify. rewrite Hraise.
  eauto.
Qed.

Lemma tencent_fetch_raises host page s p response json_object ret cards items item
    params cid e :
  tencent_request page (tencent_payload s) = Return p ->
  http_post host Tencent.base_url p = Return response ->
  json_loads host (text response) = Return json_object ->
  getitem json_object "ret" = Return ret ->
  differs_from_zero ret = false ->
  (Tencent.cards_at json_object 1 = Return cards \/
   Tencent.cards_at json_object 1 = Raise IndexError /\
   Tencent.cards_at json_object 0 = Return cards) ->
  iterate cards = Return items ->
  In item items ->
  getitem item "params" = Return params ->
  getitem params "cid" = Return cid ->
  Tencent.get_movie_detail host cid item = Raise e ->
  exists e' s', Tencent.raw_fetch_async host page s = (Raise e', s').
Proof.
  intros H Hpost Hjson Hret Hz Hcards Hiter Hin Hparams Hcid Htask.
  apply bind_outcome_return in H as (p1 & A1 & H).
  apply bind_outcome_return in H as (p2 & A2 & A3).
  unfold Tencent.raw_fetch_async, Tencent.get_movies.
  rewrite (bind_return _ _ _ _ _ (tencent_set_payload _ _ _ _ _ A1)).
  rewrite (bind_return _ _ _ _ _ (tencent_set_payload _ _ _ (set_tencent_payload p1 s) _ A2)).
  rewrite (bind_return _ _ _ _ _
             (tencent_set_payload _ _ _ (set_tencent_payload p2 (set_tencent_payload p1 s))
                _ A3)).
  rewrite (bind_return _ _ _ _ _ (gets_return _ _)).
  cbn [tencent_payload set_tencent_payload].
  rewrite (bind_return _ _ _ _ _ (eval_return _ _ _ Hpost)).
  rewrite (bind_return _ _ _ _ _ (eval_return _ _ _ Hjson)).
  unfold write_in. rewrite (bind_return _ _ _ _ _ (modify_return _ _)).
  rewrite (bind_return _ _ _ _ _ (eval_return _ _ _ Hret)).
  rewrite Hz.
  match goal with |- context [try_except ?b ?c ?h] =>
    assert (Hc : forall s0 : Shared, try_except b c h s0 = (Return cards, s0))
      by (intros s0; unfold try_except, eval;
          destruct Hcards as [-> | [-> ->]]; reflexivity)
  end.
  rewrite (bind_return _ _ _ _ _ (Hc _)).
  rewrite (bind_return _ _ _ _ _ (eval_return _ _ _ Hiter)).
  match goal with |- context [mapM ?make items] =>
    destruct (fan_out_raises make items item e Hin) as [e' Hfan];
      [ rewrite Hparams; cbn [mbind Outcome_bind]; rewrite Hcid;
        cbn [mbind Outcome_bind]; now rewrite Htask
      | destruct (mapM make items) as [tasks|e0] eqn:M ]
  end.
  - cbn [mbind Outcome_bind] in Hfan.
    rewrite (bind_return _ _ _ _ _ (eval_return _ _ _ eq_refl)).
    rewrite (bind_raise _ _ _ _ _ (eval_raise _ _ _ Hfan)). eauto.
  - rewrite (bind_raise _ _ _ _ _ (eval_raise _ _ _ eq_refl)). eauto.
Qed.

(** A fetch that raises leaves the batch of the run at PENDING. *)
Lemma failed_fetch_is_never_finished
    (wall : Clock) (platform : string) (collection : Collection) (page pagesize : Z)
    (async_func : Eff Shared (list MovieEntity)) (w : World) (e : Exn) (s' : Shared) :
  async_func (shared w) = (Raise e, s') ->
  exists w' pending,
    fst (async_func (shared w)) = Raise e /\
    abstract_run_with_checkpoint wall platform collection page pagesize async_func w
      = (Raise e, w') /\
    batch_trace w' = batch_trace w ++ [pending] /\
    ev_status pending = PENDING /\
    db_trace w' = db_trace w /\
    stored w' = stored w.
Proof.
  intros F.
  destruct (run_fetch_raises wall platform collection page pagesize async_func w e s' F)
    as (w' & Hrun & _ & _ & Hb & Hd & Hs & _).
  exists w'. eexists. rewrite F. cbn [fst]. repeat split; eauto.
Qed.

(** The status of the answer to an enrichment request plays no part in
    either adapter. *)
Lemma enrichment_ignores_status (host : Host) (code : Z) (item cid : PyValue) (eq_id : string) :
  Bilibili.create_movie_entity (with_status code host) item eq_id
  = Bilibili.create_movie_entity host item eq_id /\
  Tencent.get_movie_detail (with_status code host) cid item
  = Tencent.get_movie_detail host cid item.
Proof.
  split.
  - unfold Bilibili.create_movie_entity, Bilibili.fetch_actors. cbn [http_get with_status].
    destruct (http_get host (Bilibili.actors_url +:+ eq_id) None); reflexivity.
  - unfold Tencent.get_movie_detail, Tencent.cover_url_of, py_json_loads.
    cbn [http_get with_status].
    replace (py_str (with_status code host)) with (py_str host) by reflexivity.
    destruct (http_get host _ None); reflexivity.
Qed.

(** C6, as stated, fails: a Bilibili listing of two films whose episode
    pages are all answered with status 404 is fetched without an error. *)
Lemma bilibili_bad_episode_status_is_not_a_failure :
  ~ bilibili_fails_on_bad_episode_status (episodes_answering 404) 1 initial_shared.
Proof.
  intros H.
  destruct (H _ _ _ _ _ _ (bilibili_film "one" 101) _ (PyInt 101) _
              eq_refl eq_refl eq_refl eq_refl eq_refl eq_refl eq_refl
              (or_introl eq_refl) eq_refl eq_refl eq_refl ltac:(discriminate))
    as [e He].
  vm_compute in He. discriminate He.
Qed.

(** The run over that listing completes: the batch is FINISHED and both
    films are stored, without actors. *)
Example bilibili_bad_episode_status_run :
  let (r, w') := Bilibili.run_async (episodes_answering 404) accepting 1 initial_world in
  (exists docs, r = Return docs /\ stored w' = docs /\ length docs = 2%nat) /\
  map ev_status (batch_trace w') = [PENDING; FINISHED] /\
  map (dict_lookup "actors") (stored w') = [Some (PyList []); Some (PyList [])].
Proof. vm_compute. repeat split; eauto. Qed.

(** C6, amended.  In the two adapters that fan out one enrichment request per
    listed item, Bilibili and Tencent, an enrichment request that raises
    (the request fails in transport, or the entity cannot be built from the
    page it returned) fails the whole fetch: it raises, so no list of the
    other items is returned, and the run that drove it raises the same error
    with its batch left at PENDING, nothing written.  The status of the
    answer is not looked at: a request answered with an error status gives
    what the same page would give under any other status. *)
Theorem enrichment_failure_fails_the_batch
    (host : Host) (collection : Collection) (page : Z) (w : World) :
  (forall p response raw data film_data items item first_ep ep_id e,
     bilibili_request page (bilibili_params (shared w)) = Return p ->
     http_get host Bilibili.base_url (Some p) = Return response ->
     status response = 200 ->
     json response = Return raw ->
     getitem raw "data" = Return data ->
     getitem data "list" = Return film_data ->
     iterate film_data = Return items ->
     In item items ->
     getitem item "first_ep" = Return first_ep ->
     getitem first_ep "ep_id" = Return ep_id ->
     Bilibili.create_movie_entity host item (py_str host ep_id) = Raise e ->
     exists e' w' pending,
       fst (Bilibili.raw_fetch_async host page (shared w)) = Raise e' /\
       Bilibili.run_async host collection page w = (Raise e', w') /\
       batch_trace w' = batch_trace w ++ [pending] /\
       ev_status pending = PENDING /\
       db_trace w' = db_trace w /\
       stored w' = stored w) /\
  (forall p response json_object ret cards items item params cid e,
     tencent_request page (tencent_payload (shared w)) = Return p ->
     http_post host Tencent.base_url p = Return response ->
     json_loads host (text response) = Return json_object ->
     getitem json_object "ret" = Return ret ->
     differs_from_zero ret = false ->
     (Tencent.cards_at json_object 1 = Return cards \/
      Tencent.cards_at json_object 1 = Raise IndexError /\
      Tencent.cards_at json_object 0 = Return cards) ->
     iterate cards = Return items ->
     In item items ->
     getitem item "params" = Return params ->
     getitem params "cid" = Return cid ->
     Tencent.get_movie_detail host cid item = Raise e ->
     exists e' w' pending,
       fst (Tencent.raw_fetch_async host page (shared w)) = Raise e' /\
       Tencent.run_async host collection page w = (Raise e', w') /\
       batch_trace w' = batch_trace w ++ [pending] /\
       ev_status pending = PENDING /\
       db_trace w' = db_trace w /\
       stored w' = stored w) /\
  (forall code item cid eq_id,
     Bilibili.create_movie_entity (with_status code host) item eq_id
     = Bilibili.create_movie_entity host item eq_id /\
     Tencent.get_movie_detail (with_status code host) cid item
     = Tencent.get_movie_detail host cid item).
Proof.
  split; [|split].
  - intros p response raw data film_data items item first_ep ep_id e
           Hp Hget Hstatus Hjson Hdata Hlist Hiter Hin Hfirst Hep Htask.
    destruct (bilibili_fetch_raises host page (shared w) p response raw data film_data
                items item first_ep ep_id e
                Hp Hget Hstatus Hjson Hdata Hlist Hiter Hin Hfirst Hep Htask)
      as (e' & s' & F).
    exists e'. unfold Bilibili.run_async.
    now apply failed_fetch_is_never_finished with s'.
  - intros p response json_object ret cards items item params cid e
           Hp Hpost Hjson Hret Hz Hcards Hiter Hin Hparams Hcid Htask.
    destruct (tencent_fetch_raises host page (shared w) p response json_object ret cards
                items item params cid e
                Hp Hpost Hjson Hret Hz Hcards Hiter Hin Hparams Hcid Htask)
      as (e' & s' & F).
    exists e'. unfold Tencent.run_async.
    now apply failed_fetch_is_never_finished with s'.
  - intros code item cid eq_id. apply enrichment_ignores_status.
Qed.

Lemma enrichment_failure_fails_the_batch_witness :
  Bilibili.create_movie_entity (serving 200 bilibili_listing ["102"])
    (bilibili_film "two" 102) "102" = Raise ClientError /\
  Bilibili.create_movie_entity (serving 200 bilibili_listing ["102"])
    (bilibili_film "one" 101) "101" <> Raise ClientError /\
  (exists e' w' pending,
     fst (Bilibili.raw_fetch_async (serving 200 bilibili_listing ["102"]) 1
            (shared initial_world)) = Raise e' /\
     Bilibili.run_async (serving 200 bilibili_listing ["102"]) accepting 1 initial_world
       = (Raise e', w') /\
     batch_trace w' = batch_trace initial_world ++ [pending] /\
     ev_status pending = PENDING /\
     db_trace w' = db_trace initial_world /\
     stored w' = stored initial_world) /\
  (exists e' w' pending,
     fst (Tencent.raw_fetch_async (serving 200 tencent_listing []) 1
            (shared initial_world)) = Raise e' /\
     Tencent.run_async (serving 200 tencent_listing []) accepting 1 initial_world
       = (Raise e', w') /\
     batch_trace w' = batch_trace initial_world ++ [pending] /\
     ev_status pending = PENDING /\
     db_trace w' = db_trace initial_world /\
     stored w' = stored initial_world) /\
  Bilibili.create_movie_entity (with_status 404 (serving 200 bilibili_listing []))
    (bilibili_film "one" 101) "101"
  = Bilibili.create_movie_entity (serving 200 bilibili_listing []) (bilibili_film "one" 101)
      "101".
Proof.
  split; [reflexivity|]. split; [discriminate|]. split; [|split].
  - eapply (proj1 (enrichment_failure_fails_the_batch
                     (serving 200 bilibili_listing ["102"]) accepting 1 initial_world)
              _ _ _ _ _ _ (bilibili_film "two" 102) _ (PyInt 102) ClientError);
      [reflexivity | reflexivity | reflexivity | reflexivity | reflexivity | reflexivity
      | reflexivity | right; left; reflexivity | reflexivity | reflexivity | reflexivity].
  - eapply (proj1 (proj2 (enrichment_failure_fails_the_batch
                            (serving 200 tencent_listing []) accepting 1 initial_world))
              _ _ _ _ _ _ (tencent_card "two" "b2") _ (PyStr "b2") IndexError);
      [reflexivity | reflexivity | reflexivity | reflexivity | reflexivity
      | left; reflexivity | reflexivity | right; left; reflexivity | reflexivity
      | reflexivity | reflexivity].
  - apply (proj2 (proj2 (enrichment_failure_fails_the_batch
                           (serving 200 bilibili_listing []) accepting 1 initial_world))
             404 (bilibili_film "one" 101) PyNone "101").
Defined.

(** ** The recorder across runs *)

Lemma issued_before_grows w w' ev :
  (forall category, next_serial category w <= next_serial category w')%nat ->
  issued_before w ev -> issued_before w' ev.
Proof. unfold issued_before. intros Hle H. specialize (Hle (fst (ev_task_id ev))). lia. Qed.

(** X4.  Every run keeps the recorder within the identifiers given out,
    whatever its outcome: if every recorded event bears a task identifier
    already issued before the run, the same holds after it, so the property
    holds in every world reached from the initial one. *)
Lemma run_keeps_recorded_keys_issued
    (wall : Clock) (platform : string) (collection : Collection) (page pagesize : Z)
    (async_func : Eff Shared (list MovieEntity)) (w w' : World)
    (r : Outcome (list Document)) :
  recorded_keys_issued w ->
  abstract_run_with_checkpoint wall platform collection page pagesize async_func w = (r, w') ->
  recorded_keys_issued w'.
Proof.
  intros [Hbatch Hdb] Hrun.
  assert (Hnew : forall w1 : World,
            (issued w1 = <["BATCH.TASK" := S (next_serial "BATCH.TASK" w)]> (issued w) \/
             issued w1 = <["DB.TASK" := S (next_serial "DB.TASK" w)]>
                           (<["BATCH.TASK" := S (next_serial "BATCH.TASK" w)]> (issued w))) ->
            (forall category, next_serial category w <= next_serial category w1)%nat /\
            (next_serial "BATCH.TASK" w < next_serial "BATCH.TASK" w1)%nat /\
            (issued w1 = <["DB.TASK" := S (next_serial "DB.TASK" w)]>
                           (<["BATCH.TASK" := S (next_serial "BATCH.TASK" w)]> (issued w)) ->
             (next_serial "DB.TASK" w < next_serial "DB.TASK" w1)%nat)).
  { intros w1 [E|E]; (split; [|split]).
    - intros category. rewrite (next_serial_after_insert _ _ _ _ _ E).
      destruct (decide _) as [<-|]; [lia | reflexivity].
    - rewrite (next_serial_after_insert _ _ _ _ _ E). rewrite decide_True by reflexivity. lia.
    - intros E'. rewrite E' in E. apply (f_equal (fun m => m !! "DB.TASK")) in E.
      rewrite lookup_insert_eq, lookup_insert_ne in E by discriminate.
      rewrite (next_serial_after_insert _ _ _ _ _ E'), decide_True by reflexivity. lia.
    - intros category. rewrite (next_serial_after_insert _ _ _ _ _ E).
      destruct (decide _) as [<-|]; [lia|].
      rewrite lookup_insert. destruct (decide _) as [<-|]; [|reflexivity].
      unfold next_serial. cbn. lia.
    - rewrite (next_serial_after_insert _ _ _ _ _ E), decide_False by discriminate.
      rewrite lookup_insert_eq. cbn. lia.
    - intros _. rewrite (next_serial_after_insert _ _ _ _ _ E), decide_True by reflexivity.
      lia. }
  destruct (run_cases wall platform collection page pagesize async_func w)
    as [(e & s' & F) | [(ents & s' & e & F & R) | (ents & s' & F & R)]].
  - destruct (run_fetch_raises wall platform collection page pagesize async_func w e s' F)
      as (w1 & Hrun1 & _ & Hi & Hb & Hd & _).
    rewrite Hrun in Hrun1. injection Hrun1 as -> <-.
    destruct (Hnew w' (or_introl Hi)) as (Hle & Hlt & _).
    split.
    + rewrite Hb. apply Forall_app. split.
      * eapply Forall_impl; [exact Hbatch | intros ev; now apply issued_before_grows].
      * repeat constructor. exact Hlt.
    + rewrite Hd. eapply Forall_impl; [exact Hdb | intros ev; now apply issued_before_grows].
  - destruct (run_insert_raises wall platform collection page pagesize async_func w
                ents s' e F R)
      as (w1 & Hrun1 & _ & Hi & Hb & Hd & _).
    rewrite Hrun in Hrun1. injection Hrun1 as -> <-.
    destruct (Hnew w' (or_intror Hi)) as (Hle & Hlt & Hlt').
    split.
    + rewrite Hb. apply Forall_app. split.
      * eapply Forall_impl; [exact Hbatch | intros ev; now apply issued_before_grows].
      * repeat constructor; exact Hlt.
    + rewrite Hd. apply Forall_app. split.
      * eapply Forall_impl; [exact Hdb | intros ev; now apply issued_before_grows].
      * repeat constructor. exact (Hlt' Hi).
  - destruct (run_returns wall platform collection page pagesize async_func w ents s' F R)
      as (w1 & Hrun1 & _ & Hi & Hb & Hd & _).
    rewrite Hrun in Hrun1. injection Hrun1 as -> <-.
    destruct (Hnew w' (or_intror Hi)) as (Hle & Hlt & Hlt').
    split.
    + rewrite Hb. apply Forall_app. split.
      * eapply Forall_impl; [exact Hbatch | intros ev; now apply issued_before_grows].
      * repeat constructor; exact Hlt.
    + rewrite Hd. apply Forall_app. split.
      * eapply Forall_impl; [exact Hdb | intros ev; now apply issued_before_grows].
      * repeat constructor; exact (Hlt' Hi).
Qed.

(** * Further properties of the code *)

(** ** Inversion of the effect layer *)

Lemma bind_eff_returns {S A B} (m : Eff S A) (k : A -> Eff S B) s b s' :
  (m ≫= k) s = (Return b, s') ->
  exists a s1, m s = (Return a, s1) /\ k a s1 = (Return b, s').
Proof.
  unfold mbind, Eff_bind. destruct (m s) as [[a|e] s1]; [eauto | discriminate].
Qed.

Lemma eval_returns {S A} (o : Outcome A) (s s' : S) a :
  eval o s = (Return a, s') -> o = Return a /\ s' = s.
Proof. unfold eval. now intros [= -> ->]. Qed.

Lemma mapM_returns_Forall2 {A B} (f : A -> Outcome B) (l : list A) (ys : list B) :
  mapM f l = Return ys -> Forall2 (fun x y => f x = Return y) l ys.
Proof.
  revert ys. induction l as [|a l IH]; intros ys H.
  - injection H as <-. constructor.
  - rewrite mapM_unfold in H.
    apply bind_outcome_return in H as (y & Hy & H).
    apply bind_outcome_return in H as (k & Hk & [= <-]).
    constructor; [exact Hy | now apply IH].
Qed.

Lemma gather_returns_Forall2 {A} (tasks : list (Outcome A)) (results : list A) :
  gather tasks = Return results -> Forall2 (fun t r => t = Return r) tasks results.
Proof.
  intros H. apply gather_returns in H. subst tasks.
  induction results; constructor; auto.
Qed.

(** ** The orchestrator: the failed write, reruns, earlier tasks *)

(** X1.  When the fetch returns and the sink refuses the write, the run raises
    the sink's error with the batch trace closed (PENDING then FINISHED, same
    task), the persistence trace left at PENDING, the refused call on record
    (with the records as the driver sent them) and nothing stored: the traces
    put the failure in the persistence step. *)
Theorem refused_write_is_isolated
    (wall : Clock) (platform : string) (collection : Collection) (page pagesize : Z)
    (async_func : Eff Shared (list MovieEntity)) (w : World)
    (ents : list MovieEntity) (s' : Shared) (e : Exn) :
  async_func (shared w) = (Return ents, s') ->
  refuses collection (map asdict ents) = Some e ->
  exists w' bp bf dp,
    abstract_run_with_checkpoint wall platform collection page pagesize async_func w
      = (Raise e, w') /\
    batch_trace w' = batch_trace w ++ [bp; bf] /\
    ev_status bp = PENDING /\ ev_status bf = FINISHED /\ ev_task_id bf = ev_task_id bp /\
    db_trace w' = db_trace w ++ [dp] /\ ev_status dp = PENDING /\ ev_end dp = None /\
    insert_calls w' = insert_calls w
                      ++ [with_ids collection (length (insert_calls w)) (map asdict ents)] /\
    stored w' = stored w.
Proof.
  intros F R.
  destruct (run_insert_raises wall platform collection page pagesize async_func w ents s' e F R)
    as (w' & Hrun & _ & _ & Hb & Hd & Hs & Hc & _).
  exists w'. do 3 eexists.
  split; [exact Hrun|]. split; [exact Hb|]. cbn.
  repeat (split; [reflexivity|]).
  split; [exact Hd|]. cbn. auto.
Qed.

Lemma refused_write_is_isolated_witness :
  exists w' bp bf dp,
    abstract_run_with_checkpoint steady_clock "stub" (refusing (WriteError "down")) 7 20
      (stub_returning [sample_movie "a"]) initial_world = (Raise (WriteError "down"), w') /\
    batch_trace w' = batch_trace initial_world ++ [bp; bf] /\
    ev_status bp = PENDING /\ ev_status bf = FINISHED /\ ev_task_id bf = ev_task_id bp /\
    db_trace w' = db_trace initial_world ++ [dp] /\ ev_status dp = PENDING /\
    ev_end dp = None /\
    insert_calls w' = insert_calls initial_world
                      ++ [with_ids (refusing (WriteError "down"))
                            (length (insert_calls initial_world))
                            (map asdict [sample_movie "a"])] /\
    stored w' = stored initial_world.
Proof.
  apply (refused_write_is_isolated steady_clock "stub" (refusing (WriteError "down")) 7 20
           (stub_returning [sample_movie "a"]) initial_world [sample_movie "a"]
           initial_shared (WriteError "down")); reflexivity.
Defined.

(** X2.  The orchestrator keeps no memory of what it has persisted: two
    successful runs in a row, of any two adapters, leave both batches in the
    sink, the second after the first; driving the same page twice stores its
    records twice. *)
Theorem rerun_stores_again
    (wall : Clock) (platform1 platform2 : string) (collection : Collection)
    (page1 page2 pagesize1 pagesize2 : Z)
    (fetch1 fetch2 : Eff Shared (list MovieEntity)) (w w1 w2 : World)
    (docs1 docs2 : list Document) :
  abstract_run_with_checkpoint wall platform1 collection page1 pagesize1 fetch1 w
    = (Return docs1, w1) ->
  abstract_run_with_checkpoint wall platform2 collection page2 pagesize2 fetch2 w1
    = (Return docs2, w2) ->
  stored w2 = stored w ++ docs1 ++ docs2 /\
  insert_calls w2 = insert_calls w ++ [docs1; docs2].
Proof.
  assert (Hone : forall platform page pagesize fetch (u u' : World) docs,
            abstract_run_with_checkpoint wall platform collection page pagesize fetch u
              = (Return docs, u') ->
            stored u' = stored u ++ docs /\ insert_calls u' = insert_calls u ++ [docs]).
  { intros platform page pagesize fetch u u' docs Hrun.
    destruct (run_cases wall platform collection page pagesize fetch u)
      as [(e & s' & F) | [(ents & s' & e & F & R) | (ents & s' & F & R)]].
    - destruct (run_fetch_raises wall platform collection page pagesize fetch u e s' F)
        as (u1 & Hrun1 & _). rewrite Hrun in Hrun1. discriminate Hrun1.
    - destruct (run_insert_raises wall platform collection page pagesize fetch u ents s' e F R)
        as (u1 & Hrun1 & _). rewrite Hrun in Hrun1. discriminate Hrun1.
    - destruct (run_returns wall platform collection page pagesize fetch u ents s' F R)
        as (u1 & Hrun1 & _ & _ & _ & _ & Hs & Hc & _).
      rewrite Hrun in Hrun1. injection Hrun1 as -> <-. auto. }
  intros H1 H2.
  destruct (Hone _ _ _ _ _ _ _ H1) as [S1 C1].
  destruct (Hone _ _ _ _ _ _ _ H2) as [S2 C2].
  rewrite S2, S1, C2, C1, <- !app_assoc. auto.
Qed.

Lemma rerun_stores_again_witness :
  let run := abstract_run_with_checkpoint steady_clock "stub" accepting 5 20
               (stub_returning [sample_movie "a"; sample_movie "b"]) in
  let w1 := snd (run initial_world) in
  let w2 := snd (run w1) in
  exists docs1 docs2,
    run initial_world = (Return docs1, w1) /\
    run w1 = (Return docs2, w2) /\
    stored w2 = stored initial_world ++ docs1 ++ docs2 /\
    insert_calls w2 = insert_calls initial_world ++ [docs1; docs2] /\
    length (stored w2) = 4%nat.
Proof.
  intros run w1 w2.
  exists (with_ids accepting 0 (map asdict [sample_movie "a"; sample_movie "b"])),
         (with_ids accepting 1 (map asdict [sample_movie "a"; sample_movie "b"])).
  assert (R1 : run initial_world
               = (Return (with_ids accepting 0
                            (map asdict [sample_movie "a"; sample_movie "b"])), w1))
    by (vm_compute; reflexivity).
  assert (R2 : run w1
               = (Return (with_ids accepting 1
                            (map asdict [sample_movie "a"; sample_movie "b"])), w2))
    by (vm_compute; reflexivity).
  split; [exact R1|]. split; [exact R2|].
  destruct (rerun_stores_again steady_clock "stub" "stub" accepting 5 5 20 20 _ _ _ _ _ _ _
              R1 R2) as [S C].
  split; [exact S|]. split; [exact C|]. reflexivity.
Defined.

Lemma events_for_next_keys tid w (old new : list TraceEvent) :
  (snd tid < next_serial (fst tid) w)%nat ->
  Forall (fun ev => exists category, ev_task_id ev = next_key category w) new ->
  events_for tid (old ++ new) = events_for tid old.
Proof.
  intros Hlt Hnew. rewrite events_for_app.
  replace (events_for tid new) with (@nil TraceEvent); [now rewrite app_nil_r|].
  induction Hnew as [|ev new [category Hev] _ IH]; [reflexivity|].
  unfold events_for. rewrite filter_cons_False; [exact IH|].
  intros E. rewrite Hev in E. subst tid. cbn in Hlt. lia.
Qed.

(** X3.  A run writes only under the task identifiers it allocates: for
    every identifier given out before the run, the events of both traces are
    after the run what they were before it, whatever the outcome of the run. *)
Theorem run_leaves_earlier_tasks_alone
    (wall : Clock) (platform : string) (collection : Collection) (page pagesize : Z)
    (async_func : Eff Shared (list MovieEntity)) (w w' : World)
    (r : Outcome (list Document)) (tid : TaskId) :
  abstract_run_with_checkpoint wall platform collection page pagesize async_func w = (r, w') ->
  (snd tid < next_serial (fst tid) w)%nat ->
  events_for tid (batch_trace w') = events_for tid (batch_trace w) /\
  events_for tid (db_trace w') = events_for tid (db_trace w).
Proof.
  intros Hrun Hlt.
  destruct (run_cases wall platform collection page pagesize async_func w)
    as [(e & s' & F) | [(ents & s' & e & F & R) | (ents & s' & F & R)]].
  - destruct (run_fetch_raises wall platform collection page pagesize async_func w e s' F)
      as (w1 & Hrun1 & _ & _ & Hb & Hd & _).
    rewrite Hrun in Hrun1. injection Hrun1 as -> <-. rewrite Hb, Hd.
    split; [|reflexivity].
    apply (events_for_next_keys tid w); [exact Hlt|]. repeat constructor; eauto.
  - destruct (run_insert_raises wall platform collection page pagesize async_func w
                ents s' e F R)
      as (w1 & Hrun1 & _ & _ & Hb & Hd & _).
    rewrite Hrun in Hrun1. injection Hrun1 as -> <-. rewrite Hb, Hd.
    split; (apply (events_for_next_keys tid w); [exact Hlt|]); repeat constructor; eauto.
  - destruct (run_returns wall platform collection page pagesize async_func w ents s' F R)
      as (w1 & Hrun1 & _ & _ & Hb & Hd & _).
    rewrite Hrun in Hrun1. injection Hrun1 as -> <-. rewrite Hb, Hd.
    split; (apply (events_for_next_keys tid w); [exact Hlt|]); repeat constructor; eauto.
Qed.

Lemma run_leaves_earlier_tasks_alone_witness :
  let w1 := snd (abstract_run_with_checkpoint steady_clock "stub" accepting 5 20
                   (stub_returning [sample_movie "a"]) initial_world) in
  let w2 := snd (abstract_run_with_checkpoint steady_clock "stub" accepting 6 20
                   (stub_raising ClientError) w1) in
  length (events_for ("BATCH.TASK", 0%nat) (batch_trace w1)) = 2%nat /\
  length (batch_trace w2) = 3%nat /\
  events_for ("BATCH.TASK", 0%nat) (batch_trace w2)
    = events_for ("BATCH.TASK", 0%nat) (batch_trace w1) /\
  events_for ("BATCH.TASK", 0%nat) (db_trace w2)
    = events_for ("BATCH.TASK", 0%nat) (db_trace w1).
Proof.
  intros w1 w2. split; [reflexivity|]. split; [reflexivity|].
  apply (run_leaves_earlier_tasks_alone steady_clock "stub" accepting 6 20
           (stub_raising ClientError) w1 w2 (Raise ClientError) ("BATCH.TASK", 0%nat)).
  - vm_compute. reflexivity.
  - vm_compute. lia.
Defined.

Lemma run_keeps_recorded_keys_issued_witness :
  recorded_keys_issued initial_world /\
  recorded_keys_issued
    (snd (abstract_run_with_checkpoint steady_clock "stub" (refusing (WriteError "down")) 7 20
            (stub_returning [sample_movie "a"]) initial_world)).
Proof.
  assert (I : recorded_keys_issued initial_world) by (split; constructor).
  split; [exact I|].
  apply (run_keeps_recorded_keys_issued steady_clock "stub" (refusing (WriteError "down"))
           7 20 (stub_returning [sample_movie "a"]) initial_world _
           (Raise (WriteError "down")) I).
  vm_compute. reflexivity.
Defined.

Lemma delay_only_on_success_witness :
  let w' := snd (abstract_run_with_checkpoint steady_clock "stub" accepting 5 20
                   (stub_returning [sample_movie "a"]) initial_world) in
  let r := Return (with_ids accepting 0 (map asdict [sample_movie "a"])) in
  (exists docs, r = Return docs /\ sleeps w' = sleeps initial_world ++ [1]) \/
  (exists e, r = Raise e /\ sleeps w' = sleeps initial_world).
Proof.
  intros w' r.
  apply (delay_only_on_success steady_clock "stub" accepting 5 20
           (stub_returning [sample_movie "a"]) initial_world w' r).
  vm_compute. reflexivity.
Defined.

(** ** The cast of a film *)

Lemma filter_strings_test (s : string) :
  negb (String.eqb s "") && negb (Str.contains "《" s) && negb (Str.contains "》" s) = true
  <-> clean s.
Proof.
  unfold clean. rewrite !andb_true_iff, !negb_true_iff.
  destruct (String.eqb_spec s ""); intuition congruence.
Qed.

Lemma filter_strings_elem (strings : list string) (s : string) :
  s ∈ filter_strings strings <-> s ∈ strings /\ clean s.
Proof. unfold filter_strings. rewrite list_elem_of_filter, filter_strings_test. tauto. Qed.

(** X6.  [filter_strings] keeps the order of the names, lets through every
    name that is not empty and holds neither of the two title marks, and
    nothing else; a list of such names comes back unchanged, so filtering
    twice is filtering once. *)
Theorem filter_strings_keeps_the_clean_names (strings : list string) :
  filter_strings strings `sublist_of` strings /\
  (forall s, s ∈ filter_strings strings <-> s ∈ strings /\ clean s) /\
  (Forall clean strings -> filter_strings strings = strings) /\
  filter_strings (filter_strings strings) = filter_strings strings.
Proof.
  assert (Hfix : forall l, Forall clean l -> filter_strings l = l).
  { intros l Hl. induction Hl as [|s l Hs _ IH]; [reflexivity|].
    unfold filter_strings in *. rewrite filter_cons_True by now apply filter_strings_test.
    now rewrite IH. }
  assert (Hin : forall s, s ∈ filter_strings strings <-> s ∈ strings /\ clean s)
    by apply filter_strings_elem.
  split; [apply sublist_filter|]. split; [exact Hin|]. split; [apply Hfix|].
  apply Hfix. apply Forall_forall. intros s Hs. now apply Hin in Hs.
Qed.

Lemma split_pieces_lack_separator (sep : ascii) (s : string) :
  Forall (lacks sep) (Str.split sep s).
Proof.
  induction s as [|c s IH]; cbn.
  - repeat constructor. intros [].
  - destruct (Ascii.eqb_spec c sep) as [->|Hne].
    + constructor; [intros [] | exact IH].
    + destruct (Str.split sep s) as [|piece pieces]; [repeat constructor|].
      * intros [E|[]]. congruence.
      * inversion IH as [|? ? Hpiece Hrest]; subst.
        constructor; [|exact Hrest].
        intros [E|Hin]; [congruence | now apply Hpiece].
Qed.

Lemma split_is_not_empty (sep : ascii) (s : string) : Str.split sep s <> [].
Proof.
  destruct s as [|c s]; cbn; [discriminate|].
  destruct (Ascii.eqb c sep); [discriminate|].
  destruct (Str.split sep s); discriminate.
Qed.

(** X7.  Whenever [fetch_actors] returns, each name it returns is one line
    of the cast text: it holds no line feed, is not empty and holds neither
    title mark. *)
Theorem fetch_actors_returns_clean_lines (host : Host) (ep_id : string) (names : list string) :
  Bilibili.fetch_actors host ep_id = Return names ->
  Forall (fun name => clean name /\ lacks Str.newline name) names.
Proof.
  unfold Bilibili.fetch_actors. intros H.
  apply bind_outcome_return in H as (response & _ & H).
  apply bind_outcome_return in H as (joined & _ & [= <-]).
  apply Forall_forall. intros name Hin.
  apply filter_strings_elem in Hin as [Hin Hclean]. split; [exact Hclean|].
  pose proof (split_pieces_lack_separator Str.newline
                (Str.removeprefix "出演演员：" joined)) as Hlines.
  rewrite Forall_forall in Hlines. now apply Hlines.
Qed.

Lemma fetch_actors_returns_clean_lines_witness :
  exists names,
    Bilibili.fetch_actors (serving 200 bilibili_listing []) "101" = Return names /\
    names = ["甲"; "乙"] /\
    Forall (fun name => clean name /\ lacks Str.newline name) names.
Proof.
  eexists. split; [reflexivity|]. split; [reflexivity|].
  apply (fetch_actors_returns_clean_lines (serving 200 bilibili_listing []) "101").
  reflexivity.
Defined.

(** ** The outcomes of the score coercion *)

(** X8.  [safe_float_conversion] never lets a [ValueError] out.  It returns
    on every text, float and boolean; the only errors it raises are the
    [TypeError] of [float] on [None], a list or a dict, and the
    [OverflowError] of [float] on an integer. *)
Theorem safe_float_conversion_outcomes
    (f : string -> option float64) (v : PyValue) (d : float64) :
  (exists x, safe_float_conversion f v d = Return x /\
             (forall s, v = PyStr s -> x = default d (f s))) \/
  (safe_float_conversion f v d = Raise TypeError /\
   (v = PyNone \/ (exists items, v = PyList items) \/ (exists entries, v = PyDict entries))) \/
  (safe_float_conversion f v d = Raise OverflowError /\ exists n, v = PyInt n).
Proof.
  destruct v as [|b|n|x|s|items|entries]; cbn.
  - right; left. eauto.
  - left. eexists. split; [reflexivity | discriminate].
  - unfold safe_float_conversion, py_float.
    destruct (binary_normalize prec64 emax64 n 0 false) eqn:N; cbn.
    + left. eexists. split; [reflexivity | discriminate].
    + right; right. eauto.
    + left. eexists. split; [reflexivity | discriminate].
    + left. eexists. split; [reflexivity | discriminate].
  - left. eexists. split; [reflexivity | discriminate].
  - left. rewrite safe_float_conversion_on_text. eexists. split; [reflexivity|].
    now intros ? [= <-].
  - right; left. eauto.
  - right; left. eauto 6.
Qed.

(** ** Bilibili: the listing *)

Lemma contains_missing_key entries key :
  dict_lookup key entries = None -> contains (PyDict entries) key = Return false.
Proof.
  intros H. cbn. rewrite H. f_equal; try apply bool_decide_eq_false; now intros [? [=]].
Qed.

(** X9.  A Bilibili response without films is not an error: when the decoded
    object has no ["data"], or its ["data"] has no ["list"], or the list is
    empty, [handle_data] returns no entity and asks for no episode page. *)
Theorem handle_data_without_films_is_empty
    (host : Host) (entries : list (string * PyValue)) :
  dict_lookup "data" entries = None \/
  (exists inner, dict_lookup "data" entries = Some (PyDict inner) /\
                 (dict_lookup "list" inner = None \/
                  dict_lookup "list" inner = Some (PyList []))) ->
  Bilibili.handle_data host (PyDict entries) = Return [].
Proof.
  intros [Hdata | (inner & Hdata & Hlist)]; unfold Bilibili.handle_data.
  - now rewrite (contains_missing_key _ _ Hdata).
  - assert (Gd : getitem (PyDict entries) "data" = Return (PyDict inner))
      by (cbn; now rewrite Hdata).
    rewrite (getitem_contains _ _ _ Gd). cbn [mbind Outcome_bind]. rewrite Gd.
    cbn [mbind Outcome_bind].
    destruct Hlist as [Hlist | Hlist].
    + now rewrite (contains_missing_key _ _ Hlist).
    + assert (Gl : getitem (PyDict inner) "list" = Return (PyList []))
        by (cbn; now rewrite Hlist).
      rewrite (getitem_contains _ _ _ Gl). cbn [mbind Outcome_bind]. rewrite Gl.
      reflexivity.
Qed.

Lemma handle_data_without_films_is_empty_witness :
  Bilibili.handle_data offline_host (PyDict [("code", PyInt (-404)); ("message", PyStr "x")])
    = Return [] /\
  Bilibili.handle_data offline_host (PyDict [("data", PyDict [("total", PyInt 0)])])
    = Return [].
Proof.
  split.
  - apply (handle_data_without_films_is_empty offline_host). left. reflexivity.
  - apply (handle_data_without_films_is_empty offline_host). right.
    exists [("total", PyInt 0)]. split; [reflexivity | left; reflexivity].
Defined.

Lemma Forall2_chain {A B C} (P : A -> B -> Prop) (Q : B -> C -> Prop) l m n :
  Forall2 P l m -> Forall2 Q m n -> Forall2 (fun a c => exists b, P a b /\ Q b c) l n.
Proof.
  intros H. revert n. induction H as [|a b l m Hab _ IH]; intros n Hn.
  - inversion Hn. constructor.
  - inversion Hn as [|? c ? n' Hbc Hrest]; subst. constructor; eauto.
Qed.

(** X10.  When [handle_data] returns from a listing, it returns exactly one
    entity per listed film, in the order of the listing, each built from its
    film and the identifier of the film's first episode. *)
Theorem handle_data_returns_one_entity_per_film
    (host : Host) (raw data film_data : PyValue) (items : list PyValue)
    (ents : list MovieEntity) :
  getitem raw "data" = Return data ->
  getitem data "list" = Return film_data ->
  iterate film_data = Return items ->
  Bilibili.handle_data host raw = Return ents ->
  Forall2 (fun item ent =>
             exists first_ep ep_id,
               getitem item "first_ep" = Return first_ep /\
               getitem first_ep "ep_id" = Return ep_id /\
               Bilibili.create_movie_entity host item (py_str host ep_id) = Return ent)
          items ents /\
  length ents = length items.
Proof.
  intros Hdata Hlist Hiter H.
  unfold Bilibili.handle_data in H.
  rewrite (getitem_contains _ _ _ Hdata) in H. cbn [mbind Outcome_bind] in H.
  rewrite Hdata in H. cbn [mbind Outcome_bind] in H.
  rewrite (getitem_contains _ _ _ Hlist) in H. cbn [mbind Outcome_bind] in H.
  rewrite Hlist in H. cbn [mbind Outcome_bind] in H.
  rewrite Hiter in H. cbn [mbind Outcome_bind] in H.
  apply bind_outcome_return in H as (tasks & Htasks & Hjoin).
  apply mapM_returns_Forall2 in Htasks. apply gather_returns_Forall2 in Hjoin.
  pose proof (Forall2_chain _ _ _ _ _ Htasks Hjoin) as Hall.
  split.
  - eapply Forall2_impl; [exact Hall|].
    intros item ent (task & Hmake & ->).
    apply bind_outcome_return in Hmake as (first_ep & Hfirst & Hmake).
    apply bind_outcome_return in Hmake as (ep_id & Hep & [= Htask]).
    eauto 6.
  - symmetry. eapply Forall2_length. exact Hall.
Qed.

Lemma handle_data_returns_one_entity_per_film_witness :
  exists ents,
    Bilibili.handle_data (serving 200 bilibili_listing []) bilibili_listing = Return ents /\
    length ents = 2%nat /\
    map title ents = [PyStr "one"; PyStr "two"].
Proof.
  eexists. split; [reflexivity|].
  split; [|reflexivity].
  eapply (handle_data_returns_one_entity_per_film (serving 200 bilibili_listing [])
            bilibili_listing _ _ [bilibili_film "one" 101; bilibili_film "two" 102]);
    reflexivity.
Defined.

(** ** Bilibili: the entity of a film *)

(** X11.  An entity [create_movie_entity] returns is made of the film it was
    given: its title, cover and link are the film's ["title"], ["cover"] and
    ["link"], its actors are the names [fetch_actors] returned for the
    episode, its metadata names the source Bilibili and the episode; it has
    no director and no genre.  A film lacking one of the three keys yields
    no entity. *)
Theorem create_movie_entity_copies_the_film
    (host : Host) (item : PyValue) (eq_id : string) (ent : MovieEntity) :
  Bilibili.create_movie_entity host item eq_id = Return ent ->
  getitem item "title" = Return (title ent) /\
  getitem item "cover" = Return (cover_url ent) /\
  (exists link, getitem item "link" = Return link /\
                dict_lookup "url" (metadata ent) = Some link) /\
  (exists names, Bilibili.fetch_actors host eq_id = Return names /\
                 actors ent = map PyStr names) /\
  from_source "Bilibili" ent /\
  dict_lookup "id" (metadata ent) = Some (PyStr eq_id) /\
  directors ent = [] /\ movie_type ent = [].
Proof.
  unfold Bilibili.create_movie_entity. intros H.
  apply bind_outcome_return in H as (names & Hnames & H).
  apply bind_outcome_return in H as (t & Ht & H).
  apply bind_outcome_return in H as (c & Hc & H).
  apply bind_outcome_return in H as (sub & Hsub & H).
  apply bind_outcome_return in H as (raw_score & Hraw & H).
  apply bind_outcome_return in H as (sc & Hsc & H).
  apply bind_outcome_return in H as (index_show & Hindex & H).
  apply bind_outcome_return in H as (order & Horder & H).
  apply bind_outcome_return in H as (link & Hlink & [= <-]).
  unfold from_source. cbn.
  split; [exact Ht|]. split; [exact Hc|]. split; [eauto|]. split; [eauto|].
  repeat split.
Qed.

Lemma create_movie_entity_copies_the_film_witness :
  exists ent,
    Bilibili.create_movie_entity (serving 200 bilibili_listing []) (bilibili_film "one" 101)
      "101" = Return ent /\
    getitem (bilibili_film "one" 101) "title" = Return (title ent) /\
    from_source "Bilibili" ent /\
    dict_lookup "id" (metadata ent) = Some (PyStr "101").
Proof.
  eexists. split; [reflexivity|].
  destruct (create_movie_entity_copies_the_film (serving 200 bilibili_listing [])
              (bilibili_film "one" 101) "101" _ eq_refl)
    as (Ht & _ & _ & _ & Hs & Hid & _).
  auto.
Defined.

(** X12.  The two optional keys of a film have defaults: without
    ["subTitle"] the entity's intro is the empty text, and without ["score"]
    the coercion is given the empty text, which [float] refuses, so the
    score is the sentinel. *)
Theorem create_movie_entity_defaults
    (host : Host) (entries : list (string * PyValue)) (eq_id : string) (ent : MovieEntity) :
  float_of_str host "" = None ->
  Bilibili.create_movie_entity host (PyDict entries) eq_id = Return ent ->
  (dict_lookup "subTitle" entries = None -> intro ent = PyStr "") /\
  (dict_lookup "score" entries = None -> score ent = minus_one).
Proof.
  unfold Bilibili.create_movie_entity. intros Hempty H.
  apply bind_outcome_return in H as (names & Hnames & H).
  apply bind_outcome_return in H as (t & Ht & H).
  apply bind_outcome_return in H as (c & Hc & H).
  apply bind_outcome_return in H as (sub & Hsub & H).
  apply bind_outcome_return in H as (raw_score & Hraw & H).
  apply bind_outcome_return in H as (sc & Hsc & H).
  apply bind_outcome_return in H as (index_show & Hindex & H).
  apply bind_outcome_return in H as (order & Horder & H).
  apply bind_outcome_return in H as (link & Hlink & [= <-]).
  cbn in *. split.
  - intros Hmiss. rewrite Hmiss in Hsub. now injection Hsub as <-.
  - intros Hmiss. rewrite Hmiss in Hraw. injection Hraw as <-.
    rewrite safe_float_conversion_on_text, Hempty in Hsc. now injection Hsc as <-.
Qed.

Lemma create_movie_entity_defaults_witness :
  exists ent,
    float_of_str (serving 200 bilibili_listing []) "" = None /\
    Bilibili.create_movie_entity (serving 200 bilibili_listing [])
      (PyDict [ ("title", PyStr "bare"); ("cover", PyStr "c.png");
                ("index_show", PyStr "2021"); ("order", PyStr "7");
                ("link", PyStr "https://b/") ]) "7" = Return ent /\
    intro ent = PyStr "" /\ score ent = minus_one.
Proof.
  eexists. split; [reflexivity|]. split; [reflexivity|].
  destruct (create_movie_entity_defaults (serving 200 bilibili_listing [])
              [ ("title", PyStr "bare"); ("cover", PyStr "c.png");
                ("index_show", PyStr "2021"); ("order", PyStr "7");
                ("link", PyStr "https://b/") ] "7" _ eq_refl eq_refl) as [Hi Hs].
  split; [apply Hi | apply Hs]; reflexivity.
Defined.

(** ** What a fetch touches *)

Lemma keeps_bind {X A B} (part : Shared -> X) (m : Eff Shared A) (k : A -> Eff Shared B) :
  keeps part m -> (forall a, keeps part (k a)) -> keeps part (m ≫= k).
Proof.
  unfold keeps, mbind, Eff_bind. intros Hm Hk s.
  specialize (Hm s). destruct (m s) as [[a|e] s1]; cbn in *.
  - now rewrite Hk.
  - exact Hm.
Qed.

Lemma keeps_eval {X A} (part : Shared -> X) (o : Outcome A) : keeps part (eval o).
Proof. now intros s. Qed.

Lemma keeps_gets {X A} (part : Shared -> X) (g : Shared -> A) : keeps part (gets g).
Proof. now intros s. Qed.

Lemma keeps_ret {X A} (part : Shared -> X) (a : A) : keeps part (mret a : Eff Shared A).
Proof. now intros s. Qed.

Lemma keeps_raise {X A} (part : Shared -> X) (e : Exn) : keeps part (raise e : Eff Shared A).
Proof. now intros s. Qed.

Lemma keeps_try {X A} (part : Shared -> X) (body handler : Eff Shared A) caught :
  keeps part body -> keeps part handler -> keeps part (try_except body caught handler).
Proof.
  unfold keeps, try_except. intros Hb Hh s.
  specialize (Hb s). destruct (body s) as [[a|e] s1]; cbn in *; [exact Hb|].
  destruct (caught e); cbn; [now rewrite Hh | exact Hb].
Qed.

(** An assignment to a template changes that template only. *)
Lemma set_param_keeps_the_rest key value :
  keeps tencent_payload (Bilibili.set_param key value) /\
  keeps iqiyi_params (Bilibili.set_param key value) /\
  keeps snapshots (Bilibili.set_param key value) /\
  keeps bilibili_params (IQiYi.set_param key value) /\
  keeps tencent_payload (IQiYi.set_param key value) /\
  keeps snapshots (IQiYi.set_param key value).
Proof.
  repeat split; intros s; unfold Bilibili.set_param, IQiYi.set_param;
    match goal with |- context [assign_at ?p ?k ?v ?t] => destruct (assign_at p k v t) end;
    reflexivity.
Qed.

Lemma set_payload_keeps_the_rest path key value :
  keeps bilibili_params (Tencent.set_payload path key value) /\
  keeps iqiyi_params (Tencent.set_payload path key value) /\
  keeps snapshots (Tencent.set_payload path key value).
Proof.
  repeat split; intros s; unfold Tencent.set_payload;
    destruct (assign_at path key value (tencent_payload s)); reflexivity.
Qed.

(** A capture changes the cache at its own key only. *)
Lemma write_in_keeps_the_rest platform page pagesize raw :
  keeps bilibili_params (write_in platform page pagesize raw) /\
  keeps tencent_payload (write_in platform page pagesize raw) /\
  keeps iqiyi_params (write_in platform page pagesize raw) /\
  (forall key, key <> (platform, page) ->
               keeps (fun s => snapshots s !! key) (write_in platform page pagesize raw)).
Proof.
  repeat split. intros key Hne s. cbn. now rewrite lookup_insert_ne.
Qed.

Lemma write_in_keeps_other_entries platform page pagesize raw (key : string * Z) :
  key <> (platform, page) ->
  keeps (fun s => snapshots s !! key) (write_in platform page pagesize raw).
Proof. intros Hne s. cbn. now rewrite lookup_insert_ne. Qed.

Lemma keeps_snapshot_entry {A} (m : Eff Shared A) (key : string * Z) :
  keeps snapshots m -> keeps (fun s => snapshots s !! key) m.
Proof. intros H s. cbn. now rewrite H. Qed.

Ltac keeps_part :=
  repeat first
    [ apply keeps_eval | apply keeps_gets | apply keeps_ret | apply keeps_raise
    | apply set_param_keeps_the_rest | apply set_payload_keeps_the_rest
    | apply write_in_keeps_other_entries; assumption
    | apply write_in_keeps_the_rest
    | apply keeps_snapshot_entry; apply set_param_keeps_the_rest
    | apply keeps_snapshot_entry; apply set_payload_keeps_the_rest
    | apply keeps_try
    | apply keeps_bind; intros
    | match goal with |- keeps _ (if ?c then _ else _) => destruct c end ].

(** X13.  A fetch reaches only its own adapter's part of the module-level
    state: it never changes the request template of another adapter, and in
    the snapshot cache it changes at most the entry of its own platform and
    page, whatever its outcome. *)
Theorem fetch_touches_only_its_own_state (host : Host) (page : Z) :
  (keeps tencent_payload (Bilibili.raw_fetch_async host page) /\
   keeps iqiyi_params (Bilibili.raw_fetch_async host page) /\
   forall key, key <> (Bilibili.platform, page) ->
               keeps (fun s => snapshots s !! key) (Bilibili.raw_fetch_async host page)) /\
  (keeps bilibili_params (Tencent.raw_fetch_async host page) /\
   keeps iqiyi_params (Tencent.raw_fetch_async host page) /\
   forall key, key <> (Tencent.platform, page) ->
               keeps (fun s => snapshots s !! key) (Tencent.raw_fetch_async host page)) /\
  (keeps bilibili_params (IQiYi.raw_fetch_async host page) /\
   keeps tencent_payload (IQiYi.raw_fetch_async host page) /\
   forall key, key <> (IQiYi.platform, page) ->
               keeps (fun s => snapshots s !! key) (IQiYi.raw_fetch_async host page)).
Proof.
  unfold Bilibili.raw_fetch_async, Tencent.raw_fetch_async, Tencent.get_movies,
    IQiYi.raw_fetch_async.
  repeat split; intros; keeps_part.
Qed.

Lemma fetch_touches_only_its_own_state_witness :
  tencent_payload (snd (Bilibili.raw_fetch_async (serving 200 bilibili_listing []) 4
                          initial_shared)) = Tencent.payload /\
  snapshots (snd (Tencent.raw_fetch_async (serving 200 tencent_error []) 4
                    (snd (Bilibili.raw_fetch_async (serving 200 bilibili_listing []) 4
                            initial_shared)))) !! (Bilibili.platform, 4)
  = Some bilibili_listing.
Proof.
  destruct (fetch_touches_only_its_own_state (serving 200 bilibili_listing []) 4)
    as ((Hb & _) & _).
  destruct (fetch_touches_only_its_own_state (serving 200 tencent_error []) 4)
    as (_ & (_ & _ & Ht) & _).
  split.
  - exact (Hb initial_shared).
  - rewrite (Ht (Bilibili.platform, 4)) by discriminate. reflexivity.
Defined.

(** ** The raw snapshot *)

(** X14.  Bilibili captures the snapshot before it parses: on a response of
    status 200 whose body decodes, the decoded body is in the cache under
    (bilibili, page) whatever [handle_data] then does, and the outcome of
    the fetch is the outcome of [handle_data] on that body. *)
Theorem bilibili_snapshot_precedes_parsing
    (host : Host) (page : Z) (s : Shared) (p : PyValue) (response : Response) (raw : PyValue) :
  bilibili_request page (bilibili_params s) = Return p ->
  http_get host Bilibili.base_url (Some p) = Return response ->
  status response = 200 ->
  json response = Return raw ->
  Bilibili.raw_fetch_async host page s
  = (Bilibili.handle_data host raw,
     set_snapshots (<[(Bilibili.platform, page) := raw]> (snapshots s))
                   (set_bilibili_params p s)).
Proof.
  intros H Hget Hstatus Hjson. apply bind_outcome_return in H as (p1 & A1 & A2).
  unfold Bilibili.raw_fetch_async.
  rewrite (bind_return _ _ _ _ _ (bilibili_set_param _ _ _ _ A1)).
  rewrite (bind_return _ _ _ _ _ (bilibili_set_param _ _ (set_bilibili_params p1 s) _ A2)).
  rewrite set_bilibili_params_twice.
  rewrite (bind_return _ _ _ _ _ (gets_return _ _)).
  cbn [bilibili_params set_bilibili_params].
  rewrite (bind_return _ _ _ _ _ (eval_return _ _ _ Hget)).
  rewrite Hstatus. cbn [Z.eqb Pos.eqb].
  rewrite (bind_return _ _ _ _ _ (eval_return _ _ _ Hjson)).
  unfold write_in. rewrite (bind_return _ _ _ _ _ (modify_return _ _)).
  reflexivity.
Qed.

Lemma bilibili_snapshot_precedes_parsing_witness :
  exists e s',
    Bilibili.raw_fetch_async (serving 200 bilibili_listing ["102"]) 1 initial_shared
      = (Raise e, s') /\
    snapshots s' !! (Bilibili.platform, 1) = Some bilibili_listing.
Proof.
  do 2 eexists.
  rewrite (bilibili_snapshot_precedes_parsing (serving 200 bilibili_listing ["102"]) 1
             initial_shared _ _ bilibili_listing eq_refl eq_refl eq_refl eq_refl).
  split; reflexivity.
Defined.

(** X15.  Tencent captures the snapshot before it looks at the answer: once
    the body decodes, the decoded body is in the cache under (tencent, page)
    whatever the return code and whatever follows. *)
Theorem tencent_snapshot_precedes_checks
    (host : Host) (page : Z) (s : Shared) (p : PyValue) (response : Response)
    (json_object : PyValue) :
  tencent_request page (tencent_payload s) = Return p ->
  http_post host Tencent.base_url p = Return response ->
  json_loads host (text response) = Return json_object ->
  snapshots (snd (Tencent.raw_fetch_async host page s))
  = <[(Tencent.platform, page) := json_object]> (snapshots s).
Proof.
  intros H Hpost Hjson.
  apply bind_outcome_return in H as (p1 & A1 & H).
  apply bind_outcome_return in H as (p2 & A2 & A3).
  unfold Tencent.raw_fetch_async, Tencent.get_movies.
  rewrite (bind_return _ _ _ _ _ (tencent_set_payload _ _ _ _ _ A1)).
  rewrite (bind_return _ _ _ _ _ (tencent_set_payload _ _ _ (set_tencent_payload p1 s) _ A2)).
  rewrite (bind_return _ _ _ _ _
             (tencent_set_payload _ _ _ (set_tencent_payload p2 (set_tencent_payload p1 s))
                _ A3)).
  rewrite (bind_return _ _ _ _ _ (gets_return _ _)).
  cbn [tencent_payload set_tencent_payload].
  rewrite (bind_return _ _ _ _ _ (eval_return _ _ _ Hpost)).
  rewrite (bind_return _ _ _ _ _ (eval_return _ _ _ Hjson)).
  unfold write_in. rewrite (bind_return _ _ _ _ _ (modify_return _ _)).
  match goal with |- snapshots (snd (?m ?s2)) = _ =>
    change (snapshots (snd (m s2)) = snapshots s2); generalize s2 end.
  change (keeps snapshots
            (ret ← eval (getitem json_object "ret");
             if differs_from_zero ret then
               _ ← eval (getitem json_object "msg");
               raise ValueError
             else
               cards ← try_except (eval (Tencent.cards_at json_object 1)) is_IndexError
                                  (eval (Tencent.cards_at json_object 0));
               items ← eval (iterate cards);
               tasks ← eval (mapM (fun item =>
                                     params ← getitem item "params";
                                     cid ← getitem params "cid";
                                     mret (Tencent.get_movie_detail host cid item)) items);
               movie_entities ← eval (gather tasks);
               mret ([] ++ movie_entities))).
  keeps_part.
Qed.

Lemma tencent_snapshot_precedes_checks_witness :
  fst (Tencent.raw_fetch_async (serving 200 tencent_error []) 2 initial_shared)
    = Raise ValueError /\
  snapshots (snd (Tencent.raw_fetch_async (serving 200 tencent_error []) 2 initial_shared))
  = <[(Tencent.platform, 2) := tencent_error]> (snapshots initial_shared).
Proof.
  split; [reflexivity|].
  eapply (tencent_snapshot_precedes_checks (serving 200 tencent_error []) 2 initial_shared);
    reflexivity.
Defined.

(** X16.  iQiYi never looks at the status: once the body decodes, the body
    is captured under (iqiyi, page) and the outcome of the fetch is that of
    building one entity per element of the body's ["data"], in order; a
    body without ["data"] is a [KeyError] raised after the capture. *)
Theorem iqiyi_fetch_after_decoding
    (host : Host) (page : Z) (s : Shared) (p : PyValue) (response : Response)
    (json_object : PyValue) :
  iqiyi_request page (iqiyi_params s) = Return p ->
  http_get host IQiYi.base_url (Some p) = Return response ->
  json response = Return json_object ->
  IQiYi.raw_fetch_async host page s
  = (results ← getitem json_object "data";
     items ← iterate results;
     mapM (IQiYi.entity_of host) items,
     set_snapshots (<[(IQiYi.platform, page) := json_object]> (snapshots s))
                   (set_iqiyi_params p s)).
Proof.
  intros A1 Hget Hjson. unfold iqiyi_request in A1.
  unfold IQiYi.raw_fetch_async.
  rewrite (bind_return _ _ _ _ _ (iqiyi_set_param _ _ _ _ A1)).
  rewrite (bind_return _ _ _ _ _ (gets_return _ _)).
  cbn [iqiyi_params set_iqiyi_params].
  rewrite (bind_return _ _ _ _ _ (eval_return _ _ _ Hget)).
  rewrite (bind_return _ _ _ _ _ (eval_return _ _ _ Hjson)).
  unfold write_in. rewrite (bind_return _ _ _ _ _ (modify_return _ _)).
  unfold mbind at 1, Eff_bind, eval.
  destruct (getitem json_object "data") as [results|e]; cbn [mbind Outcome_bind]; [|reflexivity].
  unfold mbind at 1, Eff_bind.
  destruct (iterate results) as [items|e]; reflexivity.
Qed.

Lemma iqiyi_fetch_after_decoding_witness :
  exists s',
    IQiYi.raw_fetch_async (serving 503 (PyDict [("code", PyStr "E1")]) []) 9 initial_shared
      = (Raise KeyError, s') /\
    snapshots s' !! (IQiYi.platform, 9) = Some (PyDict [("code", PyStr "E1")]).
Proof.
  eexists.
  rewrite (iqiyi_fetch_after_decoding (serving 503 (PyDict [("code", PyStr "E1")]) []) 9
             initial_shared _ _ (PyDict [("code", PyStr "E1")]) eq_refl eq_refl eq_refl).
  split; reflexivity.
Defined.

(** X17.  A fetch that fails before a body is decoded, in transport or in the
    decoding itself, raises that error and captures no snapshot; the page it
    asked for stays written in the adapter's request template. *)
Theorem failure_before_decoding_leaves_no_snapshot
    (host : Host) (page : Z) (s : Shared) (p : PyValue) (e : Exn) :
  (bilibili_request page (bilibili_params s) = Return p ->
   http_get host Bilibili.base_url (Some p) = Raise e \/
   (exists response, http_get host Bilibili.base_url (Some p) = Return response /\
                     status response = 200 /\ json response = Raise e) ->
   Bilibili.raw_fetch_async host page s = (Raise e, set_bilibili_params p s)) /\
  (tencent_request page (tencent_payload s) = Return p ->
   http_post host Tencent.base_url p = Raise e \/
   (exists response, http_post host Tencent.base_url p = Return response /\
                     json_loads host (text response) = Raise e) ->
   Tencent.raw_fetch_async host page s = (Raise e, set_tencent_payload p s)) /\
  (iqiyi_request page (iqiyi_params s) = Return p ->
   http_get host IQiYi.base_url (Some p) = Raise e \/
   (exists response, http_get host IQiYi.base_url (Some p) = Return response /\
                     json response = Raise e) ->
   IQiYi.raw_fetch_async host page s = (Raise e, set_iqiyi_params p s)).
Proof.
  split; [|split].
  - intros H Hfail. apply bind_outcome_return in H as (p1 & A1 & A2).
    unfold Bilibili.raw_fetch_async.
    rewrite (bind_return _ _ _ _ _ (bilibili_set_param _ _ _ _ A1)).
    rewrite (bind_return _ _ _ _ _ (bilibili_set_param _ _ (set_bilibili_params p1 s) _ A2)).
    rewrite set_bilibili_params_twice.
    rewrite (bind_return _ _ _ _ _ (gets_return _ _)).
    cbn [bilibili_params set_bilibili_params].
    destruct Hfail as [Hget | (response & Hget & Hstatus & Hjson)].
    + now rewrite (bind_raise _ _ _ _ _ (eval_raise _ _ _ Hget)).
    + rewrite (bind_return _ _ _ _ _ (eval_return _ _ _ Hget)).
      rewrite Hstatus. cbn [Z.eqb Pos.eqb].
      now rewrite (bind_raise _ _ _ _ _ (eval_raise _ _ _ Hjson)).
  - intros H Hfail.
    apply bind_outcome_return in H as (p1 & A1 & H).
    apply bind_outcome_return in H as (p2 & A2 & A3).
    unfold Tencent.raw_fetch_async, Tencent.get_movies.
    rewrite (bind_return _ _ _ _ _ (tencent_set_payload _ _ _ _ _ A1)).
    rewrite (bind_return _ _ _ _ _ (tencent_set_payload _ _ _ (set_tencent_payload p1 s) _ A2)).
    rewrite (bind_return _ _ _ _ _
               (tencent_set_payload _ _ _ (set_tencent_payload p2 (set_tencent_payload p1 s))
                  _ A3)).
    rewrite (bind_return _ _ _ _ _ (gets_return _ _)).
    cbn [tencent_payload set_tencent_payload].
    destruct Hfail as [Hpost | (response & Hpost & Hjson)].
    + now rewrite (bind_raise _ _ _ _ _ (eval_raise _ _ _ Hpost)).
    + rewrite (bind_return _ _ _ _ _ (eval_return _ _ _ Hpost)).
      now rewrite (bind_raise _ _ _ _ _ (eval_raise _ _ _ Hjson)).
  - intros A1 Hfail. unfold iqiyi_request in A1.
    unfold IQiYi.raw_fetch_async.
    rewrite (bind_return _ _ _ _ _ (iqiyi_set_param _ _ _ _ A1)).
    rewrite (bind_return _ _ _ _ _ (gets_return _ _)).
    cbn [iqiyi_params set_iqiyi_params].
    destruct Hfail as [Hget | (response & Hget & Hjson)].
    + now rewrite (bind_raise _ _ _ _ _ (eval_raise _ _ _ Hget)).
    + rewrite (bind_return _ _ _ _ _ (eval_return _ _ _ Hget)).
      now rewrite (bind_raise _ _ _ _ _ (eval_raise _ _ _ Hjson)).
Qed.

Lemma failure_before_decoding_leaves_no_snapshot_witness :
  fst (Tencent.raw_fetch_async offline_host 5 initial_shared) = Raise ClientError /\
  snapshots (snd (Tencent.raw_fetch_async offline_host 5 initial_shared)) = ∅ /\
  tencent_request 5 Tencent.payload
  = Return (tencent_payload (snd (Tencent.raw_fetch_async offline_host 5 initial_shared))).
Proof.
  destruct (failure_before_decoding_leaves_no_snapshot offline_host 5 initial_shared
              (tencent_payload (snd (Tencent.raw_fetch_async offline_host 5 initial_shared)))
              ClientError) as (_ & H & _).
  rewrite H; [repeat split | reflexivity | left; reflexivity].
Defined.

(** ** The origin of an entity *)

Ltac invert_binds H :=
  cbv zeta in H;
  repeat (apply bind_outcome_return in H as (? & ? & H)).

Lemma bilibili_entity_source host item eq_id ent :
  Bilibili.create_movie_entity host item eq_id = Return ent -> from_source "Bilibili" ent.
Proof.
  unfold Bilibili.create_movie_entity. intros H. invert_binds H. now injection H as <-.
Qed.

Lemma tencent_entity_source host cid item ent :
  Tencent.get_movie_detail host cid item = Return ent -> from_source "Tencent" ent.
Proof.
  unfold Tencent.get_movie_detail. intros H. invert_binds H. now injection H as <-.
Qed.

Lemma iqiyi_entity_source host data ent :
  IQiYi.entity_of host data = Return ent -> from_source "iQiYi" ent.
Proof.
  unfold IQiYi.entity_of. intros H. invert_binds H. now injection H as <-.
Qed.

Lemma Forall2_Forall_right {A B} (P : A -> B -> Prop) (Q : B -> Prop) l m :
  Forall2 P l m -> (forall a b, P a b -> Q b) -> Forall Q m.
Proof. induction 1; intros HPQ; constructor; eauto. Qed.

Lemma joined_tasks_sources {A} (make : A -> Outcome (Outcome MovieEntity)) (name : string)
    (items : list A) (tasks : list (Outcome MovieEntity)) (ents : list MovieEntity) :
  (forall item task ent, make item = Return task -> task = Return ent ->
                         from_source name ent) ->
  mapM make items = Return tasks ->
  gather tasks = Return ents ->
  Forall (from_source name) ents.
Proof.
  intros Hmake Htasks Hjoin.
  apply mapM_returns_Forall2 in Htasks. apply gather_returns_Forall2 in Hjoin.
  eapply Forall2_Forall_right; [exact (Forall2_chain _ _ _ _ _ Htasks Hjoin)|].
  intros item ent (task & Hm & Ht). eauto.
Qed.

Lemma bilibili_handle_data_sources host raw ents :
  Bilibili.handle_data host raw = Return ents -> Forall (from_source "Bilibili") ents.
Proof.
  unfold Bilibili.handle_data. intros H.
  apply bind_outcome_return in H as ([|] & _ & H); [|injection H as <-; constructor].
  apply bind_outcome_return in H as (data & _ & H).
  apply bind_outcome_return in H as ([|] & _ & H); [|injection H as <-; constructor].
  apply bind_outcome_return in H as (film_data & _ & H).
  apply bind_outcome_return in H as (items & _ & H).
  apply bind_outcome_return in H as (tasks & Htasks & Hjoin).
  eapply joined_tasks_sources; [|exact Htasks|exact Hjoin].
  intros item task ent Hm ->. invert_binds Hm. injection Hm as Hm.
  eapply bilibili_entity_source. exact Hm.
Qed.

(** X18.  Every entity a fetch returns names the adapter it came from in its
    metadata: ["source"] is Bilibili, Tencent or iQiYi according to the
    adapter, whatever the responses were. *)
Theorem fetched_entities_name_their_source
    (host : Host) (page : Z) (s s' : Shared) (ents : list MovieEntity) :
  (Bilibili.raw_fetch_async host page s = (Return ents, s') ->
   Forall (from_source "Bilibili") ents) /\
  (Tencent.raw_fetch_async host page s = (Return ents, s') ->
   Forall (from_source "Tencent") ents) /\
  (IQiYi.raw_fetch_async host page s = (Return ents, s') ->
   Forall (from_source "iQiYi") ents).
Proof.
  split; [|split].
  - unfold Bilibili.raw_fetch_async. intros H.
    apply bind_eff_returns in H as (? & s1 & _ & H).
    apply bind_eff_returns in H as (? & s2 & _ & H).
    apply bind_eff_returns in H as (p & s3 & _ & H).
    apply bind_eff_returns in H as (response & s4 & _ & H).
    destruct (status response =? 200).
    + apply bind_eff_returns in H as (raw & s5 & _ & H).
      apply bind_eff_returns in H as (? & s6 & _ & H).
      apply eval_returns in H as [H _].
      eapply bilibili_handle_data_sources. exact H.
    + injection H as <- _. constructor.
  - unfold Tencent.raw_fetch_async, Tencent.get_movies. intros H.
    apply bind_eff_returns in H as (? & s1 & _ & H).
    apply bind_eff_returns in H as (? & s2 & _ & H).
    apply bind_eff_returns in H as (? & s3 & _ & H).
    apply bind_eff_returns in H as (p & s4 & _ & H).
    apply bind_eff_returns in H as (response & s5 & _ & H).
    apply bind_eff_returns in H as (json_object & s6 & _ & H).
    apply bind_eff_returns in H as (? & s7 & _ & H).
    apply bind_eff_returns in H as (ret & s8 & _ & H).
    destruct (differs_from_zero ret).
    + apply bind_eff_returns in H as (? & s9 & _ & H). discriminate H.
    + apply bind_eff_returns in H as (cards & s9 & _ & H).
      apply bind_eff_returns in H as (items & s10 & _ & H).
      apply bind_eff_returns in H as (tasks & s11 & Htasks & H).
      apply bind_eff_returns in H as (movie_entities & s12 & Hjoin & H).
      injection H as <- _.
      apply eval_returns in Htasks as [Htasks _]. apply eval_returns in Hjoin as [Hjoin _].
      eapply joined_tasks_sources; [|exact Htasks|exact Hjoin].
      intros item task ent Hm ->. invert_binds Hm. injection Hm as Hm.
      eapply tencent_entity_source. exact Hm.
  - unfold IQiYi.raw_fetch_async. intros H.
    apply bind_eff_returns in H as (? & s1 & _ & H).
    apply bind_eff_returns in H as (p & s2 & _ & H).
    apply bind_eff_returns in H as (response & s3 & _ & H).
    apply bind_eff_returns in H as (json_object & s4 & _ & H).
    apply bind_eff_returns in H as (? & s5 & _ & H).
    apply bind_eff_returns in H as (results & s6 & _ & H).
    apply bind_eff_returns in H as (items & s7 & _ & H).
    apply eval_returns in H as [H _].
    apply mapM_returns_Forall2 in H.
    eapply Forall2_Forall_right; [exact H|].
    intros data ent. apply iqiyi_entity_source.
Qed.

Lemma fetched_entities_name_their_source_witness :
  exists ents s',
    Bilibili.raw_fetch_async (serving 200 bilibili_listing []) 1 initial_shared
      = (Return ents, s') /\
    length ents = 2%nat /\
    Forall (from_source "Bilibili") ents.
Proof.
  do 2 eexists. split; [reflexivity|]. split; [reflexivity|].
  eapply (proj1 (fetched_entities_name_their_source (serving 200 bilibili_listing []) 1
                   initial_shared _ _)).
  reflexivity.
Defined.

(** ** Tencent: the card list *)

(** Past the capture of an answer whose return code is zero, the outcome of
    the fetch is decided by the cards alone and the state no longer moves. *)
Lemma tencent_fetch_after_capture host page s p response json_object ret :
  tencent_request page (tencent_payload s) = Return p ->
  http_post host Tencent.base_url p = Return response ->
  json_loads host (text response) = Return json_object ->
  getitem json_object "ret" = Return ret ->
  differs_from_zero ret = false ->
  Tencent.raw_fetch_async host page s
  = (cards ← match Tencent.cards_at json_object 1 with
             | Raise e => if is_IndexError e then Tencent.cards_at json_object 0 else Raise e
             | Return cards => Return cards
             end;
     items ← iterate cards;
     tasks ← mapM (fun item =>
                     params ← getitem item "params";
                     cid ← getitem params "cid";
                     mret (Tencent.get_movie_detail host cid item)) items;
     gather tasks,
     set_snapshots (<[(Tencent.platform, page) := json_object]> (snapshots s))
                   (set_tencent_payload p s)).
Proof.
  intros H Hpost Hjson Hret Hz.
  apply bind_outcome_return in H as (p1 & A1 & H).
  apply bind_outcome_return in H as (p2 & A2 & A3).
  unfold Tencent.raw_fetch_async, Tencent.get_movies.
  rewrite (bind_return _ _ _ _ _ (tencent_set_payload _ _ _ _ _ A1)).
  rewrite (bind_return _ _ _ _ _ (tencent_set_payload _ _ _ (set_tencent_payload p1 s) _ A2)).
  rewrite (bind_return _ _ _ _ _
             (tencent_set_payload _ _ _ (set_tencent_payload p2 (set_tencent_payload p1 s))
                _ A3)).
  rewrite (bind_return _ _ _ _ _ (gets_return _ _)).
  cbn [tencent_payload set_tencent_payload].
  rewrite (bind_return _ _ _ _ _ (eval_return _ _ _ Hpost)).
  rewrite (bind_return _ _ _ _ _ (eval_return _ _ _ Hjson)).
  unfold write_in. rewrite (bind_return _ _ _ _ _ (modify_return _ _)).
  rewrite (bind_return _ _ _ _ _ (eval_return _ _ _ Hret)).
  rewrite Hz.
  unfold try_except, eval, mbind, Eff_bind, Outcome_bind, mret, Eff_ret, Outcome_ret.
  destruct (Tencent.cards_at json_object 1) as [cards|e];
    [|destruct (is_IndexError e); [destruct (Tencent.cards_at json_object 0) as [cards|e0]|]];
    try reflexivity.
  all: destruct (iterate cards); [|reflexivity].
  all: match goal with |- context [mapM ?f ?l] => destruct (mapM f l) end; [|reflexivity].
  all: match goal with |- context [gather ?t] => destruct (gather t) end; reflexivity.
Qed.

(** X19.  Tencent falls back to the first element of the card list only when
    reading the second one raised [IndexError]: then the fetch goes on with
    the cards of the first element; any other error of that read ends the
    fetch, and the first element is not looked at. *)
Theorem tencent_falls_back_on_index_error_only
    (host : Host) (page : Z) (s : Shared) (p : PyValue) (response : Response)
    (json_object ret : PyValue) (e : Exn) :
  tencent_request page (tencent_payload s) = Return p ->
  http_post host Tencent.base_url p = Return response ->
  json_loads host (text response) = Return json_object ->
  getitem json_object "ret" = Return ret ->
  differs_from_zero ret = false ->
  Tencent.cards_at json_object 1 = Raise e ->
  fst (Tencent.raw_fetch_async host page s)
  = if is_IndexError e then
      cards ← Tencent.cards_at json_object 0;
      items ← iterate cards;
      tasks ← mapM (fun item =>
                      params ← getitem item "params";
                      cid ← getitem params "cid";
                      mret (Tencent.get_movie_detail host cid item)) items;
      gather tasks
    else Raise e.
Proof.
  intros H Hpost Hjson Hret Hz Hcards.
  rewrite (tencent_fetch_after_capture _ _ _ _ _ _ _ H Hpost Hjson Hret Hz), Hcards.
  cbn [fst]. now destruct (is_IndexError e).
Qed.

Lemma tencent_falls_back_on_index_error_only_witness :
  let one_element :=
    PyDict [ ("ret", PyInt 0);
             ("data", PyDict [ ("CardList",
                PyList [ PyDict [ ("children_list",
                                   PyDict [ ("list", PyDict [ ("cards", PyList []) ]) ]) ] ]) ]) ] in
  let broken_second :=
    PyDict [ ("ret", PyInt 0);
             ("data", PyDict [ ("CardList",
                PyList [ PyDict [ ("children_list",
                                   PyDict [ ("list", PyDict [ ("cards", PyList []) ]) ]) ];
                         PyDict [] ]) ]) ] in
  fst (Tencent.raw_fetch_async (serving 200 one_element []) 1 initial_shared) = Return [] /\
  fst (Tencent.raw_fetch_async (serving 200 broken_second []) 1 initial_shared)
  = Raise KeyError.
Proof.
  intros one_element broken_second. split.
  - rewrite (tencent_falls_back_on_index_error_only (serving 200 one_element []) 1
               initial_shared _ _ one_element (PyInt 0) IndexError
               eq_refl eq_refl eq_refl eq_refl eq_refl eq_refl).
    reflexivity.
  - rewrite (tencent_falls_back_on_index_error_only (serving 200 broken_second []) 1
               initial_shared _ _ broken_second (PyInt 0) KeyError
               eq_refl eq_refl eq_refl eq_refl eq_refl eq_refl).
    reflexivity.
Defined.

(** ** iQiYi: the entity of an element *)

(** X20.  The genres of an entity iQiYi builds are the pieces between
    semicolons of the text of the element's ["tag"], of the empty text when
    the element has no ["tag"]; so the genre list is never empty, none of the
    genres holds a semicolon, and an element without ["tag"] gets the single
    genre that is the empty text.  The score is the coercion of the
    element's ["sns_score"], of the empty text when the element has none: in
    that case it is the sentinel, provided [float] refuses the empty text. *)
Theorem iqiyi_entity_genres_and_defaults
    (host : Host) (entries : list (string * PyValue)) (ent : MovieEntity) :
  IQiYi.entity_of host (PyDict entries) = Return ent ->
  movie_type ent
  = map PyStr (Str.split ";" (py_str host (default (PyStr "") (dict_lookup "tag" entries)))) /\
  safe_float_conversion (float_of_str host)
    (default (PyStr "") (dict_lookup "sns_score" entries)) minus_one = Return (score ent) /\
  movie_type ent <> [] /\
  Forall (fun genre => exists piece, genre = PyStr piece /\ lacks ";" piece) (movie_type ent) /\
  (dict_lookup "tag" entries = None -> movie_type ent = [PyStr ""]) /\
  (dict_lookup "sns_score" entries = None -> float_of_str host "" = None ->
   score ent = minus_one).
Proof.
  unfold IQiYi.entity_of. intros H.
  apply bind_outcome_return in H as (title & Htitle & H).
  apply bind_outcome_return in H as (hover & Hhover & H).
  apply bind_outcome_return in H as (creator & Hcreator & H).
  apply bind_outcome_return in H as (directors & Hdirectors & H).
  apply bind_outcome_return in H as (contributor & Hcontributor & H).
  apply bind_outcome_return in H as (actors & Hactors & H).
  apply bind_outcome_return in H as (date & Hdate & H).
  apply bind_outcome_return in H as (year & Hyear & H).
  apply bind_outcome_return in H as (date' & Hdate' & H).
  apply bind_outcome_return in H as (month & Hmonth & H).
  apply bind_outcome_return in H as (date'' & Hdate'' & H).
  apply bind_outcome_return in H as (day & Hday & H).
  apply bind_outcome_return in H as (description & Hdescription & H).
  apply bind_outcome_return in H as (sns_score & Hsns & H).
  apply bind_outcome_return in H as (sc & Hsc & H).
  apply bind_outcome_return in H as (tag & Htag & H).
  invert_binds H. injection H as <-. cbn [movie_type score].
  split; [|split; [|split; [|split; [|split]]]].
  - cbn in Htag. destruct (dict_lookup "tag" entries); now injection Htag as <-.
  - cbn in Hsns. destruct (dict_lookup "sns_score" entries); now injection Hsns as <-.
  - intros E. apply map_eq_nil in E. now apply split_is_not_empty in E.
  - apply Forall_map. eapply Forall_impl; [apply split_pieces_lack_separator|].
    intros piece Hpiece. cbn. eauto.
  - intros Hmiss. cbn in Htag. rewrite Hmiss in Htag. now injection Htag as <-.
  - intros Hmiss Hempty. cbn in Hsns. rewrite Hmiss in Hsns. injection Hsns as <-.
    rewrite safe_float_conversion_on_text, Hempty in Hsc. now injection Hsc as <-.
Qed.

Lemma iqiyi_entity_genres_and_defaults_witness :
  let element :=
    [ ("title", PyStr "t"); ("album_image_url_hover", PyStr "h.png");
      ("creator", PyList [ PyDict [ ("name", PyStr "d") ] ]); ("contributor", PyList []);
      ("date", PyDict [ ("year", PyInt 2020); ("month", PyInt 1); ("day", PyInt 2) ]);
      ("description", PyStr ""); ("uploader_id", PyInt 1); ("order", PyInt 2);
      ("entity_id", PyInt 3); ("album_id", PyInt 4); ("tv_id", PyInt 5) ] in
  let tagged := ("tag", PyStr "drama;war") :: ("sns_score", PyStr "8.5") :: element in
  (exists ent,
     IQiYi.entity_of (serving 200 PyNone []) (PyDict element) = Return ent /\
     movie_type ent = [PyStr ""] /\ score ent = minus_one /\
     release_date ent = PyStr "2020-1-2") /\
  (exists ent,
     IQiYi.entity_of (serving 200 PyNone []) (PyDict tagged) = Return ent /\
     movie_type ent = [PyStr "drama"; PyStr "war"] /\
     Literal.parse "8.5" = Some (score ent)).
Proof.
  intros element tagged. split.
  - eexists. split; [reflexivity|].
    destruct (iqiyi_entity_genres_and_defaults (serving 200 PyNone []) element _ eq_refl)
      as (_ & _ & _ & _ & Hg & Hs).
    split; [apply Hg; reflexivity|]. split; [apply Hs; reflexivity|]. reflexivity.
  - eexists. split; [reflexivity|].
    destruct (iqiyi_entity_genres_and_defaults (serving 200 PyNone []) tagged _ eq_refl)
      as (Hgenres & _).
    split; [exact Hgenres | reflexivity].
Defined.

(** ** A page the source refused *)

(** X21.  A Bilibili page answered with a status other than 200 goes through
    the whole run as a batch of no film: the batch trace is closed with
    FINISHED for the page, the sink is asked to write the empty list, and the
    run returns the empty list when the sink takes that write and raises the
    sink's error when it does not.  Nothing is stored and no snapshot is
    captured either way. *)
Theorem bilibili_refused_page_counts_as_finished
    (host : Host) (collection : Collection) (page : Z) (w : World)
    (p : PyValue) (response : Response) :
  bilibili_request page (bilibili_params (shared w)) = Return p ->
  http_get host Bilibili.base_url (Some p) = Return response ->
  status response <> 200 ->
  exists w' pending finished,
    Bilibili.run_async host collection page w
    = (match refuses collection [] with Some e => Raise e | None => Return [] end, w') /\
    batch_trace w' = batch_trace w ++ [pending; finished] /\
    ev_status pending = PENDING /\ ev_status finished = FINISHED /\
    ev_task_id finished = ev_task_id pending /\
    ev_source finished = Bilibili.platform /\ ev_batch finished = page /\
    insert_calls w' = insert_calls w ++ [[]] /\
    stored w' = stored w /\
    snapshots (shared w') = snapshots (shared w).
Proof.
  intros Hp Hget Hstatus.
  pose proof (bilibili_bad_status_returns_empty host page (shared w) p response
                Hp Hget Hstatus) as Hfetch.
  unfold Bilibili.run_async.
  destruct (refuses collection []) as [e|] eqn:R.
  - destruct (run_insert_raises (wall_clock host) Bilibili.platform collection page
                Bilibili.pagesize (Bilibili.raw_fetch_async host page) w [] _ e Hfetch R)
      as (w' & Hrun & Hs & _ & Hb & _ & Hst & Hi & _).
    exists w'. do 2 eexists. split; [exact Hrun|]. split; [exact Hb|].
    rewrite Hs. cbn. repeat split; assumption.
  - destruct (run_returns (wall_clock host) Bilibili.platform collection page
                Bilibili.pagesize (Bilibili.raw_fetch_async host page) w [] _ Hfetch R)
      as (w' & Hrun & Hs & _ & Hb & _ & Hst & Hi & _).
    exists w'. do 2 eexists. split; [exact Hrun|]. split; [exact Hb|].
    rewrite Hs. cbn. cbn in Hst. rewrite app_nil_r in Hst. repeat split; assumption.
Qed.

Lemma bilibili_refused_page_counts_as_finished_witness :
  exists w1 w2,
    Bilibili.run_async (serving 503 PyNone []) accepting 7 initial_world = (Return [], w1) /\
    map ev_status (batch_trace w1) = [PENDING; FINISHED] /\
    Bilibili.run_async (serving 503 PyNone []) non_empty_only 7 initial_world
      = (Raise TypeError, w2) /\
    map ev_status (batch_trace w2) = [PENDING; FINISHED] /\
    insert_calls w2 = [[]].
Proof.
  destruct (bilibili_refused_page_counts_as_finished (serving 503 PyNone []) accepting 7
              initial_world _ _ eq_refl eq_refl ltac:(discriminate))
    as (w1 & p1 & f1 & Hrun1 & Hb1 & Hp1 & Hf1 & _).
  destruct (bilibili_refused_page_counts_as_finished (serving 503 PyNone []) non_empty_only 7
              initial_world _ _ eq_refl eq_refl ltac:(discriminate))
    as (w2 & p2 & f2 & Hrun2 & Hb2 & Hp2 & Hf2 & _ & _ & _ & Hi2 & _).
  exists w1, w2. rewrite Hb1, Hb2. cbn. rewrite Hp1, Hf1, Hp2, Hf2.
  repeat split; assumption.
Defined.

(** ** The read endpoint *)

Lemma get_paginated_movies_valid (page pagesize : Z) (documents : list Document) :
  0 < page -> 0 <= pagesize ->
  (page - 1) * pagesize <= int64_max -> pagesize <= int64_max ->
  get_paginated_movies page pagesize documents
  = Return (take (Z.to_nat pagesize)
                 (drop (Z.to_nat (page - 1) * Z.to_nat pagesize) documents)).
Proof.
  intros Hpage Hsize Hfit1 Hfit2. unfold get_paginated_movies.
  assert (0 <= (page - 1) * pagesize) as Hskip by nia.
  destruct (Z.ltb_spec ((page - 1) * pagesize) 0); [lia|].
  destruct (Z.ltb_spec pagesize 0); [lia|].
  destruct (Z.ltb_spec int64_max ((page - 1) * pagesize)); [lia|].
  destruct (Z.ltb_spec int64_max pagesize); [lia|].
  rewrite Z2Nat.inj_mul by lia. reflexivity.
Qed.

(** X22.  On the values the route lets through (a page above 0, a page size
    above 19) the read is decided by the size of the numbers alone.  When
    the number of documents to skip and the page size both fit in 8 bytes,
    the read returns: the page is a sublist of the collection, and its
    length is the page size or, when fewer documents are left past the pages
    before it, the number left.  When one of them does not fit, the read
    raises [OverflowError], which the route does not prevent. *)
Theorem page_is_served_and_bounded (page pagesize : Z) (documents : list Document) :
  0 < page -> 19 < pagesize ->
  ((page - 1) * pagesize <= int64_max /\ pagesize <= int64_max ->
   exists docs,
     get_paginated_movies page pagesize documents = Return docs /\
     docs `sublist_of` documents /\
     Z.of_nat (length docs)
     = Z.min pagesize (Z.max 0 (Z.of_nat (length documents) - (page - 1) * pagesize))) /\
  (int64_max < (page - 1) * pagesize \/ int64_max < pagesize ->
   get_paginated_movies page pagesize documents = Raise OverflowError).
Proof.
  intros Hpage Hsize.
  assert (0 <= (page - 1) * pagesize) by nia.
  split.
  - intros [Hfit1 Hfit2].
    rewrite get_paginated_movies_valid by lia.
    eexists. split; [reflexivity|]. split.
    + etransitivity; [apply sublist_take | apply sublist_drop].
    + rewrite length_take, length_drop.
      assert (Z.of_nat (Z.to_nat (page - 1) * Z.to_nat pagesize) = (page - 1) * pagesize) as E
        by (rewrite Nat2Z.inj_mul, !Z2Nat.id; lia).
      lia.
  - intros Hbig. unfold get_paginated_movies.
    destruct (Z.ltb_spec ((page - 1) * pagesize) 0); [lia|].
    destruct (Z.ltb_spec pagesize 0); [lia|].
    destruct (Z.ltb_spec int64_max ((page - 1) * pagesize));
      destruct (Z.ltb_spec int64_max pagesize); try reflexivity.
    lia.
Qed.

Lemma page_is_served_and_bounded_witness :
  let documents := map (fun k => [("n", PyInt (Z.of_nat k))]) (seq 0 45) in
  (exists docs,
     get_paginated_movies 3 20 documents = Return docs /\
     docs `sublist_of` documents /\
     Z.of_nat (length docs) = 5) /\
  get_paginated_movies (2 ^ 62) 20 documents = Raise OverflowError.
Proof.
  intros documents.
  destruct (page_is_served_and_bounded 3 20 documents) as [Hserved _]; [lia | lia |].
  destruct (page_is_served_and_bounded (2 ^ 62) 20 documents) as [_ Hraised]; [lia | lia |].
  split.
  - destruct Hserved as (docs & Hget & Hsub & Hlen); [unfold int64_max; lia|].
    exists docs. repeat split; assumption.
  - apply Hraised. left. unfold int64_max. lia.
Defined.

Lemma pages_from (pagesize : Z) (documents : list Document) (n a : nat) :
  0 <= pagesize ->
  Z.of_nat (a + n) * pagesize <= int64_max ->
  exists pages,
    mapM (fun k => get_paginated_movies (Z.of_nat (S k)) pagesize documents) (seq a n)
      = Return pages /\
    concat pages = take (n * Z.to_nat pagesize) (drop (a * Z.to_nat pagesize) documents).
Proof.
  intros Hsize. revert a. induction n as [|n IH]; intros a Hfit.
  - exists []. split; reflexivity.
  - destruct (IH (S a)) as (pages & Hpages & Hconcat);
      [replace (S a + n)%nat with (a + S n)%nat by lia; exact Hfit|].
    cbn [seq]. rewrite mapM_unfold, get_paginated_movies_valid by nia.
    cbn [mbind Outcome_bind]. rewrite Hpages. cbn [mbind Outcome_bind].
    eexists. split; [reflexivity|].
    cbn [concat]. rewrite Hconcat.
    replace (Z.to_nat (Z.of_nat (S a) - 1)) with a by lia.
    replace (S a * Z.to_nat pagesize)%nat with (a * Z.to_nat pagesize + Z.to_nat pagesize)%nat
      by lia.
    rewrite <- drop_drop, take_take_drop. f_equal.
Qed.

(** X23.  Reading the pages 1, 2, ..., n in turn from a collection that does
    not change in between, with numbers that fit in 8 bytes (n times the
    page size does), gives the first n times page-size documents of the
    collection, each once and in order: every read returns, no document is
    repeated or skipped between two pages, and enough pages give the whole
    collection. *)
Theorem pages_in_turn_give_the_collection
    (pagesize : Z) (documents : list Document) (n : nat) :
  19 < pagesize ->
  Z.of_nat n * pagesize <= int64_max ->
  exists pages,
    mapM (fun k => get_paginated_movies (Z.of_nat (S k)) pagesize documents) (seq 0 n)
      = Return pages /\
    concat pages = take (n * Z.to_nat pagesize) documents /\
    (Z.of_nat (length documents) <= Z.of_nat n * pagesize -> concat pages = documents).
Proof.
  intros Hsize Hfit.
  destruct (pages_from pagesize documents n 0) as (pages & Hpages & Hconcat);
    [lia | exact Hfit |].
  exists pages. split; [exact Hpages|]. split; [exact Hconcat|].
  intros Hall. rewrite Hconcat. apply take_ge. nia.
Qed.

Lemma pages_in_turn_give_the_collection_witness :
  let documents := map (fun k => [("n", PyInt (Z.of_nat k))]) (seq 0 45) in
  exists pages,
    mapM (fun k => get_paginated_movies (Z.of_nat (S k)) 20 documents) (seq 0 3)
      = Return pages /\
    map length pages = [20; 20; 5]%nat /\
    concat pages = documents.
Proof.
  intros documents.
  destruct (pages_in_turn_give_the_collection 20 documents 3) as (pages & Hpages & _ & Hall);
    [lia | unfold int64_max; lia |].
  exists pages. split; [exact Hpages|]. split; [|apply Hall; cbn; lia].
  vm_compute in Hpages. injection Hpages as <-. reflexivity.
Defined.

(** ** The fields of a request template *)

(** X24.  A fetch rewrites the page fields of its template and no other
    field: after a Bilibili fetch the template holds the page asked for and
    the page size 60, after an iQiYi fetch the page as text, and every other
    key of either template reads as it did before the fetch, whatever the
    outcome of the fetch. *)
Theorem fetch_rewrites_only_the_page_fields
    (host : Host) (page : Z) (s : Shared) (bilibili iqiyi : list (string * PyValue)) :
  bilibili_params s = PyDict bilibili ->
  iqiyi_params s = PyDict iqiyi ->
  (let after := bilibili_params (snd (Bilibili.raw_fetch_async host page s)) in
   getitem after "page" = Return (PyInt page) /\
   getitem after "pagesize" = Return (PyInt 60) /\
   forall key, key <> "page" -> key <> "pagesize" ->
               getitem after key = getitem (PyDict bilibili) key) /\
  (let after := iqiyi_params (snd (IQiYi.raw_fetch_async host page s)) in
   getitem after "page_id" = Return (PyStr (pretty page)) /\
   forall key, key <> "page_id" -> getitem after key = getitem (PyDict iqiyi) key).
Proof.
  intros Hb Hi. split.
  - rewrite (bilibili_template_after host page s
               (PyDict (dict_set "pagesize" (PyInt 60)
                          (dict_set "page" (PyInt page) bilibili))))
      by (now rewrite Hb).
    cbn [getitem]. split; [|split].
    + rewrite dict_lookup_set_other by discriminate. now rewrite dict_lookup_set_same.
    + now rewrite dict_lookup_set_same.
    + intros key H1 H2. now rewrite !dict_lookup_set_other by assumption.
  - rewrite (iqiyi_template_after host page s
               (PyDict (dict_set "page_id" (PyStr (pretty page)) iqiyi)))
      by (now rewrite Hi).
    cbn [getitem]. split.
    + now rewrite dict_lookup_set_same.
    + intros key H1. now rewrite dict_lookup_set_other by assumption.
Qed.

Lemma fetch_rewrites_only_the_page_fields_witness :
  getitem (iqiyi_params (snd (IQiYi.raw_fetch_async offline_host 8 initial_shared))) "ret_num"
    = Return (PyStr "60") /\
  getitem (bilibili_params (snd (Bilibili.raw_fetch_async offline_host 8 initial_shared)))
    "page" = Return (PyInt 8).
Proof.
  destruct (fetch_rewrites_only_the_page_fields offline_host 8 initial_shared _ _
              eq_refl eq_refl) as ((Hpage & _) & (_ & Hrest)).
  split; [|exact Hpage].
  rewrite (Hrest "ret_num") by discriminate. reflexivity.
Defined.

(** ** Tencent: the entity of a card *)

Ltac same_reads :=
  repeat match goal with
         | H1 : ?o = Return ?a, H2 : ?o = Return ?b |- _ =>
             rewrite H1 in H2; injection H2 as <-
         end.

Ltac follow_reads :=
  cbn [mbind Outcome_bind];
  repeat match goal with
         | H : ?o = Return _ |- context [?o] => rewrite H; cbn [mbind Outcome_bind]
         end.

(** X25.  An entity Tencent builds for a card is made of the card and of the
    store embedded in the cover page of the card's [cid].  The cover page
    was served and held a store, which is decoded after the three
    replacements.  Title, genre and release date are the card's ["title"],
    ["main_genre"] and ["epsode_pubtime"], the genre as the only one.  Cover
    and intro are ["new_pic_vt"] and ["description"] of the store's cover
    information, the actors the ["star_name"] of each star of the store.
    The score is read in the store: it is what [float] reads in the text of
    the fourth tag of the first introduction item, without a trailing "分",
    or the sentinel when [float] refuses that text.  The metadata names
    Tencent and the [cid]; there is no director. *)
Theorem get_movie_detail_copies_the_card
    (host : Host) (cid item : PyValue) (ent : MovieEntity) :
  Tencent.get_movie_detail host cid item = Return ent ->
  (exists params genre,
     getitem item "params" = Return params /\
     getitem params "title" = Return (title ent) /\
     getitem params "main_genre" = Return genre /\ movie_type ent = [genre] /\
     getitem params "epsode_pubtime" = Return (release_date ent)) /\
  (exists response found rest store,
     http_get host (Tencent.cover_url_of host cid) None = Return response /\
     findall_pinia host (text response) = found :: rest /\
     json_loads host
       (Str.replace "})" "}"
          (Str.replace "Array.prototype.slice.call(" ""
             (Str.replace "undefined" "null" found))) = Return store /\
     (exists tag_text,
        (introduction ← getitem store "introduction";
         intro_data ← getitem introduction "introData";
         intro_list ← getitem intro_data "list";
         intro_first ← getindex intro_list 0;
         item_params ← getitem intro_first "item_params";
         imgtag_ver ← getitem item_params "imgtag_ver";
         tags ← py_json_loads host imgtag_ver;
         tag_4 ← getitem tags "tag_4";
         getitem tag_4 "text") = Return tag_text /\
        score ent
        = default minus_one
            (float_of_str host (Str.removesuffix "分" (py_str host tag_text)))) /\
     (global_data ← getitem store "global";
      cover_info ← getitem global_data "coverInfo";
      getitem cover_info "new_pic_vt") = Return (cover_url ent) /\
     (global_data ← getitem store "global";
      cover_info ← getitem global_data "coverInfo";
      getitem cover_info "description") = Return (intro ent) /\
     (introduction ← getitem store "introduction";
      star_data ← getitem introduction "starData";
      actor_list ← getitem star_data "list";
      stars ← iterate actor_list;
      mapM (fun star => getitem star "star_name") stars) = Return (actors ent)) /\
  dict_lookup "cid" (metadata ent) = Some cid /\
  from_source "Tencent" ent /\
  directors ent = [].
Proof.
  unfold Tencent.get_movie_detail. intros H.
  apply bind_outcome_return in H as (response & Hget & H).
  apply bind_outcome_return in H as (found & Hfound & H).
  cbv zeta in H.
  apply bind_outcome_return in H as (store & Hstore & H).
  apply bind_outcome_return in H as (introduction & ? & H).
  apply bind_outcome_return in H as (star_data & ? & H).
  apply bind_outcome_return in H as (actor_list & ? & H).
  apply bind_outcome_return in H as (introduction' & ? & H).
  apply bind_outcome_return in H as (intro_data & ? & H).
  apply bind_outcome_return in H as (intro_list & ? & H).
  apply bind_outcome_return in H as (intro_first & ? & H).
  apply bind_outcome_return in H as (item_params & ? & H).
  apply bind_outcome_return in H as (imgtag_ver & ? & H).
  apply bind_outcome_return in H as (tags & ? & H).
  apply bind_outcome_return in H as (tag_4 & ? & H).
  apply bind_outcome_return in H as (tag_text & ? & H).
  apply bind_outcome_return in H as (sc & Hsc & H).
  apply bind_outcome_return in H as (global_data & ? & H).
  apply bind_outcome_return in H as (cover_info & ? & H).
  apply bind_outcome_return in H as (params & Hparams & H).
  apply bind_outcome_return in H as (card_title & Htitle & H).
  apply bind_outcome_return in H as (new_pic_vt & ? & H).
  apply bind_outcome_return in H as (description & ? & H).
  apply bind_outcome_return in H as (params' & Hparams' & H).
  apply bind_outcome_return in H as (main_genre & Hgenre & H).
  apply bind_outcome_return in H as (params'' & Hparams'' & H).
  apply bind_outcome_return in H as (epsode_pubtime & Hdate & H).
  apply bind_outcome_return in H as (stars & ? & H).
  apply bind_outcome_return in H as (star_names & ? & H).
  invert_binds H. injection H as <-.
  rewrite Hparams in Hparams', Hparams''.
  injection Hparams' as <-. injection Hparams'' as <-.
  rewrite safe_float_conversion_on_text in Hsc. injection Hsc as <-.
  same_reads.
  unfold from_source.
  cbn [title movie_type release_date cover_url intro actors score metadata directors
       dict_lookup String.eqb Ascii.eqb Bool.eqb].
  split; [eauto 10|].
  split; [|repeat split].
  destruct (findall_pinia host (text response)) as [|m rest] eqn:F; [discriminate|].
  injection Hfound as ->.
  exists response, found, rest, store.
  split; [exact Hget|]. split; [exact F|]. split; [exact Hstore|].
  split; [exists tag_text; split; [now follow_reads | reflexivity]|].
  split; [now follow_reads|]. split; now follow_reads.
Qed.

Lemma get_movie_detail_copies_the_card_witness :
  exists ent,
    Tencent.get_movie_detail cover_host (PyStr "c1") tencent_full_card = Return ent /\
    title ent = PyStr "t" /\
    movie_type ent = [PyStr "g"] /\
    actors ent = [PyStr "star"] /\
    dict_lookup "cid" (metadata ent) = Some (PyStr "c1") /\
    Literal.parse "8.5" = Some (score ent).
Proof.
  eexists. split; [reflexivity|].
  destruct (get_movie_detail_copies_the_card cover_host (PyStr "c1") tencent_full_card _
              eq_refl) as ((params & genre & Hp & Ht & Hg & Hm & _) & _ & Hcid & _).
  repeat split; assumption || reflexivity.
Defined.

(** ** Bilibili: the unit suffixes *)

Lemma substring_whole (s : string) : String.substring 0 (String.length s) s = s.
Proof. induction s as [|c s IH]; cbn; [reflexivity | f_equal; exact IH]. Qed.

Lemma append_cons (c : ascii) (s p : string) : String c s +:+ p = String c (s +:+ p).
Proof. reflexivity. Qed.

Lemma substring_append_left (s p : string) :
  String.substring 0 (String.length s) (s +:+ p) = s.
Proof.
  induction s as [|c s IH]; [now destruct p|].
  rewrite append_cons. cbn. f_equal. exact IH.
Qed.

Lemma substring_append_right (s p : string) :
  String.substring (String.length s) (String.length p) (s +:+ p) = p.
Proof.
  induction s as [|c s IH]; [apply substring_whole|].
  rewrite append_cons. cbn. exact IH.
Qed.

Lemma length_append (s p : string) :
  String.length (s +:+ p) = (String.length s + String.length p)%nat.
Proof.
  induction s as [|c s IH]; [reflexivity|].
  rewrite append_cons. cbn. f_equal. exact IH.
Qed.

Lemma removesuffix_append (s p : string) : Str.removesuffix p (s +:+ p) = s.
Proof.
  unfold Str.removesuffix. cbv zeta. rewrite length_append.
  replace (String.length s + String.length p - String.length p)%nat with (String.length s)
    by lia.
  rewrite substring_append_right, String.eqb_refl, substring_append_left.
  destruct (Nat.leb_spec (String.length p) (String.length s + String.length p)); [|lia].
  reflexivity.
Qed.

(** X26.  Bilibili strips the unit from the two texts it shows with one: for
    a film whose ["index_show"] is a date followed by "上映" and whose
    ["order"] is a count followed by "次播放", the entity's release date is
    the date and the ["order"] of its metadata is the count. *)
Theorem bilibili_entity_drops_the_unit_suffixes
    (host : Host) (item : PyValue) (eq_id : string) (ent : MovieEntity) (date plays : string) :
  Bilibili.create_movie_entity host item eq_id = Return ent ->
  getitem item "index_show" = Return (PyStr (date +:+ "上映")) ->
  getitem item "order" = Return (PyStr (plays +:+ "次播放")) ->
  release_date ent = PyStr date /\
  dict_lookup "order" (metadata ent) = Some (PyStr plays).
Proof.
  unfold Bilibili.create_movie_entity. intros H Hshow Horder.
  invert_binds H. injection H as <-. same_reads.
  cbn. now rewrite !removesuffix_append.
Qed.

Lemma bilibili_entity_drops_the_unit_suffixes_witness :
  exists ent,
    Bilibili.create_movie_entity (serving 200 bilibili_listing []) (bilibili_film "one" 101)
      "101" = Return ent /\
    release_date ent = PyStr "2020" /\
    dict_lookup "order" (metadata ent) = Some (PyStr "5").
Proof.
  eexists. split; [reflexivity|].
  eapply (bilibili_entity_drops_the_unit_suffixes (serving 200 bilibili_listing [])
            (bilibili_film "one" 101) "101" _ "2020" "5"); reflexivity.
Defined.

(** ** iQiYi: the people and the date of an element *)

Lemma names_of_one_per_person (people : PyValue) (names : list PyValue) :
  IQiYi.names_of people = Return names ->
  exists persons,
    iterate people = Return persons /\
    Forall2 (fun person name => getitem person "name" = Return name) persons names.
Proof.
  unfold IQiYi.names_of. intros H.
  apply bind_outcome_return in H as (persons & Hiter & H).
  exists persons. split; [exact Hiter | now apply mapM_returns_Forall2].
Qed.

(** X27.  An entity iQiYi builds is made of its element: title, cover and
    intro are the element's ["title"], ["album_image_url_hover"] and
    ["description"]; the directors are the ["name"] of each ["creator"] and
    the actors the ["name"] of each ["contributor"], one per person and in
    order; the release date is year, month and day of the element's
    ["date"] joined by hyphens, none of them padded. *)
Theorem iqiyi_entity_copies_the_element
    (host : Host) (data : PyValue) (ent : MovieEntity) :
  IQiYi.entity_of host data = Return ent ->
  getitem data "title" = Return (title ent) /\
  getitem data "album_image_url_hover" = Return (cover_url ent) /\
  getitem data "description" = Return (intro ent) /\
  (exists creator persons,
     getitem data "creator" = Return creator /\ iterate creator = Return persons /\
     Forall2 (fun person name => getitem person "name" = Return name)
             persons (directors ent)) /\
  (exists contributor persons,
     getitem data "contributor" = Return contributor /\ iterate contributor = Return persons /\
     Forall2 (fun person name => getitem person "name" = Return name)
             persons (actors ent)) /\
  (exists date year month day,
     getitem data "date" = Return date /\
     getitem date "year" = Return year /\
     getitem date "month" = Return month /\
     getitem date "day" = Return day /\
     release_date ent
     = PyStr (py_str host year +:+ "-" +:+ py_str host month +:+ "-" +:+ py_str host day)).
Proof.
  unfold IQiYi.entity_of. intros H.
  apply bind_outcome_return in H as (title & Htitle & H).
  apply bind_outcome_return in H as (hover & Hhover & H).
  apply bind_outcome_return in H as (creator & Hcreator & H).
  apply bind_outcome_return in H as (directors & Hdirectors & H).
  apply bind_outcome_return in H as (contributor & Hcontributor & H).
  apply bind_outcome_return in H as (actors & Hactors & H).
  apply bind_outcome_return in H as (date & Hdate & H).
  apply bind_outcome_return in H as (year & Hyear & H).
  apply bind_outcome_return in H as (date' & Hdate' & H).
  apply bind_outcome_return in H as (month & Hmonth & H).
  apply bind_outcome_return in H as (date'' & Hdate'' & H).
  apply bind_outcome_return in H as (day & Hday & H).
  apply bind_outcome_return in H as (description & Hdescription & H).
  invert_binds H. injection H as <-.
  rewrite Hdate in Hdate', Hdate''. injection Hdate' as <-. injection Hdate'' as <-.
  apply names_of_one_per_person in Hdirectors as (creators & ? & ?).
  apply names_of_one_per_person in Hactors as (contributors & ? & ?).
  cbn. split; [assumption|]. split; [assumption|]. split; [assumption|].
  split; [eauto|]. split; [eauto|]. eauto 10.
Qed.

Lemma iqiyi_entity_copies_the_element_witness :
  let element :=
    PyDict
      [ ("title", PyStr "t"); ("album_image_url_hover", PyStr "h.png");
        ("creator", PyList [ PyDict [ ("name", PyStr "d") ] ]);
        ("contributor", PyList [ PyDict [ ("name", PyStr "a") ];
                                 PyDict [ ("name", PyStr "b") ] ]);
        ("date", PyDict [ ("year", PyInt 2020); ("month", PyInt 1); ("day", PyInt 2) ]);
        ("description", PyStr "x"); ("tag", PyStr "g1;g2");
        ("uploader_id", PyInt 1); ("order", PyInt 2);
        ("entity_id", PyInt 3); ("album_id", PyInt 4); ("tv_id", PyInt 5) ] in
  exists ent,
    IQiYi.entity_of (serving 200 PyNone []) element = Return ent /\
    getitem element "title" = Return (title ent) /\
    actors ent = [PyStr "a"; PyStr "b"] /\
    movie_type ent = [PyStr "g1"; PyStr "g2"].
Proof.
  intros element. eexists. split; [reflexivity|].
  destruct (iqiyi_entity_copies_the_element (serving 200 PyNone []) element _ eq_refl)
    as (Ht & _).
  split; [exact Ht|]. split; reflexivity.
Defined.

(** ** A page Tencent refused *)

(** X28.  A Tencent page answered with a return code other than zero leaves
    its run unfinished: the run raises, the batch trace gains the PENDING
    event of the page and nothing else, the persistence trace and the sink
    are not touched, and no delay is applied; the refused answer is
    nevertheless in the snapshot cache under (tencent, page). *)
Theorem tencent_refused_page_stays_pending
    (host : Host) (collection : Collection) (page : Z) (w : World)
    (p : PyValue) (response : Response) (json_object ret : PyValue) :
  tencent_request page (tencent_payload (shared w)) = Return p ->
  http_post host Tencent.base_url p = Return response ->
  json_loads host (text response) = Return json_object ->
  getitem json_object "ret" = Return ret ->
  differs_from_zero ret = true ->
  exists e w' pending,
    Tencent.run_async host collection page w = (Raise e, w') /\
    batch_trace w' = batch_trace w ++ [pending] /\
    ev_status pending = PENDING /\ ev_source pending = Tencent.platform /\
    ev_batch pending = page /\
    db_trace w' = db_trace w /\
    insert_calls w' = insert_calls w /\
    stored w' = stored w /\
    sleeps w' = sleeps w /\
    snapshots (shared w') !! (Tencent.platform, page) = Some json_object.
Proof.
  intros Hp Hpost Hjson Hret Hnz.
  destruct (tencent_bad_ret_raises host page (shared w) p response json_object ret
              Hp Hpost Hjson Hret Hnz) as (e & Hfetch & _).
  destruct (run_fetch_raises (wall_clock host) Tencent.platform collection page
              Tencent.pagesize (Tencent.raw_fetch_async host page) w e _ Hfetch)
    as (w' & Hrun & Hs & _ & Hb & Hd & Hst & Hi & Hsl).
  exists e, w'. eexists. unfold Tencent.run_async.
  split; [exact Hrun|]. split; [exact Hb|]. rewrite Hs. cbn.
  rewrite lookup_insert_eq. repeat split; assumption.
Qed.

Lemma tencent_refused_page_stays_pending_witness :
  exists e w',
    Tencent.run_async (serving 200 tencent_error []) accepting 2 initial_world
      = (Raise e, w') /\
    map ev_status (batch_trace w') = [PENDING] /\
    insert_calls w' = [] /\
    snapshots (shared w') !! (Tencent.platform, 2) = Some tencent_error.
Proof.
  destruct (tencent_refused_page_stays_pending (serving 200 tencent_error []) accepting 2
              initial_world _ _ tencent_error (PyInt 1001)
              eq_refl eq_refl eq_refl eq_refl eq_refl)
    as (e & w' & pending & Hrun & Hb & Hp & _ & _ & _ & Hi & _ & _ & Hsnap).
  exists e, w'. rewrite Hb. cbn. rewrite Hp. repeat split; assumption.
Defined.
